(** * exl: tag-driven mapping between spreadsheet rows and Go structs

    A shallow embedding of the read path ([ReadBinary], [GetUnmarshalFunc],
    [unmarshalPointer]) and of the write path ([write0], [write],
    [NewFileFromSlice]) of package [exl], together with the properties of the
    mapping engine that the design document states.

    Go's [reflect], [time], [strconv] and the spreadsheet container
    [github.com/tealeg/xlsx/v3] are modelled as far as the engine looks into
    them; what the engine only calls (number parsing, date arithmetic, the
    conversion routines of unmarshal.go) is collected in [Externals]. *)

From Stdlib Require Import ZArith NArith Ascii String List Bool Lia.
From stdpp Require Import base decidable option list gmap strings pretty sorting.

#[local] Set Warnings "-register-all".

Local Open Scope Z_scope.
Local Open Scope string_scope.

(** ** Outcomes of Go code that may panic *)

Inductive res (A : Type) : Type :=
  | ok (a : A)
  | panic (msg : string).
Arguments ok {A} a.
Arguments panic {A} msg.

#[global] Instance res_ret : MRet res := fun A a => ok a.

#[global] Instance res_bind : MBind res := fun A B k m =>
  match m with
  | ok a => k a
  | panic msg => panic msg
  end.

(** ** package time *)

Module time.
(** A [time.Time], identified by the instant it denotes. The zero value
    [time.Time{}] is instant 0. *)
Inductive Time : Type := Instant (t : Z).

#[global] Instance Time_eq_dec : EqDecision Time.
Proof. solve_decision. Defined.

Definition zero : Time := Instant 0.
End time.

(** [float64] values are carried as their IEEE-754 bit pattern; the engine
    never computes with them, it only passes them between library calls. *)
Definition float64 : Type := Z.

(** ** package reflect *)

Module reflect.

Inductive Kind : Type :=
  | Invalid | Bool
  | Int | Int8 | Int16 | Int32 | Int64
  | Uint | Uint8 | Uint16 | Uint32 | Uint64 | Uintptr
  | Float32 | Float64 | Complex64 | Complex128
  | Array | Chan | Func | Interface | Map | Ptr | Slice
  | String | Struct | UnsafePointer.

#[global] Instance Kind_eq_dec : EqDecision Kind.
Proof. solve_decision. Defined.

(** Go types as far as the engine distinguishes them: the predeclared type
    of a kind ([bool], [int], ..., [string]; for a composite kind, some
    unnamed type of that kind), a defined type with its underlying kind,
    [time.Time], and pointers. Pointer types are the [PtrTo] ones: a
    defined type whose underlying type is a pointer is not modelled, so
    the kind of a [Basic] or [Named] type is not meant to be [Ptr]. *)
Inductive rtype : Type :=
  | Basic (k : Kind)
  | Named (name : string) (k : Kind)
  | TimeTime
  | PtrTo (elem : rtype).

#[global] Instance rtype_eq_dec : EqDecision rtype.
Proof. solve_decision. Defined.

Definition kindOf (t : rtype) : Kind :=
  match t with
  | Basic k => k
  | Named _ k => k
  | TimeTime => Struct
  | PtrTo _ => Ptr
  end.

(** [Type.Elem()]; it panics on a type that has no element type. *)
Definition elemOf (t : rtype) : res rtype :=
  match t with
  | PtrTo e => ok e
  | _ => panic "reflect: Elem of invalid type"
  end.

(** The contents of a variable. *)
Inductive data : Type :=
  | DBool (b : bool)
  | DInt (i : Z)
  | DUint (u : Z)
  | DFloat (f : float64)
  | DString (s : string)
  | DTime (t : time.Time)
  | DPtr (p : option data)
  | DOpaque.

#[global] Instance data_eq_dec : EqDecision data.
Proof.
  refine (fix go (x y : data) {struct x} : Decision (x = y) :=
    match x, y with
    | DBool a, DBool b => cast_if (decide (a = b))
    | DInt a, DInt b => cast_if (decide (a = b))
    | DUint a, DUint b => cast_if (decide (a = b))
    | DFloat a, DFloat b => cast_if (decide (a = b))
    | DString a, DString b => cast_if (decide (a = b))
    | DTime a, DTime b => cast_if (decide (a = b))
    | DPtr None, DPtr None => left _
    | DPtr (Some a), DPtr (Some b) => cast_if (go a b)
    | DOpaque, DOpaque => left _
    | _, _ => right _
    end); congruence.
Defined.

(** The zero value of a type. *)
Definition zeroOf (t : rtype) : data :=
  match t with
  | TimeTime => DTime time.zero
  | PtrTo _ => DPtr None
  | Basic k | Named _ k =>
      match k with
      | Bool => DBool false
      | Int | Int8 | Int16 | Int32 | Int64 => DInt 0
      | Uint | Uint8 | Uint16 | Uint32 | Uint64 | Uintptr => DUint 0
      | Float32 | Float64 => DFloat 0
      | String => DString EmptyString
      | Ptr => DPtr None
      | _ => DOpaque
      end
  end.

(** A [reflect.Value]: a typed variable, with the read-only flag that a
    value obtained through an unexported struct field carries. *)
Record Value : Type := mkValue {
  typ : rtype;
  dat : data;
  flagRO : bool
}.

Definition Type_ (v : Value) : rtype := typ v.
Definition Kind_ (v : Value) : Kind := kindOf (typ v).

(** Every value the engine inspects is a field of an addressable struct,
    so it can be set, and turned into an interface, unless it is
    read-only. *)
Definition CanSet (v : Value) : bool := negb (flagRO v).
Definition CanInterface (v : Value) : bool := negb (flagRO v).

(** [reflect.ValueOf(&x)] for a variable [x] of type [t]. *)
Definition ValueOfAddr (t : rtype) (d : data) : Value :=
  mkValue (PtrTo t) (DPtr (Some d)) false.

(** [reflect.New(t)]: a pointer to a fresh zero value. *)
Definition New (t : rtype) : Value := ValueOfAddr t (zeroOf t).

(** [v.Set(x)]: the new contents of [v]. The engine sets pointer fields
    to pointers only, and one pointer type is assignable to another exactly
    when the two are identical. *)
Definition Set_ (v x : Value) : res data :=
  if negb (CanSet v) then
    panic "reflect: reflect.Value.Set using value obtained using unexported field"
  else if bool_decide (typ x = typ v) then ok (dat x)
  else panic "reflect.Set: value is not assignable to the destination type".

Definition SetBool (v : Value) (b : bool) : res data :=
  if negb (CanSet v) then
    panic "reflect: reflect.Value.SetBool using value obtained using unexported field"
  else if bool_decide (Kind_ v = Bool) then ok (DBool b)
  else panic "reflect: call of reflect.Value.SetBool on non-bool Value".

Definition SetString (v : Value) (s : string) : res data :=
  if negb (CanSet v) then
    panic "reflect: reflect.Value.SetString using value obtained using unexported field"
  else if bool_decide (Kind_ v = String) then ok (DString s)
  else panic "reflect: call of reflect.Value.SetString on non-string Value".

(** [v.Elem()] of a non-nil pointer: the variable it points to. The
    engine calls it on nothing else. *)
Definition Elem (v : Value) : Value :=
  match typ v, dat v with
  | PtrTo e, DPtr (Some d) => mkValue e d (flagRO v)
  | _, _ => v
  end.

Definition IsNil (v : Value) : bool :=
  match dat v with
  | DPtr None => true
  | _ => false
  end.

(** A struct tag, as the key/value pairs it spells. *)
Abbreviation StructTag := (list (string * string)) (only parsing).

Fixpoint Lookup (tag : StructTag) (key : string) : option string :=
  match tag with
  | [] => None
  | (k, v) :: rest => if String.eqb k key then Some v else Lookup rest key
  end.

Record StructField : Type := mkStructField {
  Name : string;
  PkgPath : string;
  FieldType : rtype;
  Tag : StructTag
}.

(** A field is exported when its package path is empty. *)
Definition IsExported (f : StructField) : bool := String.eqb (PkgPath f) EmptyString.

End reflect.

(** ** package xlsx: the in-memory document *)

Module xlsx.

Record Cell : Type := mkCell {
  Value : string;
  NumFmt : string
}.

Abbreviation Row := (list Cell) (only parsing).

(** A value constraint attached to a cell range: [NewDataValidation],
    then [SetDropList] and [SetError]. *)
Record DataValidation : Type := mkDataValidation {
  startRow : Z;
  startCol : Z;
  endRow : Z;
  endCol : Z;
  allowBlank : bool;
  dropList : list string;
  errorTitle : string;
  errorMsg : string
}.

Record Sheet : Type := mkSheet {
  Name : string;
  Rows : list Row;
  MaxRow : Z;
  MaxCol : Z;
  DataValidations : list DataValidation
}.

(** [File.Sheets] in order; [File.Sheet], the same sheets keyed by name,
    has as many entries. *)
Record File : Type := mkFile {
  Sheets : list Sheet;
  Date1904 : bool
}.

Definition emptyCell : Cell := mkCell EmptyString EmptyString.

(** [sheet.Row(idx)]: the stored row, or nil. *)
Definition Row_ (sheet : Sheet) (idx : Z) : option Row :=
  if bool_decide (idx < 0) then None else Rows sheet !! Z.to_nat idx.

(** [row.GetCell(i)]: the cell, an empty one past the end of the row. *)
Definition GetCell (row : Row) (i : Z) : Cell :=
  default emptyCell (row !! Z.to_nat i).

Definition NewFile : File := mkFile [] false.

(** Number of runes of a UTF-8 string: the bytes that are not
    continuation bytes. *)
Fixpoint runeCount (s : string) : Z :=
  match s with
  | EmptyString => 0
  | String.String c rest =>
      (if bool_decide (Z.land (Z.of_N (N_of_ascii c)) 192 = 128) then 0 else 1)
      + runeCount rest
  end.

Fixpoint hasForbiddenRune (s : string) : bool :=
  match s with
  | EmptyString => false
  | String.String c rest =>
      (if bool_decide (c ∈ [":"; "\"; "/"; "?"; "*"; "["; "]"]%char) then true else false)
      || hasForbiddenRune rest
  end.

Definition IsSaneSheetName (sheetName : string) : bool :=
  let runeLength := runeCount sheetName in
  negb (bool_decide (runeLength > 31) || bool_decide (runeLength = 0))
  && negb (hasForbiddenRune sheetName).

(** [f.AddSheet(name)]: the fresh sheet, or nil when the name is taken or
    not a legal sheet name. *)
Definition AddSheet (f : File) (sheetName : string) : option Sheet :=
  if existsb (fun s => String.eqb (Name s) sheetName) (Sheets f) then None
  else if negb (IsSaneSheetName sheetName) then None
  else Some (mkSheet sheetName [] 0 0 []).

(** The file once the sheet handed out by [AddSheet] has been filled. *)
Definition attach (f : File) (sheet : Sheet) : File :=
  mkFile (Sheets f ++ [sheet]) (Date1904 f).

(** [sheet.AddRow()] followed by one [AddCell] per given cell. *)
Definition AddRowOf (sheet : Sheet) (cells : list Cell) : Sheet :=
  mkSheet (Name sheet) (Rows sheet ++ [cells]) (MaxRow sheet + 1)
          (Z.max (MaxCol sheet) (Z.of_nat (length cells)))
          (DataValidations sheet).

Definition AddDataValidation (sheet : Sheet) (dd : DataValidation) : Sheet :=
  mkSheet (Name sheet) (Rows sheet) (MaxRow sheet) (MaxCol sheet)
          (DataValidations sheet ++ [dd]).

Definition SetString (s : string) : Cell := mkCell s EmptyString.

Definition DefaultDateFormat : string := "m/d/yy".

End xlsx.

(** ** Errors *)

(** Values of Go's [error] made by [errors.New] and by [fmt.Errorf] with a
    wrapped cause. *)
Inductive error_ : Type :=
  | errorString (s : string)
  | wrapError (msg : string) (err : error_).

Definition Error_ (e : error_) : string :=
  match e with
  | errorString s => s
  | wrapError msg _ => msg
  end.

Record FieldError : Type := mkFieldError {
  RowIndex : Z;
  ColumnIndex : Z;
  ColumnHeader : string;
  Err : error_
}.

Record ContentError : Type := mkContentError {
  FieldErrors : list FieldError;
  LimitReached : bool
}.

(** The dynamic types of the errors that the read entry points return. *)
Inductive error : Type :=
  | plainError (e : error_)
  | ofFieldError (fe : FieldError)
  | ofContentError (ce : ContentError).

Definition UnmarshalErrorHandling : Type := N.
Definition UnmarshalErrorIgnore : UnmarshalErrorHandling := 0%N.
Definition UnmarshalErrorAbort : UnmarshalErrorHandling := 1%N.
Definition UnmarshalErrorCollect : UnmarshalErrorHandling := 2%N.

Definition ErrSheetIndexOutOfRange : error_ := errorString "exl: sheet index out of range".
Definition ErrHeaderRowIndexOutOfRange : error_ := errorString "exl: header row index out of range".
Definition ErrDataStartRowIndexOutOfRange : error_ := errorString "exl: data start row index out of range".
Definition ErrNoUnmarshaler : error_ := errorString "no unmarshaler".
Definition ErrNoDestinationField : error_ := errorString "no destination field with matching tag".

Definition dquote : string := String "034"%char EmptyString.

(** [fmt.Errorf("%w for column \"%s\" at index %d", err, header, columnIndex)] *)
Definition Errorf_column (err : error_) (header : string) (columnIndex : Z) : error_ :=
  wrapError (Error_ err ++ " for column " ++ dquote ++ header ++ dquote
             ++ " at index " ++ pretty columnIndex) err.

(** ** Configuration *)

Record DropListItem : Type := mkDropListItem {
  Key : string;
  Value : string
}.

Module ReadConfig.
Record t : Type := mk {
  TagName : string;
  SheetIndex : Z;
  HeaderRowIndex : Z;
  DataStartRowIndex : Z;
  TrimSpace : bool;
  FallbackDateFormats : list string;
  SkipUnknownColumns : bool;
  SkipUnknownTypes : bool;
  UnmarshalErrorHandling_ : UnmarshalErrorHandling;
  MaxUnmarshalErrors : N;
  DropListMap : option (gmap string (list DropListItem));
  PointerCanNil : bool
}.
End ReadConfig.

Module WriteConfig.
Record t : Type := mk {
  SheetName : string;
  TagName : string;
  SkipNoTag : bool;
  SkipNilPointer : bool;
  DropListMap : option (gmap string (list DropListItem));
  ChineseBool : bool;
  WriteTimeFmt : string
}.
End WriteConfig.

Definition defaultReadConfig : ReadConfig.t :=
  ReadConfig.mk "excel" 0 0 1 false [] true false UnmarshalErrorAbort 10 None false.

Definition defaultWriteConfig : WriteConfig.t :=
  WriteConfig.mk "Sheet1" "excel" false false None false xlsx.DefaultDateFormat.

Record ExcelUnmarshalParameters : Type := mkExcelUnmarshalParameters {
  TrimSpace : bool;
  Date1904 : bool;
  FallbackDateFormats : list string
}.

(** ** Record types *)

(** A record, as the contents of its fields in declaration order. *)
Abbreviation Record_ := (list reflect.data) (only parsing).

(** The struct type behind a type parameter [T], with the two configuration
    callbacks that [T] implements. *)
Record StructType : Type := mkStructType {
  Fields : list reflect.StructField;
  ReadConfigure : ReadConfig.t -> ReadConfig.t;
  WriteConfigure : Record_ -> WriteConfig.t -> WriteConfig.t
}.

Definition NumField (typ : StructType) : nat := length (Fields typ).

(** [reflect.New(typ).Elem()]: a zero record. *)
Definition zeroRecord (typ : StructType) : Record_ :=
  (fun f => reflect.zeroOf (reflect.FieldType f)) <$> Fields typ.

(** [val.Field(i)]; it panics when [i] is out of range. *)
Definition Field (typ : StructType) (val : Record_) (i : nat) : res reflect.Value :=
  match Fields typ !! i, val !! i with
  | Some f, Some d =>
      ok (reflect.mkValue (reflect.FieldType f) d (negb (reflect.IsExported f)))
  | _, _ => panic "reflect: Field index out of range"
  end.

(** ** What the engine calls but does not define *)

(** What the interface value that [getFieldInterface] returns for a field
    can be asserted to. *)
Record MethodSet : Type := mkMethodSet {
  isExcelUnmarshaler : bool;
  isTextUnmarshaler : bool
}.

(** A conversion routine: given the destination, the cell and the shared
    parameters, the new contents of the destination and the error. *)
Definition UnmarshalExcelFunc : Type :=
  reflect.Value -> xlsx.Cell -> ExcelUnmarshalParameters ->
  res (reflect.data * option error_).

Record Externals : Type := mkExternals {
  (* unmarshal.go *)
  getFieldInterface : reflect.Value -> option MethodSet;
  UnmarshalExcelUnmarshaler : UnmarshalExcelFunc;
  UnmarshalTime : UnmarshalExcelFunc;
  UnmarshalTextUnmarshaler : UnmarshalExcelFunc;
  DefaultUnmarshalFuncs : reflect.Kind -> option UnmarshalExcelFunc;
  (* strconv *)
  strconv_ParseFloat : string -> Z -> float64 * option error_;
  (* xlsx *)
  xlsx_TimeFromExcelTime : float64 -> bool -> time.Time;
  xlsx_OpenBinary : list Byte.byte -> xlsx.File + error_;
  xlsx_SetValue : reflect.rtype -> reflect.data -> xlsx.Cell;
  xlsx_SetDateWithOptions : time.Time -> string -> xlsx.Cell
}.

(** ** Control flow of a loop body *)

(** One iteration either falls through to the next one with a new state,
    or leaves the function with its return values, or panics. *)
Inductive flow (S R : Type) : Type :=
  | Next (s : S)
  | Return (r : R)
  | Panics (msg : string).
Arguments Next {S R} s.
Arguments Return {S R} r.
Arguments Panics {S R} msg.

Fixpoint forEach {S R B : Type} (body : S -> B -> flow S R) (l : list B) (s : S)
  : flow S R :=
  match l with
  | [] => Next s
  | b :: rest =>
      match body s b with
      | Next s' => forEach body rest s'
      | Return r => Return r
      | Panics msg => Panics msg
      end
  end.

(** [for i, x := range l]: the elements with their indices. *)
Definition indexed {B : Type} (l : list B) : list (Z * B) :=
  imap (fun i x => (Z.of_nat i, x)) l.

Definition liftRes {S R A : Type} (m : res A) (k : A -> flow S R) : flow S R :=
  match m with
  | ok a => k a
  | panic msg => Panics msg
  end.

(** * The read path *)

Section Read.

Context (E : Externals).

Definition unmarshalPointer (destPointer : reflect.Value) (cell : xlsx.Cell)
    (params : ExcelUnmarshalParameters) (unmarshalFunc : UnmarshalExcelFunc)
  : res (reflect.data * option error_) :=
  (* Create new pointer to the field value, as the pointer may be nil *)
  elemType ← reflect.elemOf (reflect.Type_ destPointer);
  fresh ← reflect.Set_ destPointer (reflect.New elemType);
  (* Unmarshal into that new value *)
  let destValue := reflect.mkValue elemType (reflect.zeroOf elemType) false in
  r ← unmarshalFunc destValue cell params;
  ok (reflect.DPtr (Some r.1), r.2).

Definition GetUnmarshalFunc (destField : reflect.Value) : option UnmarshalExcelFunc :=
  let special :=
    if reflect.CanInterface destField then
      match getFieldInterface E destField with
      | Some inf =>
          (* Prefer ExcelUnmarshaler, if implemented *)
          if isExcelUnmarshaler inf then Some (UnmarshalExcelUnmarshaler E)
          (* Then handle specific types with special implementation *)
          else if bool_decide (reflect.Type_ destField = reflect.TimeTime)
          then Some (UnmarshalTime E)
          (* Then utilize TextUnmarshaler *)
          else if isTextUnmarshaler inf then Some (UnmarshalTextUnmarshaler E)
          else None
      | None => None
      end
    else None in
  match special with
  | Some f => Some f
  | None =>
      (* And for primitive types, use custom unmarshalling func *)
      let '(kind, isPointer) :=
        match reflect.Type_ destField with
        | reflect.PtrTo e => (reflect.kindOf e, true)
        | t => (reflect.kindOf t, false)
        end in
      match DefaultUnmarshalFuncs E kind with
      | Some unmarshalFunc =>
          if isPointer then
            Some (fun destValue cell params =>
                    unmarshalPointer destValue cell params unmarshalFunc)
          else Some unmarshalFunc
      | None => None
      end
  end.

Record fieldInfo : Type := mkFieldInfo {
  reflectFieldIndex : nat;
  header : string;
  unmarshalFunc : option UnmarshalExcelFunc
}.

Definition readStrings (maxCol : Z) (row : xlsx.Row) : list string :=
  (fun i => xlsx.Value (xlsx.GetCell row i)) <$> seqZ 0 maxCol.

(** One iteration of the tag loop: a field that has a tag string with
    the configured key is entered under that tag. *)
Definition tagStep (rc : ReadConfig.t) (m : gmap string nat)
    (p : nat * reflect.StructField) : gmap string nat :=
  let '(i, f) := p in
  let ta := reflect.Tag f in
  if bool_decide (ta ≠ []) then
    match reflect.Lookup ta (ReadConfig.TagName rc) with
    | Some tt_ => <[tt_ := i]> m
    | None => m
    end
  else m.

(** Key: Header / Tag name. Value: Reflection field index. *)
Definition tagToFieldMap (rc : ReadConfig.t) (typ : StructType) : gmap string nat :=
  foldl (tagStep rc) ∅ (imap (fun i f => (i, f)) (Fields typ)).

(** One iteration of the header loop: the binding of one column, or the
    error that ends the call. *)
Definition bindColumn (rc : ReadConfig.t) (typ : StructType)
    (tagMap : gmap string nat) (val : Record_) (columnIndex : Z) (header : string)
  : flow fieldInfo error_ :=
  match tagMap !! header with
  | None =>
      if ReadConfig.SkipUnknownColumns rc then
        (* Skip reading this field *)
        Next (mkFieldInfo 0 header None)
      else Return (Errorf_column ErrNoDestinationField header columnIndex)
  | Some reflectFieldIndex =>
      liftRes (Field typ val reflectFieldIndex) (fun field =>
      match GetUnmarshalFunc field with
      | None =>
          if ReadConfig.SkipUnknownTypes rc then
            (* Skip reading this field *)
            Next (mkFieldInfo reflectFieldIndex header None)
          else Return (Errorf_column ErrNoUnmarshaler header columnIndex)
      | Some unmarshaler =>
          Next (mkFieldInfo reflectFieldIndex header (Some unmarshaler))
      end)
  end.

(** The header loop: [columnFields], one entry per header. *)
Definition bindColumns (rc : ReadConfig.t) (typ : StructType)
    (tagMap : gmap string nat) (headers : list string)
  : flow (list fieldInfo) error_ :=
  let val := zeroRecord typ in
  forEach (fun (columnFields : list fieldInfo) '(columnIndex, header) =>
             match bindColumn rc typ tagMap val columnIndex header with
             | Next fi => Next (columnFields ++ [fi])%list
             | Return e => Return e
             | Panics msg => Panics msg
             end)
          (indexed headers) [].

(** The result of a read entry point: the record slice (nil or not) and
    the error (nil or not). *)
Definition ReadResult : Type := (option (list Record_) * option error)%type.

(** The drop-list scan of the read side: the key of the last entry whose
    display value is the cell text, the empty string when there is none. *)
Definition dropListKey (dropList : list DropListItem) (cellValue : string) : string :=
  foldl (fun key v => if String.eqb (Value v) cellValue then Key v else key)
        EmptyString dropList.

(** The localized-boolean case of the column loop: [None] when control
    falls through to the next case. *)
Definition boolCase (destField : reflect.Value) (cell : xlsx.Cell)
  : option (res reflect.data) :=
  if (bool_decide (reflect.Kind_ destField = reflect.Bool)
      || bool_decide (reflect.Type_ destField = reflect.PtrTo (reflect.Basic reflect.Bool)))
     && reflect.CanSet destField then
    if String.eqb (xlsx.Value cell) "是" then
      if bool_decide (reflect.Kind_ destField = reflect.Ptr) then
        Some (reflect.Set_ destField
                (reflect.ValueOfAddr (reflect.Basic reflect.String)
                   (reflect.DString (xlsx.Value cell))))
      else Some (reflect.SetBool destField true)
    else if String.eqb (xlsx.Value cell) "否" then
      if bool_decide (reflect.Kind_ destField = reflect.Ptr) then
        Some (reflect.Set_ destField
                (reflect.ValueOfAddr (reflect.Basic reflect.String)
                   (reflect.DString (xlsx.Value cell))))
      else Some (reflect.SetBool destField false)
    else None
  else None.

(** The drop-list case of the column loop. *)
Definition stringCase (rc : ReadConfig.t) (fi : fieldInfo)
    (destField : reflect.Value) (cell : xlsx.Cell)
  : option (res reflect.data) :=
  if (bool_decide (reflect.Kind_ destField = reflect.String)
      || bool_decide (reflect.Type_ destField = reflect.PtrTo (reflect.Basic reflect.String)))
     && reflect.CanSet destField then
    match ReadConfig.DropListMap rc with
    | Some dropListMap =>
        match dropListMap !! header fi with
        | Some dropList =>
            let key := dropListKey dropList (xlsx.Value cell) in
            if bool_decide (reflect.Kind_ destField = reflect.Ptr) then
              Some (reflect.Set_ destField
                      (reflect.ValueOfAddr (reflect.Basic reflect.String)
                         (reflect.DString key)))
            else Some (reflect.SetString destField key)
        | None => None
        end
    | None => None
    end
  else None.

(** What the column loop does with the result of the bound routine. *)
Definition handleError (rc : ReadConfig.t) (rowIndex columnIndex : Z) (fi : fieldInfo)
    (val : Record_) (collectedErrors : list FieldError) (err : option error_)
  : flow (Record_ * list FieldError) ReadResult :=
  match err with
  | Some e =>
      if negb (N.eqb (ReadConfig.UnmarshalErrorHandling_ rc) UnmarshalErrorIgnore) then
        let fer := mkFieldError rowIndex columnIndex (header fi) e in
        if N.eqb (ReadConfig.UnmarshalErrorHandling_ rc) UnmarshalErrorAbort then
          Return (None, Some (ofFieldError fer))
        else
          let collectedErrors := (collectedErrors ++ [fer])%list in
          if N.ltb 0 (ReadConfig.MaxUnmarshalErrors rc)
             && N.leb (ReadConfig.MaxUnmarshalErrors rc)
                      (N.of_nat (length collectedErrors)) then
            Return (None, Some (ofContentError (mkContentError collectedErrors true)))
          else Next (val, collectedErrors)
      else Next (val, collectedErrors)
  | None => Next (val, collectedErrors)
  end.

(** What one iteration of the column loop does to the destination field
    before any error is handled: nothing ([continue] on an empty cell of
    a pointer field), a store by one of the special cases, or the bound
    routine's result. *)
Inductive cellOutcome : Type :=
  | Skipped
  | Stored (d : reflect.data)
  | Converted (d : reflect.data) (err : option error_).

Definition decodeCell (rc : ReadConfig.t) (f : xlsx.File)
    (unmarshalConfig : ExcelUnmarshalParameters) (fi : fieldInfo)
    (unmarshal : UnmarshalExcelFunc) (destField : reflect.Value) (cell : xlsx.Cell)
  : res cellOutcome :=
  if ReadConfig.PointerCanNil rc
     && bool_decide (reflect.Kind_ destField = reflect.Ptr)
     && String.eqb (xlsx.Value cell) EmptyString then ok Skipped
  else if bool_decide (reflect.Type_ destField = reflect.PtrTo reflect.TimeTime)
          && reflect.CanSet destField then
    let ft := (strconv_ParseFloat E (xlsx.Value cell) 10).1 in
    let t := xlsx_TimeFromExcelTime E ft (xlsx.Date1904 f) in
    d ← reflect.Set_ destField (reflect.ValueOfAddr reflect.TimeTime (reflect.DTime t));
    ok (Stored d)
  else
    match boolCase destField cell with
    | Some r => d ← r; ok (Stored d)
    | None =>
        match stringCase rc fi destField cell with
        | Some r => d ← r; ok (Stored d)
        | None =>
            r ← unmarshal destField cell unmarshalConfig;
            ok (Converted r.1 r.2)
        end
    end.

(** One iteration of the column loop of one data row. *)
Definition readCell (rc : ReadConfig.t) (typ : StructType) (f : xlsx.File)
    (unmarshalConfig : ExcelUnmarshalParameters) (rowIndex : Z) (row : xlsx.Row)
    (st : Record_ * list FieldError) (c : Z * fieldInfo)
  : flow (Record_ * list FieldError) ReadResult :=
  let '(val, collectedErrors) := st in
  let '(columnIndex, fi) := c in
  match unmarshalFunc fi with
  | None =>
      (* this field has been skipped by previous logic *)
      Next st
  | Some unmarshal =>
      let cell := xlsx.GetCell row columnIndex in
      liftRes (Field typ val (reflectFieldIndex fi)) (fun destField =>
      let store (d : reflect.data) : Record_ := <[reflectFieldIndex fi := d]> val in
      liftRes (decodeCell rc f unmarshalConfig fi unmarshal destField cell) (fun o =>
      match o with
      | Skipped => Next st
      | Stored d => Next (store d, collectedErrors)
      | Converted d err =>
          handleError rc rowIndex columnIndex fi (store d) collectedErrors err
      end))
  end.

(** The row filters: every non-nil predicate in order, stopping at the
    first that rejects. *)
Fixpoint runFilters (filterFunc : list (option (Record_ -> bool))) (nT : Record_)
    (add : bool) : bool :=
  match filterFunc with
  | [] => add
  | None :: rest => runFilters rest nT add
  | Some fF :: rest =>
      let add := fF nT in
      if negb add then add else runFilters rest nT add
  end.

(** One iteration of the row loop. *)
Definition readRow (rc : ReadConfig.t) (typ : StructType) (f : xlsx.File)
    (sheet : xlsx.Sheet) (columnFields : list fieldInfo)
    (unmarshalConfig : ExcelUnmarshalParameters)
    (filterFunc : list (option (Record_ -> bool)))
    (st : list Record_ * list FieldError) (rowIndex : Z)
  : flow (list Record_ * list FieldError) ReadResult :=
  let '(ts, collectedErrors) := st in
  if bool_decide (rowIndex >= ReadConfig.DataStartRowIndex rc) then
    let val := zeroRecord typ in
    match xlsx.Row_ sheet rowIndex with
    | Some row =>
        match forEach (readCell rc typ f unmarshalConfig rowIndex row)
                      (indexed columnFields) (val, collectedErrors) with
        | Next (nT, collectedErrors) =>
            let add := runFilters filterFunc nT true in
            Next (if add then (ts ++ [nT])%list else ts, collectedErrors)
        | Return r => Return r
        | Panics msg => Panics msg
        end
    | None => Next st
    end
  else Next st.

(** The row loop of [ReadBinary] and what follows it. *)
Definition readRows (rc : ReadConfig.t) (typ : StructType) (f : xlsx.File)
    (sheet : xlsx.Sheet) (columnFields : list fieldInfo)
    (filterFunc : list (option (Record_ -> bool))) : res ReadResult :=
  let unmarshalConfig :=
    mkExcelUnmarshalParameters (ReadConfig.TrimSpace rc) (xlsx.Date1904 f)
                               (ReadConfig.FallbackDateFormats rc) in
  match forEach (readRow rc typ f sheet columnFields unmarshalConfig filterFunc)
                (seqZ 0 (xlsx.MaxRow sheet)) ([], []) with
  | Panics msg => panic msg
  | Return r => ok r
  | Next (ts, collectedErrors) =>
      if bool_decide (0 < length collectedErrors)%nat then
        ok (None, Some (ofContentError (mkContentError collectedErrors false)))
      else ok (Some ts, None)
  end.

(** [ReadBinary] once the document is open. *)
Definition readDocument (typ : StructType) (f : xlsx.File)
    (filterFunc : list (option (Record_ -> bool))) : res ReadResult :=
  let rc := ReadConfigure typ defaultReadConfig in
  if bool_decide (ReadConfig.SheetIndex rc < 0)
     || bool_decide (ReadConfig.SheetIndex rc > Z.of_nat (length (xlsx.Sheets f)) - 1)
  then ok (None, Some (plainError ErrSheetIndexOutOfRange)) else
  match xlsx.Sheets f !! Z.to_nat (ReadConfig.SheetIndex rc) with
  | None => panic "runtime error: index out of range"
  | Some sheet =>
  if bool_decide (ReadConfig.HeaderRowIndex rc < 0)
     || bool_decide (ReadConfig.HeaderRowIndex rc > xlsx.MaxRow sheet - 1)
  then ok (None, Some (plainError ErrHeaderRowIndexOutOfRange)) else
  if bool_decide (ReadConfig.DataStartRowIndex rc < 0)
     || bool_decide (ReadConfig.DataStartRowIndex rc > xlsx.MaxRow sheet - 1)
  then ok (None, Some (plainError ErrDataStartRowIndexOutOfRange)) else
  match xlsx.Row_ sheet (ReadConfig.HeaderRowIndex rc) with
  | None => panic "runtime error: invalid memory address or nil pointer dereference"
  | Some headerRow =>
  let maxCol := xlsx.MaxCol sheet in
  if bool_decide (maxCol < 0) then panic "runtime error: makeslice: len out of range" else
  let headers := readStrings maxCol headerRow in
  match bindColumns rc typ (tagToFieldMap rc typ) headers with
  | Panics msg => panic msg
  | Return e => ok (None, Some (plainError e))
  | Next columnFields => readRows rc typ f sheet columnFields filterFunc
  end
  end
  end.

(** ReadBinary each row bind to [T] *)
Definition ReadBinary (typ : StructType) (bytes : list Byte.byte)
    (filterFunc : list (option (Record_ -> bool))) : res ReadResult :=
  match xlsx_OpenBinary E bytes with
  | inr err => ok (None, Some (plainError err))
  | inl f => readDocument typ f filterFunc
  end.

End Read.

(** * The write path *)

Section Write.

Context (E : Externals).

(** A Go interface value ([any]): dynamic type and contents. *)
Definition any : Type := (reflect.rtype * reflect.data)%type.

Definition anyString (s : string) : any := (reflect.Basic reflect.String, reflect.DString s).

(** [cell.SetValue(n)]: a string is stored as it is; every other dynamic
    type is formatted by the library. *)
Definition SetValue (n : any) : xlsx.Cell :=
  match n with
  | (reflect.Basic reflect.String, reflect.DString s) => xlsx.SetString s
  | (t, d) => xlsx_SetValue E t d
  end.

(** The cell that [write] adds for one value: a date cell with the
    configured format for a [time.Time], [SetValue] for anything else. *)
Definition writeCell (wConfig : WriteConfig.t) (cell : any) : xlsx.Cell :=
  match cell with
  | (reflect.TimeTime, reflect.DTime t) =>
      xlsx_SetDateWithOptions E t (WriteConfig.WriteTimeFmt wConfig)
  | _ => SetValue cell
  end.

Definition write (sheet : xlsx.Sheet) (data : list any) (wConfig : WriteConfig.t)
  : xlsx.Sheet :=
  xlsx.AddRowOf sheet (writeCell wConfig <$> data).

(** The header loop of [write0]. *)
Definition headerRow (wc : WriteConfig.t) (typ : StructType) : list any :=
  foldl (fun (header : list any) fe =>
           if negb (reflect.IsExported fe) then header
           else
             let '(name, have) :=
               match reflect.Lookup (reflect.Tag fe) (WriteConfig.TagName wc) with
               | Some tag => (tag, true)
               | None => (reflect.Name fe, false)
               end in
             if have || negb (WriteConfig.SkipNoTag wc)
             then (header ++ [anyString name])%list else header)
        [] (Fields typ).

(** The drop-list scan of the write side: the display value of the last
    entry whose key is the field value, the field value itself when there
    is none. *)
Definition dropListValue (dropList : list DropListItem) (key : string) : string :=
  foldl (fun value v => if String.eqb (Key v) key then Value v else value)
        key dropList.

Definition asBool (d : reflect.data) : bool :=
  match d with reflect.DBool b => b | _ => false end.

Definition asString (d : reflect.data) : string :=
  match d with reflect.DString s => s | _ => EmptyString end.

(** Step 1 of the field loop: the constraint attached to the cell. *)
Definition addValidation (wc : WriteConfig.t) (v : reflect.Value) (tag : string)
    (rowIndex colIndex : Z) (sheet : xlsx.Sheet) : xlsx.Sheet :=
  let isPtr := bool_decide (reflect.Kind_ v = reflect.Ptr) in
  let basicType :=
    match reflect.Type_ v with
    | reflect.PtrTo e => reflect.kindOf e
    | t => reflect.kindOf t
    end in
  let sheet :=
    if bool_decide (basicType = reflect.Bool) then
      if WriteConfig.ChineseBool wc then
        xlsx.AddDataValidation sheet
          (xlsx.mkDataValidation rowIndex colIndex rowIndex colIndex isPtr
             ["是"; "否"] EmptyString "应该为 是或否")
      else
        xlsx.AddDataValidation sheet
          (xlsx.mkDataValidation rowIndex colIndex rowIndex colIndex isPtr
             ["TRUE"; "FALSE"] EmptyString "should be TRUE or FALSE")
    else sheet in
  if bool_decide (basicType = reflect.String) then
    match WriteConfig.DropListMap wc with
    | Some dropListMap =>
        match dropListMap !! tag with
        | Some dropList =>
            let dropListArr := Value <$> dropList in
            xlsx.AddDataValidation sheet
              (xlsx.mkDataValidation rowIndex colIndex rowIndex colIndex isPtr
                 dropListArr EmptyString
                 ("应该为 " ++ String.concat "、" dropListArr ++ " 中之一"))
        | None => sheet
        end
    | None => sheet
    end
  else sheet.

(** Step 2 of the field loop: the value appended to the row. *)
Definition cellValue (wc : WriteConfig.t) (v : reflect.Value) (tag : string) : any :=
  if bool_decide (reflect.Kind_ v = reflect.Ptr)
     && WriteConfig.SkipNilPointer wc && reflect.IsNil v
  then anyString EmptyString
  else
    let v :=
      if bool_decide (reflect.Kind_ v = reflect.Ptr) && negb (reflect.IsNil v)
      then reflect.Elem v else v in
    if bool_decide (reflect.Kind_ v = reflect.Bool) then
      if WriteConfig.ChineseBool wc then
        if asBool (reflect.dat v) then anyString "是" else anyString "否"
      else (reflect.typ v, reflect.dat v)
    else
      let generic : any := (reflect.typ v, reflect.dat v) in
      if bool_decide (reflect.Kind_ v = reflect.String) then
        match WriteConfig.DropListMap wc with
        | Some dropListMap =>
            match dropListMap !! tag with
            | Some dropList =>
                anyString (dropListValue dropList (asString (reflect.dat v)))
            | None => generic
            end
        | None => generic
        end
      else generic.

(** One iteration of the field loop of one record. *)
Definition writeField (wc : WriteConfig.t) (typ : StructType) (t : Record_) (i1 : Z)
    (st : list any * xlsx.Sheet) (i : nat) : res (list any * xlsx.Sheet) :=
  let '(data, sheet) := st in
  let rowIndex := i1 + 1 in
  let colIndex := Z.of_nat (length data) in
  v ← Field typ t i;
  if negb (reflect.CanInterface v) then ok st
  else
    match Fields typ !! i with
    | None => panic "reflect: Field index out of bounds"
    | Some fe =>
        let '(tag, have) :=
          match reflect.Lookup (reflect.Tag fe) (WriteConfig.TagName wc) with
          | Some tag => (tag, true)
          | None => (EmptyString, false)
          end in
        if negb have && WriteConfig.SkipNoTag wc then ok st
        else
          let sheet := addValidation wc v tag rowIndex colIndex sheet in
          ok ((data ++ [cellValue wc v tag])%list, sheet)
    end.

Fixpoint foldRes {S B : Type} (body : S -> B -> res S) (l : list B) (s : S) : res S :=
  match l with
  | [] => ok s
  | b :: rest => s' ← body s b; foldRes body rest s'
  end.

(** One iteration of the record loop. *)
Definition writeRecord (wc : WriteConfig.t) (typ : StructType)
    (sheet : xlsx.Sheet) (it : Z * Record_) : res xlsx.Sheet :=
  let '(i1, t) := it in
  r ← foldRes (writeField wc typ t i1) (seq 0 (NumField typ)) ([], sheet);
  ok (write r.2 r.1 wc).

Definition write0 (typ : StructType) (f : xlsx.File) (ts : list Record_)
  : res xlsx.File :=
  let wc :=
    match ts with
    | t0 :: _ => WriteConfigure typ t0 defaultWriteConfig
    | [] => defaultWriteConfig
    end in
  match xlsx.AddSheet f (WriteConfig.SheetName wc) with
  | Some sheet =>
      let header := headerRow wc typ in
      (* write header *)
      let sheet := write sheet header wc in
      sheet ← (if bool_decide (0 < length ts)%nat then
                 (* write data *)
                 foldRes (writeRecord wc typ) (indexed ts) sheet
               else ok sheet);
      ok (xlsx.attach f sheet)
  | None => ok f
  end.

Definition NewFileFromSlice (typ : StructType) (ts : list Record_) : res xlsx.File :=
  write0 typ xlsx.NewFile ts.

(** [WriteFile] and [WriteTo] build the document in the same way and hand
    it to the library's [Save] and [Write]: the document they hand over. *)
Definition WriteFile (typ : StructType) (ts : list Record_) : res xlsx.File :=
  write0 typ xlsx.NewFile ts.

Definition WriteTo (typ : StructType) (ts : list Record_) : res xlsx.File :=
  write0 typ xlsx.NewFile ts.

End Write.

(** * A concrete instance, for evaluating the engine on documents *)

Module Sample.

Fixpoint parseDigits (s : string) (acc : Z) : option Z :=
  match s with
  | EmptyString => Some acc
  | String.String c rest =>
      let n := Z.of_N (N_of_ascii c) in
      if bool_decide (48 <= n) && bool_decide (n <= 57)
      then parseDigits rest (10 * acc + (n - 48))
      else None
  end.

Definition parseNumber (s : string) : option Z :=
  match s with
  | EmptyString => None
  | _ => parseDigits s 0
  end.

Definition syntaxError : error_ := errorString "invalid syntax".

(** Modelled from the spec: the built-in routines of unmarshal.go (4.2,
    item 4), which is not among the sources: text is copied, canonical
    boolean tokens and decimal numbers are parsed, anything else is a
    conversion failure that leaves the destination as it was. *)
Definition UnmarshalString : UnmarshalExcelFunc :=
  fun _ cell _ => ok (reflect.DString (xlsx.Value cell), None).

Definition UnmarshalBool : UnmarshalExcelFunc :=
  fun dest cell _ =>
    if bool_decide (xlsx.Value cell ∈ ["1"; "t"; "T"; "true"; "TRUE"; "True"])
    then ok (reflect.DBool true, None)
    else if bool_decide (xlsx.Value cell ∈ ["0"; "f"; "F"; "false"; "FALSE"; "False"])
    then ok (reflect.DBool false, None)
    else ok (reflect.dat dest, Some syntaxError).

Definition UnmarshalInt : UnmarshalExcelFunc :=
  fun dest cell _ =>
    match parseNumber (xlsx.Value cell) with
    | Some n => ok (reflect.DInt n, None)
    | None => ok (reflect.dat dest, Some syntaxError)
    end.

Definition unsupported : UnmarshalExcelFunc :=
  fun dest _ _ => ok (reflect.dat dest, Some (errorString "unsupported")).

Definition DefaultUnmarshalFuncs (k : reflect.Kind) : option UnmarshalExcelFunc :=
  match k with
  | reflect.Bool => Some UnmarshalBool
  | reflect.Int | reflect.Int8 | reflect.Int16 | reflect.Int32 | reflect.Int64 =>
      Some UnmarshalInt
  | reflect.String => Some UnmarshalString
  | _ => None
  end.

(** Modelled from the spec: [getFieldInterface] of unmarshal.go; in this
    instance only [time.Time] exposes a capability (parse from text). *)
Definition getFieldInterface (v : reflect.Value) : option MethodSet :=
  Some (mkMethodSet false
          (bool_decide (reflect.typ v = reflect.TimeTime)
           || bool_decide (reflect.typ v = reflect.PtrTo reflect.TimeTime))).

(** Library stand-ins: numbers are decimal naturals, a date is the
    instant numbered by the cell's number. *)
Definition ParseFloat (s : string) (bitSize : Z) : float64 * option error_ :=
  match parseNumber s with
  | Some n => (n, None)
  | None => (0, Some syntaxError)
  end.

Definition TimeFromExcelTime (ft : float64) (date1904 : bool) : time.Time :=
  time.Instant ft.

Definition SetValue (t : reflect.rtype) (d : reflect.data) : xlsx.Cell :=
  match d with
  | reflect.DBool true => xlsx.mkCell "true" EmptyString
  | reflect.DBool false => xlsx.mkCell "false" EmptyString
  | reflect.DInt n | reflect.DUint n | reflect.DFloat n => xlsx.mkCell (pretty n) "general"
  | reflect.DString s => xlsx.mkCell s EmptyString
  | reflect.DTime (time.Instant n) => xlsx.mkCell (pretty n) xlsx.DefaultDateFormat
  | reflect.DPtr None => xlsx.mkCell "<nil>" EmptyString
  | reflect.DPtr (Some _) => xlsx.mkCell "0xc000012345" EmptyString
  | reflect.DOpaque => xlsx.mkCell "{}" EmptyString
  end.

Definition SetDateWithOptions (t : time.Time) (fmt : string) : xlsx.Cell :=
  match t with time.Instant n => xlsx.mkCell (pretty n) fmt end.

Definition E : Externals :=
  mkExternals getFieldInterface unsupported
    (fun dest cell _ =>
       match parseNumber (xlsx.Value cell) with
       | Some n => ok (reflect.DTime (time.Instant n), None)
       | None => ok (reflect.dat dest, Some syntaxError)
       end)
    unsupported DefaultUnmarshalFuncs ParseFloat TimeFromExcelTime
    (fun _ => inr (errorString "zip: not a valid zip file"))
    SetValue SetDateWithOptions.

(** [type Person struct { Name string `excel:"name"`; Active bool
    `excel:"active"`; Age *int `excel:"age"` }] with default
    configuration on both sides. *)
Definition tag (v : string) : reflect.StructTag := [("excel", v)].

Definition personFields : list reflect.StructField :=
  [ reflect.mkStructField "Name" EmptyString (reflect.Basic reflect.String) (tag "name");
    reflect.mkStructField "Active" EmptyString (reflect.Basic reflect.Bool) (tag "active");
    reflect.mkStructField "Age" EmptyString (reflect.PtrTo (reflect.Basic reflect.Int)) (tag "age") ].

Definition Person : StructType := mkStructType personFields (fun rc => rc) (fun _ wc => wc).

Definition alice : Record_ :=
  [reflect.DString "Alice"; reflect.DBool true; reflect.DPtr (Some (reflect.DInt 30))].
Definition bob : Record_ :=
  [reflect.DString "Bob"; reflect.DBool false; reflect.DPtr (Some (reflect.DInt 41))].

(** The same struct, reading with [SkipUnknownColumns] switched off. *)
Definition strict (rc : ReadConfig.t) : ReadConfig.t :=
  ReadConfig.mk (ReadConfig.TagName rc) (ReadConfig.SheetIndex rc)
    (ReadConfig.HeaderRowIndex rc) (ReadConfig.DataStartRowIndex rc)
    (ReadConfig.TrimSpace rc) (ReadConfig.FallbackDateFormats rc) false
    (ReadConfig.SkipUnknownTypes rc) (ReadConfig.UnmarshalErrorHandling_ rc)
    (ReadConfig.MaxUnmarshalErrors rc) (ReadConfig.DropListMap rc)
    (ReadConfig.PointerCanNil rc).

Definition StrictPerson : StructType := mkStructType personFields strict (fun _ wc => wc).

Definition text (s : string) : xlsx.Cell := xlsx.mkCell s EmptyString.

(** A sheet whose second column has no field. *)
Definition nickHeader : list xlsx.Cell := [text "name"; text "nick"].
Definition nickSheet : xlsx.Sheet :=
  xlsx.mkSheet "Sheet1" [nickHeader; [text "Alice"; text "Al"]] 2 2 [].
Definition nickFile : xlsx.File := xlsx.mkFile [nickSheet] false.

(** Reading with [PointerCanNil] set. *)
Definition nilOnEmpty (rc : ReadConfig.t) : ReadConfig.t :=
  ReadConfig.mk (ReadConfig.TagName rc) (ReadConfig.SheetIndex rc)
    (ReadConfig.HeaderRowIndex rc) (ReadConfig.DataStartRowIndex rc)
    (ReadConfig.TrimSpace rc) (ReadConfig.FallbackDateFormats rc)
    (ReadConfig.SkipUnknownColumns rc) (ReadConfig.SkipUnknownTypes rc)
    (ReadConfig.UnmarshalErrorHandling_ rc) (ReadConfig.MaxUnmarshalErrors rc)
    (ReadConfig.DropListMap rc) true.

Definition params : ExcelUnmarshalParameters := mkExcelUnmarshalParameters false false [].

(** [type Paint struct { Color string `excel:"color"` }] with the same
    drop-list table on both sides. *)
Definition colors : list DropListItem :=
  [mkDropListItem "r" "Red"; mkDropListItem "g" "Green"].

Definition colorMap : gmap string (list DropListItem) := {[ "color" := colors ]}.

Definition readColors (rc : ReadConfig.t) : ReadConfig.t :=
  ReadConfig.mk (ReadConfig.TagName rc) (ReadConfig.SheetIndex rc)
    (ReadConfig.HeaderRowIndex rc) (ReadConfig.DataStartRowIndex rc)
    (ReadConfig.TrimSpace rc) (ReadConfig.FallbackDateFormats rc)
    (ReadConfig.SkipUnknownColumns rc) (ReadConfig.SkipUnknownTypes rc)
    (ReadConfig.UnmarshalErrorHandling_ rc) (ReadConfig.MaxUnmarshalErrors rc)
    (Some colorMap) (ReadConfig.PointerCanNil rc).

Definition writeColors (wc : WriteConfig.t) : WriteConfig.t :=
  WriteConfig.mk (WriteConfig.SheetName wc) (WriteConfig.TagName wc)
    (WriteConfig.SkipNoTag wc) (WriteConfig.SkipNilPointer wc) (Some colorMap)
    (WriteConfig.ChineseBool wc) (WriteConfig.WriteTimeFmt wc).

Definition colorField : reflect.StructField :=
  reflect.mkStructField "Color" EmptyString (reflect.Basic reflect.String) (tag "color").

Definition Paint : StructType :=
  mkStructType [colorField] readColors (fun _ => writeColors).

Definition blueSheet : xlsx.Sheet :=
  xlsx.mkSheet "Sheet1" [[text "color"]; [text "Blue"]] 2 1 [].
Definition blueFile : xlsx.File := xlsx.mkFile [blueSheet] false.

(** [type Flags struct { Active *bool `excel:"active"` }] and a sheet that
    holds the localized true token. *)
Definition Flags : StructType :=
  mkStructType
    [reflect.mkStructField "Active" EmptyString
       (reflect.PtrTo (reflect.Basic reflect.Bool)) (tag "active")]
    (fun rc => rc) (fun _ wc => wc).

Definition yesSheet : xlsx.Sheet :=
  xlsx.mkSheet "Sheet1" [[text "active"]; [text "是"]] 2 1 [].
Definition yesFile : xlsx.File := xlsx.mkFile [yesSheet] false.

(** [type Event struct { When *time.Time `excel:"when"` }] *)
Definition Event : StructType :=
  mkStructType
    [reflect.mkStructField "When" EmptyString (reflect.PtrTo reflect.TimeTime) (tag "when")]
    (fun rc => rc) (fun _ wc => wc).

(** [type Score struct { Name string `excel:"name"`; Points int
    `excel:"points"` }], reading under the collect policy with a given
    cap, and a sheet with three cells that are no numbers. *)
Definition collectWith (cap : N) (rc : ReadConfig.t) : ReadConfig.t :=
  ReadConfig.mk (ReadConfig.TagName rc) (ReadConfig.SheetIndex rc)
    (ReadConfig.HeaderRowIndex rc) (ReadConfig.DataStartRowIndex rc)
    (ReadConfig.TrimSpace rc) (ReadConfig.FallbackDateFormats rc)
    (ReadConfig.SkipUnknownColumns rc) (ReadConfig.SkipUnknownTypes rc)
    UnmarshalErrorCollect cap
    (ReadConfig.DropListMap rc) (ReadConfig.PointerCanNil rc).

Definition Score (cap : N) : StructType :=
  mkStructType
    [reflect.mkStructField "Name" EmptyString (reflect.Basic reflect.String) (tag "name");
     reflect.mkStructField "Points" EmptyString (reflect.Basic reflect.Int) (tag "points")]
    (collectWith cap) (fun _ wc => wc).

Definition scoreHeader : list xlsx.Cell := [text "name"; text "points"].
Definition scoreSheet : xlsx.Sheet :=
  xlsx.mkSheet "Sheet1"
    [scoreHeader; [text "Ann"; text "x"]; [text "Ben"; text "7"];
     [text "Cy"; text "y"]; [text "Di"; text "z"]] 5 2 [].
Definition scoreFile : xlsx.File := xlsx.mkFile [scoreSheet] false.

Definition scoreError (rowIndex : Z) : FieldError :=
  mkFieldError rowIndex 1 "points" syntaxError.

(** [type Memo struct { Title string `excel:"title"`; Note string }]: the
    second field has no tag. *)
Definition Memo : StructType :=
  mkStructType
    [reflect.mkStructField "Title" EmptyString (reflect.Basic reflect.String) (tag "title");
     reflect.mkStructField "Note" EmptyString (reflect.Basic reflect.String) []]
    (fun rc => rc) (fun _ wc => wc).

(** A person whose age is not known. *)
Definition carol : list reflect.data :=
  [reflect.DString "Carol"; reflect.DBool true; reflect.DPtr None].

End Sample.

(** * Properties *)

Local Open Scope list_scope.

(** ** Resolution of the conversion routine *)

Section Resolution.

Context (E : Externals).

(** No capability applies to the field: it cannot be turned into an
    interface, or [getFieldInterface] yields nil, or the interface is
    neither an [ExcelUnmarshaler] nor a [time.Time] nor a
    [TextUnmarshaler]. *)
Definition noCapability (destField : reflect.Value) : Prop :=
  reflect.CanInterface destField = false
  \/ getFieldInterface E destField = None
  \/ exists inf, getFieldInterface E destField = Some inf
       /\ isExcelUnmarshaler inf = false
       /\ reflect.Type_ destField <> reflect.TimeTime
       /\ isTextUnmarshaler inf = false.

Lemma GetUnmarshalFunc_noCapability destField :
  noCapability destField ->
  GetUnmarshalFunc E destField =
    match reflect.Type_ destField with
    | reflect.PtrTo e =>
        match DefaultUnmarshalFuncs E (reflect.kindOf e) with
        | Some f => Some (fun d c p => unmarshalPointer d c p f)
        | None => None
        end
    | t => DefaultUnmarshalFuncs E (reflect.kindOf t)
    end.
Proof.
  intros Hno. unfold GetUnmarshalFunc.
  assert (Hspecial :
    (if reflect.CanInterface destField then
       match getFieldInterface E destField with
       | Some inf =>
           if isExcelUnmarshaler inf then Some (UnmarshalExcelUnmarshaler E)
           else if bool_decide (reflect.Type_ destField = reflect.TimeTime)
           then Some (UnmarshalTime E)
           else if isTextUnmarshaler inf then Some (UnmarshalTextUnmarshaler E)
           else None
       | None => None
       end
     else None) = None).
  { destruct Hno as [Hci | [Hnil | (inf & Hinf & Hx & Ht & Htx)]].
    - by rewrite Hci.
    - rewrite Hnil. by destruct (reflect.CanInterface destField).
    - rewrite Hinf, Hx, Htx, bool_decide_eq_false_2 by done.
      by destruct (reflect.CanInterface destField). }
  rewrite Hspecial.
  destruct (reflect.Type_ destField) as [k|n k| |e]; simpl;
    by destruct (DefaultUnmarshalFuncs E _).
Qed.

Lemma unmarshalPointer_delegates destPointer e cell params f d err :
  reflect.typ destPointer = reflect.PtrTo e ->
  reflect.CanSet destPointer = true ->
  f (reflect.mkValue e (reflect.zeroOf e) false) cell params = ok (d, err) ->
  unmarshalPointer destPointer cell params f = ok (reflect.DPtr (Some d), err).
Proof.
  intros Ht Hset Hf. unfold unmarshalPointer, reflect.Type_.
  rewrite Ht. simpl. unfold reflect.Set_. rewrite Hset. simpl.
  rewrite Ht, bool_decide_eq_true_2 by done. simpl.
  by rewrite Hf.
Qed.

End Resolution.

(** C7. Resolution of a field's conversion routine goes by precedence. For
    a field that can be turned into an interface: the custom routine when
    the interface is an [ExcelUnmarshaler], whatever the built-in table has
    for the kind; else the date/time routine for [time.Time]; else the text
    routine when it is a [TextUnmarshaler]. When no capability applies, the
    kind selects the built-in routine; for a pointer, the built-in routine
    of the pointed-to kind wrapped in [unmarshalPointer], which allocates a
    fresh target, delegates to the routine and leaves the field pointing to
    what the routine produced, passing its error on; when the table has no
    entry, there is no routine. *)
Theorem C7_resolution_precedence (E : Externals) (destField : reflect.Value) :
  (forall inf,
     reflect.CanInterface destField = true ->
     getFieldInterface E destField = Some inf ->
     (isExcelUnmarshaler inf = true ->
      GetUnmarshalFunc E destField = Some (UnmarshalExcelUnmarshaler E))
     /\ (isExcelUnmarshaler inf = false ->
         reflect.Type_ destField = reflect.TimeTime ->
         GetUnmarshalFunc E destField = Some (UnmarshalTime E))
     /\ (isExcelUnmarshaler inf = false ->
         reflect.Type_ destField <> reflect.TimeTime ->
         isTextUnmarshaler inf = true ->
         GetUnmarshalFunc E destField = Some (UnmarshalTextUnmarshaler E)))
  /\ (noCapability E destField ->
      (forall e f,
         reflect.Type_ destField = reflect.PtrTo e ->
         DefaultUnmarshalFuncs E (reflect.kindOf e) = Some f ->
         exists wrapped,
           GetUnmarshalFunc E destField = Some wrapped
           /\ forall dest cell params,
                wrapped dest cell params = unmarshalPointer dest cell params f)
      /\ (forall e,
            reflect.Type_ destField = reflect.PtrTo e ->
            DefaultUnmarshalFuncs E (reflect.kindOf e) = None ->
            GetUnmarshalFunc E destField = None)
      /\ ((forall e, reflect.Type_ destField <> reflect.PtrTo e) ->
          GetUnmarshalFunc E destField =
            DefaultUnmarshalFuncs E (reflect.Kind_ destField)))
  /\ (forall destPointer e cell params f d err,
        reflect.typ destPointer = reflect.PtrTo e ->
        reflect.CanSet destPointer = true ->
        f (reflect.mkValue e (reflect.zeroOf e) false) cell params = ok (d, err) ->
        unmarshalPointer destPointer cell params f = ok (reflect.DPtr (Some d), err)).
Proof.
  split; [|split].
  - intros inf Hci Hinf. unfold GetUnmarshalFunc. rewrite Hci, Hinf.
    split; [|split].
    + by intros ->.
    + intros -> Ht. by rewrite bool_decide_eq_true_2.
    + intros -> Ht ->. by rewrite bool_decide_eq_false_2.
  - intros Hno. rewrite (GetUnmarshalFunc_noCapability E destField Hno).
    split; [|split].
    + intros e f -> ->. eexists. split; [reflexivity|]. done.
    + by intros e -> ->.
    + intros Hnp. unfold reflect.Kind_, reflect.Type_ in *.
      destruct (reflect.typ destField) as [k|n k| |e]; try done.
      by destruct (Hnp e).
  - intros. by eapply unmarshalPointer_delegates.
Qed.

(** ** The tag map and the binding plan *)

Section Binding.

Context (E : Externals).

Lemma forEach_cons {S R B} (body : S -> B -> flow S R) b l s :
  forEach body (b :: l) s =
    match body s b with
    | Next s' => forEach body l s'
    | Return r => Return r
    | Panics msg => Panics msg
    end.
Proof. done. Qed.

Lemma forEach_app {S R B} (body : S -> B -> flow S R) l1 l2 s :
  forEach body (l1 ++ l2) s =
    match forEach body l1 s with
    | Next s' => forEach body l2 s'
    | Return r => Return r
    | Panics msg => Panics msg
    end.
Proof.
  revert s. induction l1 as [|b l1 IH]; intros s; simpl; [done|].
  destruct (body s b); auto.
Qed.

Lemma indexed_snoc {B} (l : list B) (x : B) :
  indexed (l ++ [x]) = indexed l ++ [(Z.of_nat (length l), x)].
Proof.
  unfold indexed. rewrite imap_app. simpl. by rewrite Nat.add_0_r.
Qed.

Lemma indexed_length {B} (l : list B) : length (indexed l) = length l.
Proof. unfold indexed. by rewrite length_imap. Qed.

Lemma indexed_lookup {B} (l : list B) i :
  indexed l !! i = (fun x => (Z.of_nat i, x)) <$> l !! i.
Proof. unfold indexed. by rewrite list_lookup_imap. Qed.

(** The tag a field is entered under. *)
Definition tagOf (rc : ReadConfig.t) (fe : reflect.StructField) : option string :=
  reflect.Lookup (reflect.Tag fe) (ReadConfig.TagName rc).

Lemma tagStep_tagOf rc m i fe :
  tagStep rc m (i, fe) =
    match tagOf rc fe with Some h => <[h := i]> m | None => m end.
Proof.
  unfold tagStep, tagOf. case_bool_decide as Hta; [done|].
  by rewrite Hta.
Qed.

(** The tag map sends a header to the last field declared with that tag. *)
Lemma tagToFieldMap_fields rc (fields : list reflect.StructField) h i :
  foldl (tagStep rc) ∅ (imap (fun i f => (i, f)) fields) !! h = Some i <->
  exists fe, fields !! i = Some fe /\ tagOf rc fe = Some h
    /\ forall j fe', (i < j)%nat -> fields !! j = Some fe' -> tagOf rc fe' <> Some h.
Proof.
  revert i. induction fields as [|fe0 fields IH] using rev_ind; intros i.
  - simpl. rewrite lookup_empty. split; [done|]. by intros (fe & Hfe & _).
  - rewrite imap_app, foldl_app. cbn [imap foldl]. rewrite Nat.add_0_r, tagStep_tagOf.
    destruct (tagOf rc fe0) as [h0|] eqn:Htag.
    + destruct (decide (h0 = h)) as [->|Hne].
      * rewrite lookup_insert_eq. split.
        -- intros [= <-]. exists fe0. split; [|split]; [|done|].
           ++ by rewrite lookup_app_r, Nat.sub_diag.
           ++ intros j fe' Hlt Hj. apply lookup_lt_Some in Hj.
              rewrite length_app in Hj. simpl in Hj. lia.
        -- intros (fe & Hfe & Hfetag & Hlast).
           destruct (decide (i = length fields)) as [->|Hi]; [done|].
           exfalso. pose proof (lookup_lt_Some _ _ _ Hfe) as Hlt.
           rewrite length_app in Hlt. simpl in Hlt.
           eapply (Hlast (length fields) fe0); [lia| |done].
           by rewrite lookup_app_r, Nat.sub_diag.
      * rewrite lookup_insert_ne by done. rewrite IH. split.
        -- intros (fe & Hfe & Hfetag & Hlast). exists fe.
           split; [|split]; [by apply lookup_app_l_Some|done|].
           intros j fe' Hlt Hj.
           destruct (decide (j < length fields)%nat) as [Hjl|Hjl].
           ++ rewrite lookup_app_l in Hj by done. by eapply Hlast.
           ++ rewrite lookup_app_r in Hj by lia.
              destruct (j - length fields)%nat; [|done].
              injection Hj as <-. congruence.
        -- intros (fe & Hfe & Hfetag & Hlast).
           assert (i < length fields)%nat as Hlt.
           { pose proof (lookup_lt_Some _ _ _ Hfe) as Hlt.
             rewrite length_app in Hlt. simpl in Hlt.
             destruct (decide (i = length fields)) as [->|]; [|lia].
             rewrite lookup_app_r, Nat.sub_diag in Hfe by done.
             injection Hfe as <-. congruence. }
           rewrite lookup_app_l in Hfe by done. exists fe.
           split; [|split]; [done..|].
           intros j fe' Hij Hj. eapply Hlast; [done|].
           by apply lookup_app_l_Some.
    + rewrite IH. split.
      * intros (fe & Hfe & Hfetag & Hlast). exists fe.
        split; [|split]; [by apply lookup_app_l_Some|done|].
        intros j fe' Hlt Hj.
        destruct (decide (j < length fields)%nat) as [Hjl|Hjl].
        -- rewrite lookup_app_l in Hj by done. by eapply Hlast.
        -- rewrite lookup_app_r in Hj by lia.
           destruct (j - length fields)%nat; [|done].
           injection Hj as <-. congruence.
      * intros (fe & Hfe & Hfetag & Hlast).
        assert (i < length fields)%nat as Hlt.
        { pose proof (lookup_lt_Some _ _ _ Hfe) as Hlt.
          rewrite length_app in Hlt. simpl in Hlt.
          destruct (decide (i = length fields)) as [->|]; [|lia].
          rewrite lookup_app_r, Nat.sub_diag in Hfe by done.
          injection Hfe as <-. congruence. }
        rewrite lookup_app_l in Hfe by done. exists fe.
        split; [|split]; [done..|].
        intros j fe' Hij Hj. eapply Hlast; [done|].
        by apply lookup_app_l_Some.
Qed.

Lemma tagToFieldMap_spec rc typ h i :
  tagToFieldMap rc typ !! h = Some i <->
  exists fe, Fields typ !! i = Some fe /\ tagOf rc fe = Some h
    /\ forall j fe', (i < j)%nat -> Fields typ !! j = Some fe' -> tagOf rc fe' <> Some h.
Proof. apply tagToFieldMap_fields. Qed.

Lemma Field_zeroRecord typ i fe :
  Fields typ !! i = Some fe ->
  Field typ (zeroRecord typ) i =
    ok (reflect.mkValue (reflect.FieldType fe) (reflect.zeroOf (reflect.FieldType fe))
          (negb (reflect.IsExported fe))).
Proof.
  intros Hfe. unfold Field, zeroRecord.
  by rewrite Hfe, list_lookup_fmap, Hfe.
Qed.

Lemma bindColumns_snoc rc typ tagMap hs h :
  bindColumns E rc typ tagMap (hs ++ [h]) =
    match bindColumns E rc typ tagMap hs with
    | Next plan =>
        match bindColumn E rc typ tagMap (zeroRecord typ) (Z.of_nat (length hs)) h with
        | Next fi => Next (plan ++ [fi])
        | Return e => Return e
        | Panics msg => Panics msg
        end
    | Return e => Return e
    | Panics msg => Panics msg
    end.
Proof.
  unfold bindColumns. rewrite indexed_snoc, forEach_app.
  destruct (forEach _ (indexed hs) []) as [plan|e|msg]; [|done..].
  simpl. by destruct (bindColumn _ _ _ _ _ _ _).
Qed.

(** When the header loop completes, the plan has one entry per header,
    the binding of that header at that position. *)
Lemma bindColumns_plan rc typ tagMap hs plan :
  bindColumns E rc typ tagMap hs = Next plan ->
  length plan = length hs
  /\ forall j h, hs !! j = Some h ->
       exists fi, plan !! j = Some fi
         /\ bindColumn E rc typ tagMap (zeroRecord typ) (Z.of_nat j) h = Next fi.
Proof.
  revert plan. induction hs as [|h0 hs IH] using rev_ind; intros plan.
  - intros [= <-]. split; [done|]. intros j h Hj. by rewrite lookup_nil in Hj.
  - rewrite bindColumns_snoc.
    destruct (bindColumns E rc typ tagMap hs) as [plan0|e|msg]; [|done..].
    destruct (IH plan0 eq_refl) as [Hlen Hall].
    destruct (bindColumn _ _ _ _ _ _ h0) as [fi0|e|msg] eqn:Hb; [|done..].
    intros [= <-]. split.
    + rewrite !length_app. simpl. lia.
    + intros j h Hj.
      destruct (decide (j < length hs)%nat) as [Hlt|Hge].
      * rewrite lookup_app_l in Hj by done.
        destruct (Hall j h Hj) as (fi & Hfi & Hbj).
        exists fi. split; [|done]. by apply lookup_app_l_Some.
      * rewrite lookup_app_r in Hj by lia.
        destruct (j - length hs)%nat eqn:Hd; [|done].
        injection Hj as <-. assert (j = length hs) as -> by lia.
        exists fi0. split; [|done].
        by rewrite lookup_app_r, Hlen, Nat.sub_diag by lia.
Qed.

(** The header loop completes when every header binds. *)
Lemma bindColumns_complete rc typ tagMap hs :
  (forall j h, hs !! j = Some h ->
     exists fi, bindColumn E rc typ tagMap (zeroRecord typ) (Z.of_nat j) h = Next fi) ->
  exists plan, bindColumns E rc typ tagMap hs = Next plan.
Proof.
  induction hs as [|h0 hs IH] using rev_ind; intros Hall.
  - by exists [].
  - rewrite bindColumns_snoc.
    destruct IH as [plan ->].
    { intros j h Hj. apply Hall. by apply lookup_app_l_Some. }
    destruct (Hall (length hs) h0) as [fi ->].
    { by rewrite lookup_app_r, Nat.sub_diag. }
    by eexists.
Qed.

(** The header loop ends at the first header that does not bind. *)
Lemma bindColumns_first_failure rc typ tagMap pre h post e :
  (forall j hj, pre !! j = Some hj ->
     exists fi, bindColumn E rc typ tagMap (zeroRecord typ) (Z.of_nat j) hj = Next fi) ->
  bindColumn E rc typ tagMap (zeroRecord typ) (Z.of_nat (length pre)) h = Return e ->
  bindColumns E rc typ tagMap (pre ++ h :: post) = Return e.
Proof.
  intros Hpre Hh.
  destruct (bindColumns_complete rc typ tagMap pre Hpre) as [plan Hplan].
  assert (bindColumns E rc typ tagMap (pre ++ [h]) = Return e) as Hfail.
  { by rewrite bindColumns_snoc, Hplan, Hh. }
  replace (pre ++ h :: post) with ((pre ++ [h]) ++ post) by by rewrite <- app_assoc.
  unfold bindColumns in *. unfold indexed. rewrite imap_app, forEach_app.
  fold (indexed (pre ++ [h])). by rewrite Hfail.
Qed.

(** The conditions under which [ReadBinary] gets as far as the header
    loop: the configured indices are in range and the header row is
    there. *)
Record reachesBinding (typ : StructType) (f : xlsx.File) (sheet : xlsx.Sheet)
    (headerRow : xlsx.Row) : Prop := {
  rb_sheet_index : 0 <= ReadConfig.SheetIndex (ReadConfigure typ defaultReadConfig);
  rb_sheet :
    xlsx.Sheets f !! Z.to_nat (ReadConfig.SheetIndex (ReadConfigure typ defaultReadConfig))
    = Some sheet;
  rb_header_index :
    0 <= ReadConfig.HeaderRowIndex (ReadConfigure typ defaultReadConfig)
      <= xlsx.MaxRow sheet - 1;
  rb_data_index :
    0 <= ReadConfig.DataStartRowIndex (ReadConfigure typ defaultReadConfig)
      <= xlsx.MaxRow sheet - 1;
  rb_header_row :
    xlsx.Row_ sheet (ReadConfig.HeaderRowIndex (ReadConfigure typ defaultReadConfig))
    = Some headerRow;
  rb_max_col : 0 <= xlsx.MaxCol sheet
}.

Lemma readDocument_binding typ f sheet headerRow filterFunc :
  reachesBinding typ f sheet headerRow ->
  readDocument E typ f filterFunc =
    let rc := ReadConfigure typ defaultReadConfig in
    match bindColumns E rc typ (tagToFieldMap rc typ)
            (readStrings (xlsx.MaxCol sheet) headerRow) with
    | Panics msg => panic msg
    | Return e => ok (None, Some (plainError e))
    | Next columnFields => readRows E rc typ f sheet columnFields filterFunc
    end.
Proof.
  intros [Hsi Hs Hhi Hdi Hhr Hmc]. unfold readDocument.
  pose proof (lookup_lt_Some _ _ _ Hs) as Hlt.
  rewrite (bool_decide_eq_false_2 (_ < 0)) by lia.
  rewrite (bool_decide_eq_false_2 (_ > _)) by lia.
  simpl. rewrite Hs.
  rewrite (bool_decide_eq_false_2 (_ < 0)) by lia.
  rewrite (bool_decide_eq_false_2 (_ > _)) by lia.
  simpl.
  rewrite (bool_decide_eq_false_2 (_ < 0)) by lia.
  rewrite (bool_decide_eq_false_2 (_ > _)) by lia.
  simpl. rewrite Hhr.
  by rewrite (bool_decide_eq_false_2 (_ < 0)) by lia.
Qed.

End Binding.

(** C6. Column binding goes through the headers by position. A header that
    is not in the tag map is skipped when [SkipUnknownColumns] is set (the
    default) and otherwise ends the whole call with an error that wraps
    [ErrNoDestinationField] and names the header text and the column
    index; a header in the tag map whose field resolves to no conversion
    routine is skipped when [SkipUnknownTypes] is set (unset by default)
    and otherwise ends the call with an error that wraps [ErrNoUnmarshaler]
    and names header and index. A skipped column is entered in the plan
    without a routine, a bound one with its field index and routine. *)
Theorem C6_column_binding (E : Externals) (typ : StructType) (f : xlsx.File)
    (sheet : xlsx.Sheet) (headerRow : xlsx.Row)
    (filterFunc : list (option (list reflect.data -> bool)))
    (columnIndex : nat) (header : string) :
  let rc := ReadConfigure typ defaultReadConfig in
  let tagMap := tagToFieldMap rc typ in
  let headers := readStrings (xlsx.MaxCol sheet) headerRow in
  let bind := bindColumn E rc typ tagMap (zeroRecord typ) in
  reachesBinding typ f sheet headerRow ->
  headers !! columnIndex = Some header ->
  (forall j hj, (j < columnIndex)%nat -> headers !! j = Some hj ->
     exists fi, bind (Z.of_nat j) hj = Next fi) ->
  (ReadConfig.SkipUnknownColumns defaultReadConfig = true
   /\ ReadConfig.SkipUnknownTypes defaultReadConfig = false)
  /\ (tagMap !! header = None ->
      (ReadConfig.SkipUnknownColumns rc = true ->
       bind (Z.of_nat columnIndex) header = Next (mkFieldInfo 0 header None))
      /\ (ReadConfig.SkipUnknownColumns rc = false ->
          let e := Errorf_column ErrNoDestinationField header (Z.of_nat columnIndex) in
          readDocument E typ f filterFunc = ok (None, Some (plainError e))
          /\ Error_ e = ("no destination field with matching tag for column " ++ dquote
                         ++ header ++ dquote ++ " at index "
                         ++ pretty (Z.of_nat columnIndex))%string))
  /\ (forall i, tagMap !! header = Some i ->
      exists field,
        Field typ (zeroRecord typ) i = ok field
        /\ (forall unmarshaler, GetUnmarshalFunc E field = Some unmarshaler ->
            bind (Z.of_nat columnIndex) header
            = Next (mkFieldInfo i header (Some unmarshaler)))
        /\ (GetUnmarshalFunc E field = None ->
            (ReadConfig.SkipUnknownTypes rc = true ->
             bind (Z.of_nat columnIndex) header = Next (mkFieldInfo i header None))
            /\ (ReadConfig.SkipUnknownTypes rc = false ->
                let e := Errorf_column ErrNoUnmarshaler header (Z.of_nat columnIndex) in
                readDocument E typ f filterFunc = ok (None, Some (plainError e))
                /\ Error_ e = ("no unmarshaler for column " ++ dquote ++ header ++ dquote
                               ++ " at index " ++ pretty (Z.of_nat columnIndex))%string)))
  /\ (forall plan,
        bindColumns E rc typ tagMap headers = Next plan ->
        length plan = length headers
        /\ exists fi, plan !! columnIndex = Some fi
             /\ bind (Z.of_nat columnIndex) header = Next fi).
Proof.
  intros rc tagMap headers bind Hreach Hcol Hearlier.
  assert (forall e, bind (Z.of_nat columnIndex) header = Return e ->
                    readDocument E typ f filterFunc = ok (None, Some (plainError e)))
    as Hfail.
  { intros e He.
    rewrite (readDocument_binding E typ f sheet headerRow filterFunc Hreach). simpl.
    fold rc tagMap headers.
    destruct (list_elem_of_split_length headers columnIndex header Hcol)
      as (pre & post & Hsplit & Hlen).
    rewrite Hsplit.
    rewrite (bindColumns_first_failure E rc typ tagMap pre header post e); [done| |].
    - intros j hj Hj. apply Hearlier.
      + apply lookup_lt_Some in Hj. lia.
      + rewrite Hsplit. by apply lookup_app_l_Some.
    - by rewrite <- Hlen. }
  split; [done|]. split; [|split].
  - intros Hnone. split.
    + intros Hskip. unfold bind, bindColumn. by rewrite Hnone, Hskip.
    + intros Hskip e. split; [|done].
      apply Hfail. unfold bind, bindColumn. by rewrite Hnone, Hskip.
  - intros i Hi.
    destruct (proj1 (tagToFieldMap_spec rc typ header i) Hi) as (fe & Hfe & _).
    eexists. split; [by apply Field_zeroRecord|].
    split.
    + intros u Hu. unfold bind, bindColumn.
      rewrite Hi, (Field_zeroRecord typ i fe Hfe). simpl. by rewrite Hu.
    + intros Hu. split.
      * intros Hskip. unfold bind, bindColumn.
        rewrite Hi, (Field_zeroRecord typ i fe Hfe). simpl. by rewrite Hu, Hskip.
      * intros Hskip e. split; [|done].
        apply Hfail. unfold bind, bindColumn.
        rewrite Hi, (Field_zeroRecord typ i fe Hfe). simpl. by rewrite Hu, Hskip.
  - intros plan Hplan.
    destruct (bindColumns_plan E rc typ tagMap headers plan Hplan) as [Hlen Hall].
    split; [done|]. by apply Hall.
Qed.

Lemma C6_column_binding_witness :
  readDocument Sample.E Sample.StrictPerson Sample.nickFile [] =
    ok (None, Some (plainError (Errorf_column ErrNoDestinationField "nick" 1))).
Proof.
  refine (proj1 (proj2 (proj1 (proj2
    (C6_column_binding Sample.E Sample.StrictPerson Sample.nickFile Sample.nickSheet
       Sample.nickHeader [] 1 "nick" _ _ _)) _) _)).
  - split; cbn; (lia || reflexivity).
  - reflexivity.
  - intros j hj Hj Hh. destruct j as [|j]; [|lia].
    injection Hh as <-. eexists. vm_compute. reflexivity.
  - vm_compute. reflexivity.
  - reflexivity.
Defined.

(** ** The cases of the column loop *)

Section Cells.

Context (E : Externals).

Lemma decodeCell_skip rc f cfg fi unmarshal destField cell :
  ReadConfig.PointerCanNil rc = true ->
  reflect.Kind_ destField = reflect.Ptr ->
  xlsx.Value cell = EmptyString ->
  decodeCell E rc f cfg fi unmarshal destField cell = ok Skipped.
Proof.
  intros Hnil Hptr Hempty. unfold decodeCell.
  by rewrite Hnil, Hempty, bool_decide_eq_true_2.
Qed.

(** The nil-on-empty rule does not apply to the cell. *)
Definition notSkipped (rc : ReadConfig.t) (destField : reflect.Value) (cell : xlsx.Cell)
  : Prop :=
  ReadConfig.PointerCanNil rc
  && bool_decide (reflect.Kind_ destField = reflect.Ptr)
  && String.eqb (xlsx.Value cell) EmptyString = false.

Lemma decodeCell_time rc f cfg fi unmarshal destField cell :
  notSkipped rc destField cell ->
  reflect.Type_ destField = reflect.PtrTo reflect.TimeTime ->
  reflect.CanSet destField = true ->
  decodeCell E rc f cfg fi unmarshal destField cell =
    ok (Stored (reflect.DPtr (Some (reflect.DTime
          (xlsx_TimeFromExcelTime E (strconv_ParseFloat E (xlsx.Value cell) 10).1
             (xlsx.Date1904 f)))))).
Proof.
  intros Hns Ht Hset. unfold decodeCell. rewrite Hns.
  rewrite bool_decide_eq_true_2, Hset by done. simpl.
  unfold reflect.Set_. rewrite Hset. simpl.
  unfold reflect.Type_ in Ht. by rewrite Ht, bool_decide_eq_true_2.
Qed.

(** A [bool] field, of the predeclared type or of a defined type. *)
Lemma decodeCell_bool_token rc f cfg fi unmarshal destField cell :
  reflect.Kind_ destField = reflect.Bool ->
  reflect.CanSet destField = true ->
  (xlsx.Value cell = "是" ->
   decodeCell E rc f cfg fi unmarshal destField cell = ok (Stored (reflect.DBool true)))
  /\ (xlsx.Value cell = "否" ->
      decodeCell E rc f cfg fi unmarshal destField cell = ok (Stored (reflect.DBool false)))
  /\ (xlsx.Value cell <> "是" -> xlsx.Value cell <> "否" ->
      decodeCell E rc f cfg fi unmarshal destField cell =
        r ← unmarshal destField cell cfg; ok (Converted r.1 r.2)).
Proof.
  intros Hk Hset.
  assert (reflect.Type_ destField <> reflect.PtrTo reflect.TimeTime) as Hnt.
  { intros Ht. unfold reflect.Kind_, reflect.Type_ in *. by rewrite Ht in Hk. }
  assert (reflect.Type_ destField <> reflect.PtrTo (reflect.Basic reflect.String)) as Hns.
  { intros Ht. unfold reflect.Kind_, reflect.Type_ in *. by rewrite Ht in Hk. }
  assert (decodeCell E rc f cfg fi unmarshal destField cell =
    match boolCase destField cell with
    | Some r => d ← r; ok (Stored d)
    | None => r ← unmarshal destField cell cfg; ok (Converted r.1 r.2)
    end) as Hd.
  { unfold decodeCell.
    rewrite (bool_decide_eq_false_2 (reflect.Kind_ destField = reflect.Ptr)) by congruence.
    rewrite andb_false_r. simpl.
    rewrite (bool_decide_eq_false_2 (reflect.Type_ destField = _)) by done. simpl.
    destruct (boolCase destField cell); [done|].
    unfold stringCase.
    rewrite (bool_decide_eq_false_2 (reflect.Kind_ destField = reflect.String)) by congruence.
    by rewrite (bool_decide_eq_false_2 (reflect.Type_ destField = _)) by done. }
  rewrite Hd. unfold boolCase.
  rewrite (bool_decide_eq_true_2 (reflect.Kind_ destField = reflect.Bool)) by done.
  rewrite (bool_decide_eq_false_2 (reflect.Kind_ destField = reflect.Ptr)) by congruence.
  rewrite Hset. simpl. unfold reflect.SetBool. rewrite Hset, bool_decide_eq_true_2 by done.
  simpl. split; [|split].
  - by intros ->.
  - by intros ->.
  - intros H1 H2. apply String.eqb_neq in H1, H2. by rewrite H1, H2.
Qed.

(** A [*bool] field: on either token the loop hands [reflect.Value.Set] a
    [*string], which is not assignable, and the call panics. *)
Lemma decodeCell_pointer_bool_token rc f cfg fi unmarshal destField cell :
  reflect.Type_ destField = reflect.PtrTo (reflect.Basic reflect.Bool) ->
  reflect.CanSet destField = true ->
  xlsx.Value cell = "是" \/ xlsx.Value cell = "否" ->
  decodeCell E rc f cfg fi unmarshal destField cell =
    panic "reflect.Set: value is not assignable to the destination type".
Proof.
  intros Ht Hset Htok.
  assert (notSkipped rc destField cell) as Hns.
  { unfold notSkipped. destruct Htok as [-> | ->]; by rewrite andb_false_r. }
  unfold decodeCell. rewrite Hns.
  unfold reflect.Type_ in *.
  rewrite (bool_decide_eq_false_2 (reflect.Type_ destField = _))
    by (unfold reflect.Type_; rewrite Ht; congruence).
  simpl. unfold boolCase, reflect.Kind_, reflect.Type_, reflect.Set_. rewrite Ht, Hset. simpl.
  by destruct Htok as [-> | ->].
Qed.

(** A field that the drop-list case of the read side applies to. *)
Definition isStringField (destField : reflect.Value) : Prop :=
  reflect.Kind_ destField = reflect.String
  \/ reflect.Type_ destField = reflect.PtrTo (reflect.Basic reflect.String).

(** The contents of a string field, or of a pointer field, that holds [s]. *)
Definition boxed (destField : reflect.Value) (s : string) : reflect.data :=
  if bool_decide (reflect.Kind_ destField = reflect.Ptr)
  then reflect.DPtr (Some (reflect.DString s))
  else reflect.DString s.

Lemma decodeCell_drop_list rc f cfg fi unmarshal destField cell dropListMap dropList :
  notSkipped rc destField cell ->
  isStringField destField ->
  reflect.CanSet destField = true ->
  ReadConfig.DropListMap rc = Some dropListMap ->
  dropListMap !! header fi = Some dropList ->
  decodeCell E rc f cfg fi unmarshal destField cell =
    ok (Stored (boxed destField (dropListKey dropList (xlsx.Value cell)))).
Proof.
  intros Hns Hstr Hset Hmap Hlist. unfold decodeCell. rewrite Hns.
  assert (reflect.Type_ destField <> reflect.PtrTo reflect.TimeTime) as Hnt.
  { intros Ht. destruct Hstr as [Hk|Hp]; [|congruence].
    unfold reflect.Kind_, reflect.Type_ in *. by rewrite Ht in Hk. }
  rewrite (bool_decide_eq_false_2 (reflect.Type_ destField = _)) by done. simpl.
  assert (boolCase destField cell = None) as ->.
  { unfold boolCase.
    rewrite (bool_decide_eq_false_2 (reflect.Kind_ destField = reflect.Bool)).
    2:{ intros Hk. destruct Hstr as [Hk'|Hp]; [congruence|].
        unfold reflect.Kind_, reflect.Type_ in *. by rewrite Hp in Hk. }
    rewrite (bool_decide_eq_false_2 (reflect.Type_ destField = _)); [done|].
    intros Ht. destruct Hstr as [Hk|Hp]; [|congruence].
    unfold reflect.Kind_, reflect.Type_ in *. by rewrite Ht in Hk. }
  unfold stringCase, boxed. rewrite Hset, Hmap, Hlist.
  destruct Hstr as [Hk|Hp].
  - rewrite (bool_decide_eq_true_2 (reflect.Kind_ destField = reflect.String)) by done.
    rewrite (bool_decide_eq_false_2 (reflect.Kind_ destField = reflect.Ptr)) by congruence.
    simpl. unfold reflect.SetString. rewrite Hset. simpl.
    by rewrite bool_decide_eq_true_2.
  - rewrite (bool_decide_eq_true_2 (reflect.Type_ destField = _)) by done.
    rewrite orb_true_r. simpl.
    rewrite (bool_decide_eq_true_2 (reflect.Kind_ destField = reflect.Ptr)).
    2:{ unfold reflect.Kind_, reflect.Type_ in *. by rewrite Hp. }
    unfold reflect.Set_. rewrite Hset. simpl.
    unfold reflect.Type_ in Hp. by rewrite Hp, bool_decide_eq_true_2.
Qed.

Lemma dropListKey_snoc dropList it raw :
  dropListKey (dropList ++ [it]) raw =
    if String.eqb (Value it) raw then Key it else dropListKey dropList raw.
Proof. unfold dropListKey. by rewrite foldl_app. Qed.

Lemma dropListKey_absent dropList raw :
  (forall it, it ∈ dropList -> Value it <> raw) ->
  dropListKey dropList raw = EmptyString.
Proof.
  induction dropList as [|it dropList IH] using rev_ind; intros Habs; [done|].
  rewrite dropListKey_snoc.
  rewrite (proj2 (String.eqb_neq _ _))
    by (apply Habs, elem_of_app; right; apply list_elem_of_singleton; done).
  apply IH. intros it' Hin. apply Habs, elem_of_app. by left.
Qed.

Lemma dropListKey_present dropList raw k :
  mkDropListItem k raw ∈ dropList ->
  (forall it, it ∈ dropList -> Value it = raw -> Key it = k) ->
  dropListKey dropList raw = k.
Proof.
  induction dropList as [|it dropList IH] using rev_ind; intros Hin Hfun.
  - by apply elem_of_nil in Hin.
  - rewrite dropListKey_snoc.
    destruct (String.eqb (Value it) raw) eqn:Heq.
    + apply String.eqb_eq in Heq. apply Hfun; [|done].
      apply elem_of_app. right. by apply list_elem_of_singleton.
    + apply IH.
      * apply elem_of_app in Hin as [Hin|Hin]; [done|].
        apply list_elem_of_singleton in Hin. subst it. simpl in Heq.
        by rewrite String.eqb_refl in Heq.
      * intros it' Hin'. apply Hfun, elem_of_app. by left.
Qed.

Lemma readCell_outcome rc typ f cfg rowIndex row val collected columnIndex fi
    unmarshal destField o :
  unmarshalFunc fi = Some unmarshal ->
  Field typ val (reflectFieldIndex fi) = ok destField ->
  decodeCell E rc f cfg fi unmarshal destField (xlsx.GetCell row columnIndex) = ok o ->
  readCell E rc typ f cfg rowIndex row (val, collected) (columnIndex, fi) =
    match o with
    | Skipped => Next (val, collected)
    | Stored d => Next (<[reflectFieldIndex fi := d]> val, collected)
    | Converted d err =>
        handleError rc rowIndex columnIndex fi (<[reflectFieldIndex fi := d]> val)
          collected err
    end.
Proof. intros Hu Hf Hd. unfold readCell. rewrite Hu, Hf. simpl. by rewrite Hd. Qed.

End Cells.

(** ** The drop-list scan of the write side *)

Section WriteCells.

Context (E : Externals).

(** A string field, or a non-nil pointer to a string, that holds [s]. *)
Definition holdsString (v : reflect.Value) (s : string) : Prop :=
  (reflect.Kind_ v = reflect.String /\ reflect.dat v = reflect.DString s)
  \/ (exists e, reflect.typ v = reflect.PtrTo e /\ reflect.kindOf e = reflect.String
               /\ reflect.dat v = reflect.DPtr (Some (reflect.DString s))).

Lemma cellValue_drop_list wc v tag s dropListMap dropList :
  holdsString v s ->
  WriteConfig.DropListMap wc = Some dropListMap ->
  dropListMap !! tag = Some dropList ->
  cellValue wc v tag = anyString (dropListValue dropList s).
Proof.
  intros Hv Hmap Hlist. unfold cellValue.
  destruct v as [t d ro]. unfold holdsString, reflect.Kind_, reflect.IsNil in *. simpl in *.
  destruct Hv as [[Hk ->]|(e & -> & Hk & ->)]; simpl.
  - rewrite (bool_decide_eq_false_2 (reflect.kindOf t = reflect.Ptr)) by congruence.
    simpl. destruct t as [k|n k| |e]; simpl in *; subst; try done;
      by rewrite Hmap, Hlist.
  - rewrite andb_false_r. simpl.
    rewrite (bool_decide_eq_false_2 (reflect.kindOf e = reflect.Bool)) by congruence.
    rewrite (bool_decide_eq_true_2 (reflect.kindOf e = reflect.String)) by done.
    by rewrite Hmap, Hlist.
Qed.

Lemma dropListValue_snoc dropList it key :
  dropListValue (dropList ++ [it]) key =
    if String.eqb (Key it) key then Value it else dropListValue dropList key.
Proof. unfold dropListValue. by rewrite foldl_app. Qed.

Lemma dropListValue_absent dropList key :
  (forall it, it ∈ dropList -> Key it <> key) ->
  dropListValue dropList key = key.
Proof.
  induction dropList as [|it dropList IH] using rev_ind; intros Habs; [done|].
  rewrite dropListValue_snoc.
  rewrite (proj2 (String.eqb_neq _ _))
    by (apply Habs, elem_of_app; right; apply list_elem_of_singleton; done).
  apply IH. intros it' Hin. apply Habs, elem_of_app. by left.
Qed.

Lemma dropListValue_present dropList key d :
  mkDropListItem key d ∈ dropList ->
  (forall it, it ∈ dropList -> Key it = key -> Value it = d) ->
  dropListValue dropList key = d.
Proof.
  induction dropList as [|it dropList IH] using rev_ind; intros Hin Hfun.
  - by apply elem_of_nil in Hin.
  - rewrite dropListValue_snoc.
    destruct (String.eqb (Key it) key) eqn:Heq.
    + apply String.eqb_eq in Heq. apply Hfun; [|done].
      apply elem_of_app. right. by apply list_elem_of_singleton.
    + apply IH.
      * apply elem_of_app in Hin as [Hin|Hin]; [done|].
        apply list_elem_of_singleton in Hin. subst it. simpl in Heq.
        by rewrite String.eqb_refl in Heq.
      * intros it' Hin'. apply Hfun, elem_of_app. by left.
Qed.

End WriteCells.

(** ** Nullable fields and empty cells *)

Section NilOnEmpty.

Context (E : Externals).

(** A column bound to another field leaves this field alone. *)
Lemma readCell_other_field rc typ f cfg rowIndex row val collected c fi val' collected' j :
  readCell E rc typ f cfg rowIndex row (val, collected) (c, fi) = Next (val', collected') ->
  reflectFieldIndex fi <> j ->
  val' !! j = val !! j.
Proof.
  intros Hstep Hne. unfold readCell in Hstep.
  destruct (unmarshalFunc fi) as [u|]; [|by injection Hstep as <- <-].
  destruct (Field typ val (reflectFieldIndex fi)) as [destField|]; [|done].
  simpl in Hstep.
  destruct (decodeCell E rc f cfg fi u destField _) as [[|d|d err]|]; simpl in Hstep;
    [by injection Hstep as <- <- | | |done].
  - injection Hstep as <- <-. by apply list_lookup_insert_ne.
  - unfold handleError in Hstep.
    destruct err as [e|]; [|injection Hstep as <- <-; by apply list_lookup_insert_ne].
    destruct (negb _); [|injection Hstep as <- <-; by apply list_lookup_insert_ne].
    destruct (N.eqb _ UnmarshalErrorAbort); [done|].
    destruct (_ && _); [done|].
    injection Hstep as <- <-. by apply list_lookup_insert_ne.
Qed.

Lemma zeroOf_pointer t : reflect.kindOf t = reflect.Ptr -> reflect.zeroOf t = reflect.DPtr None.
Proof. destruct t as [k|n k| |e]; simpl; try done; by intros ->. Qed.

Lemma forEach_readCell_nil rc typ f cfg rowIndex row j fe (cols : list (Z * fieldInfo)) :
  ReadConfig.PointerCanNil rc = true ->
  Fields typ !! j = Some fe ->
  reflect.kindOf (reflect.FieldType fe) = reflect.Ptr ->
  (forall c fi, (c, fi) ∈ cols -> reflectFieldIndex fi = j -> unmarshalFunc fi <> None ->
     xlsx.Value (xlsx.GetCell row c) = EmptyString) ->
  forall val collected nT collected',
    val !! j = Some (reflect.DPtr None) ->
    forEach (readCell E rc typ f cfg rowIndex row) cols (val, collected)
      = Next (nT, collected') ->
    nT !! j = Some (reflect.DPtr None).
Proof.
  intros Hnil Hfe Hptr. induction cols as [|[c fi] cols IH]; intros Hempty val collected nT collected' Hval Hrun.
  - by injection Hrun as <- <-.
  - rewrite forEach_cons in Hrun.
    destruct (readCell E rc typ f cfg rowIndex row (val, collected) (c, fi))
      as [[val1 collected1]|r|msg] eqn:Hstep; [|done..].
    eapply IH; [| |exact Hrun].
    + intros c' fi' Hin. apply Hempty. by right.
    + destruct (decide (reflectFieldIndex fi = j)) as [Hj|Hj].
      * destruct (unmarshalFunc fi) as [u|] eqn:Hu.
        -- assert (Field typ val (reflectFieldIndex fi) =
                   ok (reflect.mkValue (reflect.FieldType fe) (reflect.DPtr None)
                         (negb (reflect.IsExported fe)))) as Hfield.
           { unfold Field. by rewrite Hj, Hfe, Hval. }
           rewrite (readCell_outcome E rc typ f cfg rowIndex row val collected c fi u _
                      Skipped Hu Hfield) in Hstep.
           ++ by injection Hstep as <- <-.
           ++ apply decodeCell_skip; [done..|].
              apply (Hempty c fi); [by left|done|by rewrite Hu].
        -- unfold readCell in Hstep. rewrite Hu in Hstep. by injection Hstep as <- <-.
      * by rewrite (readCell_other_field _ _ _ _ _ _ _ _ _ _ _ _ j Hstep Hj).
Qed.

End NilOnEmpty.

(** C8. With the nil-on-empty option set, a column of a pointer-typed
    field whose cell text is empty leaves the record as it is and goes on
    to the next column: the outcome does not depend on the bound routine,
    and no special case and no error handling runs. In a row that starts
    from the zero record, a pointer field whose bound columns all hold
    empty text is nil when the column loop is through. *)
Theorem C8_nil_on_empty (E : Externals) (rc : ReadConfig.t) (typ : StructType)
    (f : xlsx.File) (cfg : ExcelUnmarshalParameters) (rowIndex : Z)
    (row : list xlsx.Cell) :
  ReadConfig.PointerCanNil rc = true ->
  (forall val collected columnIndex fi destField,
     Field typ val (reflectFieldIndex fi) = ok destField ->
     reflect.Kind_ destField = reflect.Ptr ->
     xlsx.Value (xlsx.GetCell row columnIndex) = EmptyString ->
     readCell E rc typ f cfg rowIndex row (val, collected) (columnIndex, fi)
       = Next (val, collected)
     /\ forall unmarshal,
          decodeCell E rc f cfg fi unmarshal destField (xlsx.GetCell row columnIndex)
          = ok Skipped)
  /\ (forall columnFields j fe collected nT collected',
        Fields typ !! j = Some fe ->
        reflect.kindOf (reflect.FieldType fe) = reflect.Ptr ->
        (forall c fi, columnFields !! c = Some fi -> reflectFieldIndex fi = j ->
           unmarshalFunc fi <> None ->
           xlsx.Value (xlsx.GetCell row (Z.of_nat c)) = EmptyString) ->
        forEach (readCell E rc typ f cfg rowIndex row) (indexed columnFields)
          (zeroRecord typ, collected) = Next (nT, collected') ->
        nT !! j = Some (reflect.DPtr None)).
Proof.
  intros Hnil. split.
  - intros val collected columnIndex fi destField Hfield Hptr Hempty. split.
    + destruct (unmarshalFunc fi) as [u|] eqn:Hu.
      * by rewrite (readCell_outcome E rc typ f cfg rowIndex row val collected columnIndex
                      fi u destField Skipped Hu Hfield (decodeCell_skip E rc f cfg fi u
                      destField _ Hnil Hptr Hempty)).
      * unfold readCell. by rewrite Hu.
    + intros u. by apply decodeCell_skip.
  - intros columnFields j fe collected nT collected' Hfe Hptr Hempty Hrun.
    eapply (forEach_readCell_nil E rc typ f cfg rowIndex row j fe (indexed columnFields));
      [done..| | |exact Hrun].
    + intros c fi Hin Hj Hu.
      apply list_elem_of_lookup in Hin as [n Hn].
      rewrite indexed_lookup in Hn.
      destruct (columnFields !! n) as [fi'|] eqn:Hcn; [|done].
      injection Hn as <- <-. by eapply Hempty.
    + unfold zeroRecord. rewrite list_lookup_fmap, Hfe. simpl.
      by rewrite zeroOf_pointer.
Qed.

Lemma C8_nil_on_empty_witness :
  readCell Sample.E (Sample.nilOnEmpty defaultReadConfig) Sample.Person Sample.nickFile
    Sample.params 1 [Sample.text "Alice"; Sample.text "1"; Sample.text ""]
    (zeroRecord Sample.Person, [])
    (2, mkFieldInfo 2 "age" (GetUnmarshalFunc Sample.E
          (reflect.mkValue (reflect.PtrTo (reflect.Basic reflect.Int)) (reflect.DPtr None) false)))
  = Next (zeroRecord Sample.Person, []).
Proof.
  refine (proj1 (proj1 (C8_nil_on_empty Sample.E (Sample.nilOnEmpty defaultReadConfig)
            Sample.Person Sample.nickFile Sample.params 1
            [Sample.text "Alice"; Sample.text "1"; Sample.text ""] _)
          (zeroRecord Sample.Person) [] 2 _
          (reflect.mkValue (reflect.PtrTo (reflect.Basic reflect.Int)) (reflect.DPtr None) false)
          _ _ _)); reflexivity.
Defined.

(** ** Nullable dates *)



(** ** Localized booleans *)

(** C3 (defect in the code). Decoding a localized token into a nullable
    boolean does not yield true or false: whatever the conversion routines
    are, on a settable [*bool] field the column loop passes a [*string] to
    [reflect.Value.Set], which panics. So does the whole call for the
    struct [Flags { Active *bool }] and a sheet whose cell under the header
    "active" holds the true token. *)
Theorem C3_nullable_bool_token_panics :
  (forall (E : Externals) rc f cfg fi unmarshal destField cell,
     reflect.Type_ destField = reflect.PtrTo (reflect.Basic reflect.Bool) ->
     reflect.CanSet destField = true ->
     xlsx.Value cell = "是" \/ xlsx.Value cell = "否" ->
     decodeCell E rc f cfg fi unmarshal destField cell =
       panic "reflect.Set: value is not assignable to the destination type")
  /\ readDocument Sample.E Sample.Flags Sample.yesFile [] =
       panic "reflect.Set: value is not assignable to the destination type".
Proof.
  split.
  - intros. by apply decodeCell_pointer_bool_token.
  - vm_compute. reflexivity.
Qed.

(** ** Drop-list tables *)




(** ** Error handling across the row loop *)

Section Policies.

Context (E : Externals).

(** A loop preserves what each iteration preserves. *)
Lemma forEach_invariant {S R B} (I : S -> Prop) (body : S -> B -> flow S R) l :
  (forall s b s', I s -> body s b = Next s' -> I s') ->
  forall s s', I s -> forEach body l s = Next s' -> I s'.
Proof.
  intros Hstep. induction l as [|b l IH]; intros s s' Hs Hrun.
  - by injection Hrun as <-.
  - rewrite forEach_cons in Hrun.
    destruct (body s b) as [s1|r|msg] eqn:Hb; [|done..].
    eapply IH; [|exact Hrun]. by eapply Hstep.
Qed.

(** A loop returns what one of its iterations returns. *)
Lemma forEach_return {S R B} (I : S -> Prop) (P : R -> Prop) (body : S -> B -> flow S R) l :
  (forall s b s', I s -> body s b = Next s' -> I s') ->
  (forall s b r, I s -> body s b = Return r -> P r) ->
  forall s r, I s -> forEach body l s = Return r -> P r.
Proof.
  intros Hnext Hret. induction l as [|b l IH]; intros s r Hs Hrun; [done|].
  rewrite forEach_cons in Hrun.
  destruct (body s b) as [s1|r1|msg] eqn:Hb; [|injection Hrun as <-; by eapply Hret|done].
  eapply IH; [|exact Hrun]. by eapply Hnext.
Qed.

(** The two returns inside the row loop: the field error of the abort
    policy and the aggregate with the limit flag set, both without rows. *)
Definition earlyReturn (rc : ReadConfig.t) (r : ReadResult) : Prop :=
  r.1 = None
  /\ ((exists fe, r.2 = Some (ofFieldError fe)
                  /\ ReadConfig.UnmarshalErrorHandling_ rc = UnmarshalErrorAbort)
      \/ (exists collected, r.2 = Some (ofContentError (mkContentError collected true))
            /\ (0 < ReadConfig.MaxUnmarshalErrors rc)%N
            /\ N.of_nat (length collected) = ReadConfig.MaxUnmarshalErrors rc)).

(** The policy collects: it neither ignores nor aborts. *)
Definition collecting (rc : ReadConfig.t) : Prop :=
  ReadConfig.UnmarshalErrorHandling_ rc <> UnmarshalErrorIgnore
  /\ ReadConfig.UnmarshalErrorHandling_ rc <> UnmarshalErrorAbort.

(** The collected errors have not reached the cap. *)
Definition underCap (rc : ReadConfig.t) (collected : list FieldError) : Prop :=
  ReadConfig.MaxUnmarshalErrors rc = 0%N
  \/ (N.of_nat (length collected) < ReadConfig.MaxUnmarshalErrors rc)%N.

(** What the collected errors are like while the row loop runs: none, or
    the policy collects and the cap is not reached. *)
Definition collectedOk (rc : ReadConfig.t) (collected : list FieldError) : Prop :=
  collected = [] \/ (collecting rc /\ underCap rc collected).

Lemma handleError_next rc rowIndex columnIndex fi val collected err val' collected' :
  handleError rc rowIndex columnIndex fi val collected err = Next (val', collected') ->
  val' = val
  /\ (collected' = collected
      \/ exists e, err = Some e
           /\ collected' = collected ++ [mkFieldError rowIndex columnIndex (header fi) e]
           /\ collecting rc /\ underCap rc collected').
Proof.
  unfold handleError, collecting, underCap. intros Hh.
  destruct err as [e|]; [|injection Hh as <- <-; by auto].
  destruct (N.eqb_spec (ReadConfig.UnmarshalErrorHandling_ rc) UnmarshalErrorIgnore)
    as [Hi|Hi]; simpl in Hh; [injection Hh as <- <-; by auto|].
  destruct (N.eqb_spec (ReadConfig.UnmarshalErrorHandling_ rc) UnmarshalErrorAbort)
    as [Ha|Ha]; [done|].
  destruct (N.ltb_spec 0 (ReadConfig.MaxUnmarshalErrors rc)) as [Hpos|Hzero];
    simpl in Hh.
  - destruct (N.leb_spec (ReadConfig.MaxUnmarshalErrors rc)
                (N.of_nat (length (collected ++ [mkFieldError rowIndex columnIndex (header fi) e]))))
      as [Hle|Hlt]; [done|].
    injection Hh as <- <-. split; [done|]. right. exists e. by auto.
  - injection Hh as <- <-. split; [done|]. right. exists e.
    repeat split; try done. left. lia.
Qed.

Lemma handleError_return rc rowIndex columnIndex fi val collected err r :
  collectedOk rc collected ->
  handleError rc rowIndex columnIndex fi val collected err = Return r ->
  earlyReturn rc r
  /\ ((exists fe, r.2 = Some (ofFieldError fe))
      \/ r.2 = Some (ofContentError (mkContentError
           (collected ++ match err with
                         | Some e => [mkFieldError rowIndex columnIndex (header fi) e]
                         | None => []
                         end) true))).
Proof.
  unfold handleError, earlyReturn. intros Hok Hh.
  destruct err as [e|]; [|done].
  destruct (N.eqb_spec (ReadConfig.UnmarshalErrorHandling_ rc) UnmarshalErrorIgnore)
    as [Hi|Hi]; simpl in Hh; [done|].
  destruct (N.eqb_spec (ReadConfig.UnmarshalErrorHandling_ rc) UnmarshalErrorAbort)
    as [Ha|Ha].
  - injection Hh as <-. simpl. split; [|by eauto]. split; [done|]. left. by eauto.
  - destruct (N.ltb_spec 0 (ReadConfig.MaxUnmarshalErrors rc)) as [Hpos|Hzero];
      simpl in Hh; [|done].
    destruct (N.leb_spec (ReadConfig.MaxUnmarshalErrors rc)
                (N.of_nat (length (collected ++ [mkFieldError rowIndex columnIndex (header fi) e]))))
      as [Hle|Hlt]; [|done].
    injection Hh as <-. simpl. split; [|by right].
    split; [done|]. right. eexists. split; [done|]. split; [done|].
    (* the cap is reached exactly when it was not reached before *)
    rewrite length_app in *. simpl in *.
    destruct Hok as [->|[_ [Hzero|Hunder]]]; simpl in *; lia.
Qed.

Lemma readCell_next rc typ f cfg rowIndex row val collected c fi val' collected' :
  readCell E rc typ f cfg rowIndex row (val, collected) (c, fi) = Next (val', collected') ->
  collected' = collected
  \/ exists e, collected' = collected ++ [mkFieldError rowIndex c (header fi) e]
       /\ collecting rc /\ underCap rc collected'.
Proof.
  intros Hstep. unfold readCell in Hstep.
  destruct (unmarshalFunc fi) as [u|]; [|injection Hstep as <- <-; by left].
  destruct (Field typ val (reflectFieldIndex fi)) as [destField|]; [|done].
  simpl in Hstep.
  destruct (decodeCell E rc f cfg fi u destField _) as [[|d|d err]|]; simpl in Hstep;
    [injection Hstep as <- <-; by left|injection Hstep as <- <-; by left| |done].
  apply handleError_next in Hstep as [_ [->|(e & _ & -> & Hc & Hu)]]; [by left|].
  right. by exists e.
Qed.

Lemma readCell_return rc typ f cfg rowIndex row val collected c fi r :
  collectedOk rc collected ->
  readCell E rc typ f cfg rowIndex row (val, collected) (c, fi) = Return r ->
  earlyReturn rc r.
Proof.
  intros Hok Hstep. unfold readCell in Hstep.
  destruct (unmarshalFunc fi) as [u|]; [|done].
  destruct (Field typ val (reflectFieldIndex fi)) as [destField|]; [|done].
  simpl in Hstep.
  destruct (decodeCell E rc f cfg fi u destField _) as [[|d|d err]|]; simpl in Hstep;
    try done.
  by apply handleError_return in Hstep as [? _].
Qed.

Lemma readCell_collectedOk rc typ f cfg rowIndex row
    (s : list reflect.data * list FieldError) (b : Z * fieldInfo)
    (s' : list reflect.data * list FieldError) :
  collectedOk rc s.2 ->
  readCell E rc typ f cfg rowIndex row s b = Next s' ->
  collectedOk rc s'.2.
Proof.
  destruct s as [val collected], s' as [val' collected'], b as [c fi]. simpl.
  intros Hok Hstep. apply readCell_next in Hstep as [->|(e & -> & Hc & Hu)]; [done|].
  by right.
Qed.

Lemma readRow_collectedOk rc typ f sheet plan cfg filterFunc
    (s : list (list reflect.data) * list FieldError) (rowIndex : Z)
    (s' : list (list reflect.data) * list FieldError) :
  collectedOk rc s.2 ->
  readRow E rc typ f sheet plan cfg filterFunc s rowIndex = Next s' ->
  collectedOk rc s'.2.
Proof.
  destruct s as [ts collected], s' as [ts' collected']. simpl.
  intros Hok Hstep. unfold readRow in Hstep.
  case_bool_decide; [|by injection Hstep as <- <-].
  destruct (xlsx.Row_ sheet rowIndex) as [row|]; [|by injection Hstep as <- <-].
  destruct (forEach _ _ _) as [[nT collected1]|r|msg] eqn:Hcols; [|done..].
  injection Hstep as <- <-.
  by apply (forEach_invariant (fun s => collectedOk rc s.2) _ _
              (readCell_collectedOk rc typ f cfg rowIndex row)
              (zeroRecord typ, collected) (nT, collected1) Hok Hcols).
Qed.

Lemma readRow_return rc typ f sheet plan cfg filterFunc
    (s : list (list reflect.data) * list FieldError) rowIndex r :
  collectedOk rc s.2 ->
  readRow E rc typ f sheet plan cfg filterFunc s rowIndex = Return r ->
  earlyReturn rc r.
Proof.
  destruct s as [ts collected]. simpl.
  intros Hok Hstep. unfold readRow in Hstep.
  case_bool_decide; [|done].
  destruct (xlsx.Row_ sheet rowIndex) as [row|]; [|done].
  destruct (forEach _ _ _) as [[nT collected1]|r1|msg] eqn:Hcols; [done| |done].
  injection Hstep as <-.
  apply (forEach_return (fun s => collectedOk rc s.2) (earlyReturn rc) _ _
           (readCell_collectedOk rc typ f cfg rowIndex row)) in Hcols; [done| |done].
  intros [val c0] [c fi] r0. simpl. by apply readCell_return.
Qed.

(** The row loop of a whole pass. *)
Definition rowLoop (rc : ReadConfig.t) (typ : StructType) (f : xlsx.File)
    (sheet : xlsx.Sheet) (plan : list fieldInfo)
    (filterFunc : list (option (list reflect.data -> bool))) :=
  forEach (readRow E rc typ f sheet plan
             (mkExcelUnmarshalParameters (ReadConfig.TrimSpace rc) (xlsx.Date1904 f)
                (ReadConfig.FallbackDateFormats rc)) filterFunc)
          (seqZ 0 (xlsx.MaxRow sheet)) ([], []).

Lemma readRows_rowLoop rc typ f sheet plan filterFunc :
  readRows E rc typ f sheet plan filterFunc =
    match rowLoop rc typ f sheet plan filterFunc with
    | Panics msg => panic msg
    | Return r => ok r
    | Next (ts, collectedErrors) =>
        if bool_decide (0 < length collectedErrors)%nat then
          ok (None, Some (ofContentError (mkContentError collectedErrors false)))
        else ok (Some ts, None)
    end.
Proof. done. Qed.

Lemma rowLoop_collectedOk rc typ f sheet plan filterFunc ts collected :
  rowLoop rc typ f sheet plan filterFunc = Next (ts, collected) ->
  collectedOk rc collected.
Proof.
  intros Hloop.
  apply (forEach_invariant (fun s => collectedOk rc s.2) _ _
           (readRow_collectedOk rc typ f sheet plan _ filterFunc) ([], []) (ts, collected)
           (or_introl eq_refl) Hloop).
Qed.

Lemma rowLoop_return rc typ f sheet plan filterFunc r :
  rowLoop rc typ f sheet plan filterFunc = Return r ->
  earlyReturn rc r.
Proof.
  intros Hloop.
  apply (forEach_return (fun s => collectedOk rc s.2) (earlyReturn rc) _ _
           (readRow_collectedOk rc typ f sheet plan _ filterFunc)) in Hloop;
    [done| |by left].
  intros s b r0. by apply readRow_return.
Qed.

Lemma readRows_no_partial_success rc typ f sheet plan filterFunc ts err :
  readRows E rc typ f sheet plan filterFunc = ok (ts, Some err) -> ts = None.
Proof.
  rewrite readRows_rowLoop.
  destruct (rowLoop rc typ f sheet plan filterFunc) as [[ts0 collected]|r|msg] eqn:Hloop;
    [|intros [= ->]|done].
  - case_bool_decide; by intros [= <- <-].
  - by apply rowLoop_return in Hloop as [? _].
Qed.

Lemma readDocument_no_partial_success typ f filterFunc ts err :
  readDocument E typ f filterFunc = ok (ts, Some err) -> ts = None.
Proof.
  unfold readDocument.
  destruct (_ || _); [by intros [= <- <-]|].
  destruct (xlsx.Sheets f !! _) as [sheet|]; [|done].
  destruct (_ || _); [by intros [= <- <-]|].
  destruct (_ || _); [by intros [= <- <-]|].
  destruct (xlsx.Row_ sheet _) as [headerRow|]; [|done].
  case_bool_decide; [done|].
  destruct (bindColumns E _ typ _ _) as [plan|e|msg]; [|by intros [= <- <-]|done].
  apply readRows_no_partial_success.
Qed.

End Policies.

(** C5. A decode call never returns rows together with an error. When the
    row loop runs to its end, having collected at least one field error,
    the call returns no rows and the aggregate error with those field
    errors and the limit flag unset; this happens only under a policy that
    collects, and with the cap not reached. *)
Theorem C5_collect_no_partial_success (E : Externals) (typ : StructType) (f : xlsx.File)
    (filterFunc : list (option (list reflect.data -> bool))) :
  let rc := ReadConfigure typ defaultReadConfig in
  (forall ts err, readDocument E typ f filterFunc = ok (ts, Some err) -> ts = None)
  /\ (forall bytes ts err, ReadBinary E typ bytes filterFunc = ok (ts, Some err) -> ts = None)
  /\ (forall sheet headerRow plan ts collected,
        reachesBinding typ f sheet headerRow ->
        bindColumns E rc typ (tagToFieldMap rc typ)
          (readStrings (xlsx.MaxCol sheet) headerRow) = Next plan ->
        rowLoop E rc typ f sheet plan filterFunc = Next (ts, collected) ->
        collected <> [] ->
        readDocument E typ f filterFunc
          = ok (None, Some (ofContentError (mkContentError collected false)))
        /\ collecting rc /\ underCap rc collected).
Proof.
  intros rc. split; [|split].
  - intros ts err. apply readDocument_no_partial_success.
  - intros bytes ts err. unfold ReadBinary.
    destruct (xlsx_OpenBinary E bytes) as [f'|e]; [|by intros [= <- <-]].
    apply readDocument_no_partial_success.
  - intros sheet headerRow plan ts collected Hreach Hbind Hloop Hne.
    rewrite (readDocument_binding E typ f sheet headerRow filterFunc Hreach). simpl.
    fold rc. rewrite Hbind, readRows_rowLoop, Hloop.
    rewrite bool_decide_eq_true_2 by (destruct collected; [done|simpl; lia]).
    split; [done|].
    by destruct (rowLoop_collectedOk E rc typ f sheet plan filterFunc ts collected Hloop)
      as [?|[? ?]].
Qed.

Lemma C5_collect_no_partial_success_witness :
  readDocument Sample.E (Sample.Score 10) Sample.scoreFile []
  = ok (None, Some (ofContentError (mkContentError
         [Sample.scoreError 1; Sample.scoreError 3; Sample.scoreError 4] false))).
Proof.
  unshelve eapply (proj1 (proj2 (proj2 (C5_collect_no_partial_success Sample.E
            (Sample.Score 10) Sample.scoreFile [])) Sample.scoreSheet Sample.scoreHeader
            _ _ _ _ _ _ _));
    [shelve | shelve
    | split; cbn; (lia || reflexivity)
    | vm_compute; reflexivity
    | vm_compute; reflexivity
    | discriminate].
Defined.

(** ** The cap on collected errors *)

(** The same configuration with another cap. *)
Definition withCap (n : N) (rc : ReadConfig.t) : ReadConfig.t :=
  ReadConfig.mk (ReadConfig.TagName rc) (ReadConfig.SheetIndex rc)
    (ReadConfig.HeaderRowIndex rc) (ReadConfig.DataStartRowIndex rc)
    (ReadConfig.TrimSpace rc) (ReadConfig.FallbackDateFormats rc)
    (ReadConfig.SkipUnknownColumns rc) (ReadConfig.SkipUnknownTypes rc)
    (ReadConfig.UnmarshalErrorHandling_ rc) n
    (ReadConfig.DropListMap rc) (ReadConfig.PointerCanNil rc).

(** The return of a pass stopped at the cap, given everything a pass
    without cap would collect. *)
Definition capReached (n : nat) (collected : list FieldError) : ReadResult :=
  (None, Some (ofContentError (mkContentError (take n collected) true))).

(** Row-then-column order of field errors. *)
Definition earlier (a b : FieldError) : Prop :=
  RowIndex a < RowIndex b
  \/ (RowIndex a = RowIndex b /\ ColumnIndex a < ColumnIndex b).

Definition encounterOrder (l : list FieldError) : Prop := StronglySorted earlier l.

Section CappedLoop.

(** A loop whose iterations log errors, run without cap ([body0]) and with
    the cap [n] ([body]). *)
Context {S B : Type} (log : S -> list FieldError) (n : nat).
Context (body0 body : S -> B -> flow S ReadResult).

Hypothesis body0_extends :
  forall s b s', body0 s b = Next s' -> exists suffix, log s' = log s ++ suffix.

Hypothesis body_follows :
  forall s b s',
    (length (log s) < n)%nat -> body0 s b = Next s' ->
    if decide (length (log s') < n)%nat then body s b = Next s'
    else body s b = Return (capReached n (log s')).

Lemma forEach_extends l s s' :
  forEach body0 l s = Next s' -> exists suffix, log s' = log s ++ suffix.
Proof.
  revert s. induction l as [|b l IH]; intros s Hrun.
  - injection Hrun as <-. exists []. by rewrite app_nil_r.
  - rewrite forEach_cons in Hrun.
    destruct (body0 s b) as [s1|r|msg] eqn:Hb; [|done..].
    destruct (body0_extends s b s1 Hb) as [suffix1 H1].
    destruct (IH s1 Hrun) as [suffix2 H2].
    exists (suffix1 ++ suffix2). by rewrite H2, H1, app_assoc.
Qed.

Lemma forEach_capped l s s' :
  (length (log s) < n)%nat ->
  forEach body0 l s = Next s' ->
  if decide (length (log s') < n)%nat then forEach body l s = Next s'
  else forEach body l s = Return (capReached n (log s')).
Proof.
  revert s. induction l as [|b l IH]; intros s Hlt Hrun.
  - injection Hrun as <-. by rewrite decide_True.
  - rewrite forEach_cons in Hrun. rewrite forEach_cons.
    destruct (body0 s b) as [s1|r|msg] eqn:Hb; [|done..].
    pose proof (body_follows s b s1 Hlt Hb) as Hstep.
    destruct (decide (length (log s1) < n)%nat) as [Hlt1|Hge1].
    + rewrite Hstep. by apply IH.
    + rewrite Hstep.
      destruct (forEach_extends l s1 s' Hrun) as [suffix Hs'].
      rewrite decide_False by (rewrite Hs', length_app; lia).
      unfold capReached. by rewrite Hs', take_app_le by lia.
Qed.

End CappedLoop.

Section Cap.

Context (E : Externals).

Lemma readCell_extends rc typ f cfg rowIndex row (s : list reflect.data * list FieldError)
    (b : Z * fieldInfo) (s' : list reflect.data * list FieldError) :
  readCell E rc typ f cfg rowIndex row s b = Next s' ->
  exists suffix, s'.2 = s.2 ++ suffix.
Proof.
  destruct s as [val collected], s' as [val' collected'], b as [c fi]. simpl.
  intros Hstep. apply readCell_next in Hstep as [->|(e & -> & _)].
  - exists []. by rewrite app_nil_r.
  - by eexists.
Qed.

Lemma handleError_follows rc rowIndex c fi val collected err val' collected' :
  collecting rc ->
  (0 < ReadConfig.MaxUnmarshalErrors rc)%N ->
  (length collected < N.to_nat (ReadConfig.MaxUnmarshalErrors rc))%nat ->
  handleError (withCap 0 rc) rowIndex c fi val collected err = Next (val', collected') ->
  if decide (length collected' < N.to_nat (ReadConfig.MaxUnmarshalErrors rc))%nat
  then handleError rc rowIndex c fi val collected err = Next (val', collected')
  else handleError rc rowIndex c fi val collected err
       = Return (capReached (N.to_nat (ReadConfig.MaxUnmarshalErrors rc)) collected').
Proof.
  intros [Hi Ha] Hpos Hlt. unfold handleError. simpl.
  destruct err as [e|].
  - rewrite (proj2 (N.eqb_neq _ _) Hi), (proj2 (N.eqb_neq _ _) Ha). simpl.
    intros [= <- <-].
    rewrite (proj2 (N.ltb_lt _ _) Hpos). simpl. rewrite length_app in *. simpl.
    destruct (decide (length collected + 1 < _)%nat) as [Hlt1|Hge1].
    + by rewrite (proj2 (N.leb_gt _ _)) by lia.
    + rewrite (proj2 (N.leb_le _ _)) by lia.
      unfold capReached. by rewrite take_ge by (rewrite length_app; simpl; lia).
  - intros [= <- <-]. by rewrite decide_True.
Qed.

Lemma readCell_follows rc typ f cfg rowIndex row (s : list reflect.data * list FieldError)
    (b : Z * fieldInfo) (s' : list reflect.data * list FieldError) :
  collecting rc ->
  (0 < ReadConfig.MaxUnmarshalErrors rc)%N ->
  (length s.2 < N.to_nat (ReadConfig.MaxUnmarshalErrors rc))%nat ->
  readCell E (withCap 0 rc) typ f cfg rowIndex row s b = Next s' ->
  if decide (length s'.2 < N.to_nat (ReadConfig.MaxUnmarshalErrors rc))%nat
  then readCell E rc typ f cfg rowIndex row s b = Next s'
  else readCell E rc typ f cfg rowIndex row s b
       = Return (capReached (N.to_nat (ReadConfig.MaxUnmarshalErrors rc)) s'.2).
Proof.
  destruct s as [val collected], s' as [val' collected'], b as [c fi]. simpl.
  intros Hc Hpos Hlt. unfold readCell.
  destruct (unmarshalFunc fi) as [u|]; [|intros [= <- <-]; by rewrite decide_True].
  destruct (Field typ val (reflectFieldIndex fi)) as [destField|]; [|done].
  simpl.
  change (decodeCell E (withCap 0 rc) f cfg fi u destField (xlsx.GetCell row c))
    with (decodeCell E rc f cfg fi u destField (xlsx.GetCell row c)).
  destruct (decodeCell E rc f cfg fi u destField _) as [[|d|d err]|]; simpl; [| | |done].
  - intros [= <- <-]. by rewrite decide_True.
  - intros [= <- <-]. by rewrite decide_True.
  - by apply handleError_follows.
Qed.

Lemma readRow_extends rc typ f sheet plan cfg filterFunc
    (s : list (list reflect.data) * list FieldError) (rowIndex : Z)
    (s' : list (list reflect.data) * list FieldError) :
  readRow E rc typ f sheet plan cfg filterFunc s rowIndex = Next s' ->
  exists suffix, s'.2 = s.2 ++ suffix.
Proof.
  destruct s as [ts collected], s' as [ts' collected']. simpl.
  unfold readRow.
  case_bool_decide; [|intros [= <- <-]; exists []; by rewrite app_nil_r].
  destruct (xlsx.Row_ sheet rowIndex) as [row|];
    [|intros [= <- <-]; exists []; by rewrite app_nil_r].
  destruct (forEach _ _ _) as [[nT collected1]|r|msg] eqn:Hcols; [|done..].
  intros [= <- <-].
  apply (forEach_extends snd _ (readCell_extends rc typ f cfg rowIndex row)) in Hcols.
  done.
Qed.

Lemma readRow_follows rc typ f sheet plan cfg filterFunc
    (s : list (list reflect.data) * list FieldError) (rowIndex : Z)
    (s' : list (list reflect.data) * list FieldError) :
  collecting rc ->
  (0 < ReadConfig.MaxUnmarshalErrors rc)%N ->
  (length s.2 < N.to_nat (ReadConfig.MaxUnmarshalErrors rc))%nat ->
  readRow E (withCap 0 rc) typ f sheet plan cfg filterFunc s rowIndex = Next s' ->
  if decide (length s'.2 < N.to_nat (ReadConfig.MaxUnmarshalErrors rc))%nat
  then readRow E rc typ f sheet plan cfg filterFunc s rowIndex = Next s'
  else readRow E rc typ f sheet plan cfg filterFunc s rowIndex
       = Return (capReached (N.to_nat (ReadConfig.MaxUnmarshalErrors rc)) s'.2).
Proof.
  destruct s as [ts collected], s' as [ts' collected']. simpl.
  intros Hc Hpos Hlt. unfold readRow. simpl.
  case_bool_decide; [|intros [= <- <-]; by rewrite decide_True].
  destruct (xlsx.Row_ sheet rowIndex) as [row|];
    [|intros [= <- <-]; by rewrite decide_True].
  destruct (forEach (readCell E (withCap 0 rc) typ f cfg rowIndex row) _ _)
    as [[nT collected1]|r|msg] eqn:Hcols; [|done..].
  intros [= <- <-].
  pose proof (forEach_capped snd (N.to_nat (ReadConfig.MaxUnmarshalErrors rc))
                (readCell E (withCap 0 rc) typ f cfg rowIndex row)
                (readCell E rc typ f cfg rowIndex row)
                (readCell_extends (withCap 0 rc) typ f cfg rowIndex row)
                (fun s b s' => readCell_follows rc typ f cfg rowIndex row s b s' Hc Hpos)
                (indexed plan) (zeroRecord typ, collected) (nT, collected1) Hlt Hcols)
    as Hcap.
  simpl in Hcap. destruct (decide _); by rewrite Hcap.
Qed.

Lemma rowLoop_capped rc typ f sheet plan filterFunc ts errs :
  collecting rc ->
  (0 < ReadConfig.MaxUnmarshalErrors rc)%N ->
  rowLoop E (withCap 0 rc) typ f sheet plan filterFunc = Next (ts, errs) ->
  (N.to_nat (ReadConfig.MaxUnmarshalErrors rc) <= length errs)%nat ->
  rowLoop E rc typ f sheet plan filterFunc
  = Return (capReached (N.to_nat (ReadConfig.MaxUnmarshalErrors rc)) errs).
Proof.
  intros Hc Hpos Hloop Hmany. unfold rowLoop in *. simpl in Hloop.
  pose proof (forEach_capped snd (N.to_nat (ReadConfig.MaxUnmarshalErrors rc)) _ _
                (readRow_extends (withCap 0 rc) typ f sheet plan _ filterFunc)
                (fun s b s' => readRow_follows rc typ f sheet plan _ filterFunc s b s' Hc Hpos)
                _ ([], []) (ts, errs) ltac:(simpl; lia) Hloop) as Hcap.
  simpl in Hcap. by rewrite decide_False in Hcap by lia.
Qed.

End Cap.

Section Order.

Context (E : Externals).

Lemma readCells_order rc typ f cfg rowIndex row plan val collected nT collected' :
  forEach (readCell E rc typ f cfg rowIndex row) (indexed plan) (val, collected)
    = Next (nT, collected') ->
  exists suffix,
    collected' = collected ++ suffix
    /\ encounterOrder suffix
    /\ Forall (fun fe => RowIndex fe = rowIndex
                         /\ ColumnIndex fe < Z.of_nat (length plan)) suffix.
Proof.
  revert nT collected'. induction plan as [|fi plan IH] using rev_ind; intros nT collected'.
  - intros [= <- <-]. exists []. rewrite app_nil_r. repeat split; constructor.
  - rewrite indexed_snoc, forEach_app.
    destruct (forEach _ (indexed plan) _) as [[val1 collected1]|r|msg]; [|done..].
    destruct (IH val1 collected1 eq_refl) as (suffix & -> & Hsorted & Hall).
    rewrite forEach_cons.
    destruct (readCell E rc typ f cfg rowIndex row _ _) as [[val2 collected2]|r|msg] eqn:Hstep;
      [|done..].
    intros [= <- <-].
    assert (Forall (fun fe => RowIndex fe = rowIndex
                              /\ ColumnIndex fe < Z.of_nat (length (plan ++ [fi]))) suffix)
      as Hall'.
    { eapply Forall_impl; [exact Hall|]. intros fe [? ?].
      rewrite length_app. simpl. split; [done|lia]. }
    apply readCell_next in Hstep as [->|(e & -> & _)].
    + by exists suffix.
    + exists (suffix ++ [mkFieldError rowIndex (Z.of_nat (length plan)) (header fi) e]).
      split; [by rewrite app_assoc|]. split.
      * apply StronglySorted_app. split; [|split; [done|repeat constructor]].
        intros x1 x2 Hx1 Hx2. apply list_elem_of_singleton in Hx2 as ->.
        rewrite Forall_forall in Hall. destruct (Hall x1 Hx1) as [Hr Hc].
        right. simpl. by split.
      * apply Forall_app. split; [done|]. constructor; [|constructor].
        simpl. rewrite length_app. simpl. split; [done|lia].
Qed.

Lemma readRows_order rc typ f sheet plan cfg filterFunc (n : nat) ts collected :
  forEach (readRow E rc typ f sheet plan cfg filterFunc) (seqZ 0 (Z.of_nat n)) ([], [])
    = Next (ts, collected) ->
  encounterOrder collected /\ Forall (fun fe => RowIndex fe < Z.of_nat n) collected.
Proof.
  revert ts collected. induction n as [|n IH]; intros ts collected.
  - intros [= <- <-]. split; constructor.
  - rewrite seqZ_S, forEach_app.
    destruct (forEach _ (seqZ 0 (Z.of_nat n)) _) as [[ts1 collected1]|r|msg]; [|done..].
    destruct (IH ts1 collected1 eq_refl) as [Hsorted Hall].
    rewrite forEach_cons.
    destruct (readRow E rc typ f sheet plan cfg filterFunc _ _)
      as [[ts2 collected2]|r|msg] eqn:Hstep; [|done..].
    intros [= <- <-].
    assert (Forall (fun fe => RowIndex fe < Z.of_nat (S n)) collected1) as Hall'.
    { eapply Forall_impl; [exact Hall|]. intros fe ?. cbv beta in *. lia. }
    unfold readRow in Hstep.
    case_bool_decide; [|by injection Hstep as <- <-].
    destruct (xlsx.Row_ sheet _) as [row|]; [|by injection Hstep as <- <-].
    destruct (forEach _ (indexed plan) _) as [[nT collected3]|r|msg] eqn:Hcols; [|done..].
    injection Hstep as <- <-.
    apply readCells_order in Hcols as (suffix & -> & Hsuffix & Hrow). split.
    + apply StronglySorted_app. split; [|done].
      intros x1 x2 Hx1 Hx2. rewrite Forall_forall in Hall, Hrow.
      left. destruct (Hrow x2 Hx2) as [-> _]. specialize (Hall x1 Hx1). cbv beta in Hall. lia.
    + apply Forall_app. split; [done|].
      eapply Forall_impl; [exact Hrow|]. intros fe [-> _]. lia.
Qed.

Lemma rowLoop_order rc typ f sheet plan filterFunc ts collected :
  rowLoop E rc typ f sheet plan filterFunc = Next (ts, collected) ->
  encounterOrder collected.
Proof.
  unfold rowLoop. intros Hloop.
  destruct (decide (xlsx.MaxRow sheet <= 0)) as [Hle|Hgt].
  - rewrite seqZ_nil in Hloop by done. injection Hloop as <- <-. constructor.
  - rewrite <- (Z2Nat.id (xlsx.MaxRow sheet)) in Hloop by lia.
    by apply readRows_order in Hloop as [? _].
Qed.

Lemma encounterOrder_take n l : encounterOrder l -> encounterOrder (take n l).
Proof.
  intros Hl. unfold encounterOrder in *. rewrite <- (take_drop n l) in Hl.
  by apply StronglySorted_app_1_l in Hl.
Qed.

End Order.

(** C4. Under the collect policy with a cap [N > 0]: when a pass over the
    document that has no cap collects more than [N] field errors (in fact,
    at least [N]), the capped call returns no rows and an aggregate
    [ContentError] whose [LimitReached] flag is set and whose field errors
    are exactly the first [N] of those, in row-then-column order. *)
Theorem C4_cap_reached (E : Externals) (typ : StructType) (f : xlsx.File)
    (sheet : xlsx.Sheet) (headerRow : list xlsx.Cell) (plan : list fieldInfo)
    (filterFunc : list (option (list reflect.data -> bool)))
    (errs : list FieldError) :
  let rc := ReadConfigure typ defaultReadConfig in
  let cap := ReadConfig.MaxUnmarshalErrors rc in
  ReadConfig.UnmarshalErrorHandling_ rc = UnmarshalErrorCollect ->
  (0 < cap)%N ->
  reachesBinding typ f sheet headerRow ->
  bindColumns E rc typ (tagToFieldMap rc typ)
    (readStrings (xlsx.MaxCol sheet) headerRow) = Next plan ->
  readRows E (withCap 0 rc) typ f sheet plan filterFunc
    = ok (None, Some (ofContentError (mkContentError errs false))) ->
  (cap <= N.of_nat (length errs))%N ->
  exists ce,
    readDocument E typ f filterFunc = ok (None, Some (ofContentError ce))
    /\ LimitReached ce = true
    /\ N.of_nat (length (FieldErrors ce)) = cap
    /\ FieldErrors ce = take (N.to_nat cap) errs
    /\ encounterOrder (FieldErrors ce).
Proof.
  intros rc cap Hcollect Hpos Hreach Hbind Hfree Hmany.
  assert (collecting rc) as Hc.
  { unfold collecting. fold rc in Hcollect. by rewrite Hcollect. }
  rewrite readRows_rowLoop in Hfree.
  destruct (rowLoop E (withCap 0 rc) typ f sheet plan filterFunc)
    as [[ts collected]|r|msg] eqn:Hloop; [| |done].
  - case_bool_decide; [|done]. injection Hfree as ->.
    exists (mkContentError (take (N.to_nat cap) errs) true). simpl.
    split; [|split; [done|split; [|split; [done|]]]].
    + rewrite (readDocument_binding E typ f sheet headerRow filterFunc Hreach). simpl.
      fold rc. rewrite Hbind, readRows_rowLoop.
      by rewrite (rowLoop_capped E rc typ f sheet plan filterFunc ts errs Hc Hpos Hloop)
        by lia.
    + rewrite length_take_le by lia. lia.
    + apply encounterOrder_take. by eapply rowLoop_order.
  - injection Hfree as ->.
    apply rowLoop_return in Hloop as [_ [(fe & Hfe & _)|(collected & Hce & _)]];
      simpl in *; congruence.
Qed.

Lemma C4_cap_reached_witness :
  exists ce,
    readDocument Sample.E (Sample.Score 2) Sample.scoreFile [] = ok (None, Some (ofContentError ce))
    /\ LimitReached ce = true
    /\ N.of_nat (length (FieldErrors ce)) = 2%N
    /\ FieldErrors ce
       = take 2 [Sample.scoreError 1; Sample.scoreError 3; Sample.scoreError 4]
    /\ encounterOrder (FieldErrors ce).
Proof.
  eapply (C4_cap_reached Sample.E (Sample.Score 2) Sample.scoreFile Sample.scoreSheet
            Sample.scoreHeader _ []
            [Sample.scoreError 1; Sample.scoreError 3; Sample.scoreError 4]).
  - reflexivity.
  - reflexivity.
  - split; cbn; (lia || reflexivity).
  - vm_compute. reflexivity.
  - vm_compute. reflexivity.
  - vm_compute. discriminate.
Defined.

(** ** The header row *)

Section Header.

Context (E : Externals).

(** The name a field is written under, and whether the field gets a
    column. *)
Definition columnName (wc : WriteConfig.t) (fe : reflect.StructField) : string :=
  default (reflect.Name fe) (reflect.Lookup (reflect.Tag fe) (WriteConfig.TagName wc)).

Definition hasColumn (wc : WriteConfig.t) (fe : reflect.StructField) : bool :=
  reflect.IsExported fe
  && (bool_decide (is_Some (reflect.Lookup (reflect.Tag fe) (WriteConfig.TagName wc)))
      || negb (WriteConfig.SkipNoTag wc)).

Lemma headerRow_fields wc typ :
  headerRow wc typ = (fun fe => anyString (columnName wc fe)) <$> List.filter (hasColumn wc) (Fields typ).
Proof.
  unfold headerRow. induction (Fields typ) as [|fe fields IH] using rev_ind; [done|].
  rewrite foldl_app, List.filter_app, fmap_app, IH. cbn [foldl List.filter].
  unfold hasColumn, columnName.
  destruct (reflect.IsExported fe); simpl; [|by rewrite app_nil_r].
  destruct (reflect.Lookup (reflect.Tag fe) (WriteConfig.TagName wc)) as [tg|] eqn:Htag;
    simpl.
  - by rewrite Htag.
  - destruct (WriteConfig.SkipNoTag wc); simpl; [by rewrite app_nil_r|by rewrite Htag].
Qed.

Lemma writeCell_string wc s : writeCell E wc (anyString s) = xlsx.SetString s.
Proof. done. Qed.

Lemma write_header wc name (names : list string) :
  write E (xlsx.mkSheet name [] 0 0 []) (anyString <$> names) wc
  = xlsx.mkSheet name [xlsx.SetString <$> names] 1 (Z.of_nat (length names)) [].
Proof.
  unfold write, xlsx.AddRowOf. simpl. f_equal.
  - f_equal. rewrite <- list_fmap_compose. apply list_fmap_ext. by intros.
  - rewrite !length_fmap. lia.
Qed.

End Header.

(** C10. An encode entry point called with an empty record slice never
    calls the records' [WriteConfigure]: whatever that callback is, the
    document has exactly one sheet, named "Sheet1", whose only row is the
    header row of the record type under the default write configuration
    (one cell per exported field, holding the "excel" tag or else the field
    name), with no data rows and no cell constraints. *)
Theorem C10_empty_slice (E : Externals) (typ : StructType) :
  let header :=
    (fun fe => xlsx.SetString
                 (default (reflect.Name fe) (reflect.Lookup (reflect.Tag fe) "excel")))
    <$> List.filter reflect.IsExported (Fields typ) in
  let document :=
    xlsx.mkFile [xlsx.mkSheet "Sheet1" [header] 1 (Z.of_nat (length header)) []] false in
  NewFileFromSlice E typ [] = ok document
  /\ WriteFile E typ [] = ok document
  /\ WriteTo E typ [] = ok document
  /\ (forall configure,
        NewFileFromSlice E (mkStructType (Fields typ) (ReadConfigure typ) configure) []
        = NewFileFromSlice E typ []).
Proof.
  intros header document.
  assert (write0 E typ xlsx.NewFile [] = ok document) as Hdoc.
  { unfold write0. simpl. rewrite headerRow_fields.
    rewrite (list_fmap_compose (columnName defaultWriteConfig) anyString).
    rewrite write_header. unfold document, header, xlsx.attach, xlsx.NewFile. simpl.
    assert (List.filter (hasColumn defaultWriteConfig) (Fields typ)
            = List.filter reflect.IsExported (Fields typ)) as ->.
    { apply List.filter_ext. intros fe. unfold hasColumn. simpl.
      by rewrite orb_true_r, andb_true_r. }
    rewrite <- list_fmap_compose. by rewrite !length_fmap. }
  split; [done|]. split; [done|]. split; [done|].
  intros configure. done.
Qed.

(** ** Writing then reading *)

Section RoundTrip.

Context (E : Externals).

(** Encoding with the write entry point, then decoding the document. The
    container is taken to give back, when opened, the document that was
    saved. *)
Definition roundTrip (typ : StructType) (ts : list (list reflect.data)) : res ReadResult :=
  f ← NewFileFromSlice E typ ts; readDocument E typ f [].

(** The [tag] variable of the field loop of [write0]. *)
Definition writeTag (wc : WriteConfig.t) (fe : reflect.StructField) : string :=
  default EmptyString (reflect.Lookup (reflect.Tag fe) (WriteConfig.TagName wc)).

(** The value that [write0] appends for a field with contents [d], and the
    cell that [write] makes of it. *)
Definition fieldValue (wc : WriteConfig.t) (fe : reflect.StructField) (d : reflect.data) : any :=
  cellValue wc
    (reflect.mkValue (reflect.FieldType fe) d (negb (reflect.IsExported fe)))
    (writeTag wc fe).

Definition encodeField (wc : WriteConfig.t) (fe : reflect.StructField) (d : reflect.data)
  : xlsx.Cell :=
  writeCell E wc (fieldValue wc fe d).

Definition rowData (wc : WriteConfig.t) (typ : StructType) (t : list reflect.data) : list any :=
  (fun p => fieldValue wc p.1 p.2) <$> zip (Fields typ) t.

(** The grid of a sheet: everything but its cell constraints. *)
Definition grid (sheet : xlsx.Sheet) : string * list (list xlsx.Cell) * Z * Z :=
  (xlsx.Name sheet, xlsx.Rows sheet, xlsx.MaxRow sheet, xlsx.MaxCol sheet).

Lemma addValidation_grid wc v tag rowIndex colIndex sheet :
  grid (addValidation wc v tag rowIndex colIndex sheet) = grid sheet.
Proof. unfold addValidation. by repeat case_match. Qed.

Lemma foldRes_app {S B} (body : S -> B -> res S) l1 l2 s :
  foldRes body (l1 ++ l2) s = (s' ← foldRes body l1 s; foldRes body l2 s').
Proof.
  revert s. induction l1 as [|b l1 IH]; intros s; simpl; [done|].
  destruct (body s b) as [s1|msg]; simpl; [apply IH|done].
Qed.

Lemma foldRes_cons {S B} (body : S -> B -> res S) b l s :
  foldRes body (b :: l) s =
    match body s b with
    | ok s' => foldRes body l s'
    | panic msg => panic msg
    end.
Proof. done. Qed.

Lemma foldRes_snoc {S B} (body : S -> B -> res S) l b s :
  foldRes body (l ++ [b]) s =
    match foldRes body l s with
    | ok s' => body s' b
    | panic msg => panic msg
    end.
Proof.
  rewrite foldRes_app. destruct (foldRes body l s) as [s'|msg]; [|done].
  simpl. by destruct (body s' b).
Qed.

(** Every field is exported and has a tag under the tag name. *)
Definition allColumns (wc : WriteConfig.t) (typ : StructType) : Prop :=
  Forall (fun fe => reflect.IsExported fe = true
                    /\ is_Some (reflect.Lookup (reflect.Tag fe) (WriteConfig.TagName wc)))
         (Fields typ).

Lemma writeField_column wc typ t i1 data sheet i fe d :
  allColumns wc typ ->
  Fields typ !! i = Some fe ->
  t !! i = Some d ->
  exists sheet',
    writeField wc typ t i1 (data, sheet) i = ok (data ++ [fieldValue wc fe d], sheet')
    /\ grid sheet' = grid sheet.
Proof.
  intros Hall Hfe Hd. unfold writeField, Field. rewrite Hfe, Hd. simpl.
  unfold allColumns in Hall. rewrite Forall_forall in Hall.
  destruct (Hall fe) as [Hexp [tg Htag]]; [by eapply list_elem_of_lookup_2|].
  unfold reflect.CanInterface. simpl. rewrite Hexp. simpl. rewrite Htag. simpl.
  eexists. split; [|apply addValidation_grid].
  unfold fieldValue, writeTag. by rewrite Hexp, Htag.
Qed.

Lemma writeFields_prefix wc typ t i1 sheet (k : nat) :
  allColumns wc typ ->
  length t = NumField typ ->
  (k <= NumField typ)%nat ->
  exists sheet',
    foldRes (writeField wc typ t i1) (seq 0 k) ([], sheet)
    = ok (take k (rowData wc typ t), sheet')
    /\ grid sheet' = grid sheet.
Proof.
  intros Hall Hlen. induction k as [|k IH]; intros Hk.
  - exists sheet. by rewrite take_0.
  - destruct IH as (sheet1 & Hrun & Hgrid); [lia|].
    unfold NumField in *.
    destruct (lookup_lt_is_Some_2 (Fields typ) k) as [fe Hfe]; [lia|].
    destruct (lookup_lt_is_Some_2 t k) as [d Hd]; [lia|].
    destruct (writeField_column wc typ t i1 (take k (rowData wc typ t)) sheet1 k fe d
                Hall Hfe Hd) as (sheet2 & Hstep & Hgrid2).
    exists sheet2. split; [|congruence].
    rewrite seq_S, foldRes_snoc, Hrun, Nat.add_0_l, Hstep.
    rewrite (take_S_r _ _ (fieldValue wc fe d)); [done|].
    unfold rowData. rewrite list_lookup_fmap, lookup_zip_with, Hfe. simpl. by rewrite Hd.
Qed.

Lemma rowData_length wc typ t :
  length t = NumField typ -> length (rowData wc typ t) = NumField typ.
Proof.
  intros Hlen. unfold rowData, NumField in *. rewrite length_fmap, length_zip_with. lia.
Qed.

Lemma writeRecord_grid wc typ sheet i1 t :
  allColumns wc typ ->
  length t = NumField typ ->
  exists sheet',
    writeRecord E wc typ sheet (i1, t) = ok sheet'
    /\ grid sheet'
       = (xlsx.Name sheet, xlsx.Rows sheet ++ [writeCell E wc <$> rowData wc typ t],
          xlsx.MaxRow sheet + 1,
          Z.max (xlsx.MaxCol sheet) (Z.of_nat (NumField typ))).
Proof.
  intros Hall Hlen. unfold writeRecord.
  destruct (writeFields_prefix wc typ t i1 sheet (NumField typ) Hall Hlen)
    as (sheet1 & Hrun & Hgrid); [done|].
  rewrite Hrun. simpl. eexists. split; [done|].
  rewrite take_ge by (by rewrite rowData_length).
  unfold grid, write, xlsx.AddRowOf in *. simpl.
  injection Hgrid as -> -> -> ->.
  by rewrite length_fmap, rowData_length.
Qed.

Lemma writeRecords_grid wc typ (l : list (Z * list reflect.data)) sheet :
  allColumns wc typ ->
  Forall (fun it => length it.2 = NumField typ) l ->
  xlsx.MaxCol sheet = Z.of_nat (NumField typ) ->
  exists sheet',
    foldRes (writeRecord E wc typ) l sheet = ok sheet'
    /\ grid sheet'
       = (xlsx.Name sheet,
          xlsx.Rows sheet ++ ((fun it => writeCell E wc <$> rowData wc typ it.2) <$> l),
          xlsx.MaxRow sheet + Z.of_nat (length l),
          Z.of_nat (NumField typ)).
Proof.
  intros Hall. revert sheet. induction l as [|[i1 t] l IH]; intros sheet Hlens Hcol.
  - exists sheet. split; [done|]. unfold grid. simpl.
    rewrite app_nil_r, Z.add_0_r. by rewrite Hcol.
  - apply Forall_cons in Hlens as [Hlen Hlens]. simpl in Hlen.
    destruct (writeRecord_grid wc typ sheet i1 t Hall Hlen) as (sheet1 & Hstep & Hgrid1).
    unfold grid in Hgrid1. injection Hgrid1 as Hn Hr Hm Hc.
    destruct (IH sheet1 Hlens) as (sheet2 & Hrun & Hgrid2); [lia|].
    exists sheet2. rewrite foldRes_cons, Hstep. split; [done|].
    rewrite Hgrid2, Hn, Hr, Hm. rewrite <- app_assoc. simpl.
    do 2 f_equal. lia.
Qed.

Lemma indexed_fmap_snd {A B} (g : A -> B) (l : list A) :
  (fun it => g it.2) <$> indexed l = g <$> l.
Proof.
  apply list_eq. intros i. rewrite !list_lookup_fmap, indexed_lookup.
  by destruct (l !! i).
Qed.

Lemma allColumns_filter wc typ :
  allColumns wc typ -> List.filter (hasColumn wc) (Fields typ) = Fields typ.
Proof.
  unfold allColumns. induction (Fields typ) as [|fe fields IH]; [done|].
  intros [[Hexp Htag] Hall]%Forall_cons. simpl. unfold hasColumn at 1.
  rewrite Hexp, bool_decide_eq_true_2 by done. simpl. by rewrite IH.
Qed.

Lemma AddSheet_NewFile name :
  xlsx.IsSaneSheetName name = true ->
  xlsx.AddSheet xlsx.NewFile name = Some (xlsx.mkSheet name [] 0 0 []).
Proof.
  intros Hsane. unfold xlsx.AddSheet, xlsx.NewFile. cbn [xlsx.Sheets existsb].
  by rewrite Hsane.
Qed.

(** The document that the write entry point makes of a non-empty slice. *)
Lemma NewFileFromSlice_grid typ t0 rest :
  let ts := t0 :: rest in
  let wc := WriteConfigure typ t0 defaultWriteConfig in
  allColumns wc typ ->
  xlsx.IsSaneSheetName (WriteConfig.SheetName wc) = true ->
  Forall (fun t => length t = NumField typ) ts ->
  exists sheet,
    NewFileFromSlice E typ ts = ok (xlsx.mkFile [sheet] false)
    /\ xlsx.Rows sheet
       = (xlsx.SetString <$> (columnName wc <$> Fields typ))
         :: ((fun t => writeCell E wc <$> rowData wc typ t) <$> ts)
    /\ xlsx.MaxRow sheet = 1 + Z.of_nat (length ts)
    /\ xlsx.MaxCol sheet = Z.of_nat (NumField typ).
Proof.
  intros ts wc Hall Hsane Hlens.
  unfold NewFileFromSlice, write0. subst ts. cbv beta iota zeta. fold wc.
  rewrite (AddSheet_NewFile _ Hsane).
  rewrite headerRow_fields, (allColumns_filter wc typ Hall).
  rewrite (list_fmap_compose (columnName wc) anyString), write_header.
  pose proof (indexed_fmap_snd (fun t => writeCell E wc <$> rowData wc typ t) (t0 :: rest))
    as Hmap.
  pose proof (indexed_length (t0 :: rest)) as Hlen.
  assert (Forall (fun it : Z * list reflect.data => length it.2 = NumField typ)
            (indexed (t0 :: rest))) as Hlens'.
  { rewrite Forall_forall. intros [i t] Hin.
    apply list_elem_of_lookup in Hin as [j Hj]. rewrite indexed_lookup in Hj.
    destruct ((t0 :: rest) !! j) as [t'|] eqn:Ht; [|done]. injection Hj as <- <-. simpl.
    rewrite Forall_forall in Hlens. apply Hlens. by eapply list_elem_of_lookup_2. }
  rewrite bool_decide_eq_true_2 by (simpl; lia).
  generalize dependent (indexed (t0 :: rest)). intros l Hmap Hlen Hlens'.
  destruct (writeRecords_grid wc typ l
              (xlsx.mkSheet (WriteConfig.SheetName wc)
                 [xlsx.SetString <$> (columnName wc <$> Fields typ)] 1
                 (Z.of_nat (length (columnName wc <$> Fields typ))) []) Hall Hlens')
    as (sheet & Hrun & Hgrid).
  { cbn [xlsx.MaxCol]. by rewrite length_fmap. }
  exists sheet. rewrite Hrun. split; [done|].
  unfold grid in Hgrid.
  cbn [xlsx.Name xlsx.Rows xlsx.MaxRow xlsx.MaxCol] in Hgrid.
  injection Hgrid as _ -> -> ->.
  by rewrite Hmap, Hlen.
Qed.

(** The destination that the column loop sees for a field of a fresh
    record. *)
Definition freshField (fe : reflect.StructField) : reflect.Value :=
  reflect.mkValue (reflect.FieldType fe) (reflect.zeroOf (reflect.FieldType fe))
    (negb (reflect.IsExported fe)).

(** A field value survives its own cell: the field resolves to a routine,
    and decoding the cell that encoding writes for the value, into a fresh
    field, gives the value back without error (an empty cell that the
    nil-on-empty rule skips gives back the zero value). *)
Definition survivesCell (wc : WriteConfig.t) (rc : ReadConfig.t)
    (fe : reflect.StructField) (d : reflect.data) : bool :=
  match GetUnmarshalFunc E (freshField fe) with
  | None => false
  | Some unmarshal =>
      match decodeCell E rc xlsx.NewFile
              (mkExcelUnmarshalParameters (ReadConfig.TrimSpace rc) false
                 (ReadConfig.FallbackDateFormats rc))
              (mkFieldInfo 0 (columnName wc fe) (Some unmarshal)) unmarshal
              (freshField fe) (encodeField wc fe d) with
      | ok Skipped => bool_decide (d = reflect.zeroOf (reflect.FieldType fe))
      | ok (Stored d') => bool_decide (d' = d)
      | ok (Converted d' None) => bool_decide (d' = d)
      | _ => false
      end
  end.

Definition survives (wc : WriteConfig.t) (rc : ReadConfig.t) (typ : StructType)
    (t : list reflect.data) : bool :=
  forallb (fun p => survivesCell wc rc p.1 p.2) (zip (Fields typ) t).

Lemma survives_lookup wc rc typ t i fe d :
  survives wc rc typ t = true ->
  Fields typ !! i = Some fe -> t !! i = Some d ->
  survivesCell wc rc fe d = true.
Proof.
  unfold survives. rewrite forallb_forall. intros Hall Hfe Hd.
  apply (Hall (fe, d)). apply list_elem_of_In, list_elem_of_lookup. exists i.
  by rewrite lookup_zip_with, Hfe; simpl; rewrite Hd.
Qed.

Lemma decodeCell_ext rc f f' cfg fi fi' unmarshal destField cell :
  xlsx.Date1904 f = xlsx.Date1904 f' ->
  header fi = header fi' ->
  decodeCell E rc f cfg fi unmarshal destField cell
  = decodeCell E rc f' cfg fi' unmarshal destField cell.
Proof. intros Hd Hh. unfold decodeCell, stringCase. by rewrite Hd, Hh. Qed.

Lemma readStrings_cells (cells : list xlsx.Cell) :
  readStrings (Z.of_nat (length cells)) cells = xlsx.Value <$> cells.
Proof.
  unfold readStrings. apply list_eq. intros i. rewrite !list_lookup_fmap.
  destruct (decide (i < length cells)%nat) as [Hlt|Hge].
  - rewrite lookup_seqZ_lt by lia. simpl. unfold xlsx.GetCell.
    rewrite Z.add_0_l, Nat2Z.id.
    by destruct (lookup_lt_is_Some_2 cells i Hlt) as [c ->].
  - rewrite lookup_seqZ_ge by lia. by rewrite lookup_ge_None_2 by lia.
Qed.

(** The settings shared by the two sides. *)
Record roundTripSetting (typ : StructType) (wc : WriteConfig.t) (rc : ReadConfig.t)
  : Prop := {
  rt_tag_name : ReadConfig.TagName rc = WriteConfig.TagName wc;
  rt_sheet_index : ReadConfig.SheetIndex rc = 0;
  rt_header_index : ReadConfig.HeaderRowIndex rc = 0;
  rt_data_index : ReadConfig.DataStartRowIndex rc = 1;
  rt_sheet_name : xlsx.IsSaneSheetName (WriteConfig.SheetName wc) = true;
  rt_columns : allColumns wc typ;
  rt_distinct : NoDup (columnName wc <$> Fields typ)
}.

Lemma columnName_tag wc rc typ i fe :
  roundTripSetting typ wc rc ->
  Fields typ !! i = Some fe ->
  tagToFieldMap rc typ !! columnName wc fe = Some i.
Proof.
  intros Hset Hfe. apply tagToFieldMap_spec.
  pose proof (rt_columns _ _ _ Hset) as Hall. unfold allColumns in Hall.
  rewrite Forall_forall in Hall.
  assert (forall j fe', Fields typ !! j = Some fe' ->
            tagOf rc fe' = Some (columnName wc fe')) as Htag.
  { intros j fe' Hj. destruct (Hall fe') as [_ [tg Htg]]; [by eapply list_elem_of_lookup_2|].
    unfold tagOf, columnName. rewrite (rt_tag_name _ _ _ Hset), Htg. done. }
  exists fe. split; [done|]. split; [by eapply Htag|].
  intros j fe' Hlt Hj Heq. rewrite (Htag j fe' Hj) in Heq. injection Heq as Heq.
  pose proof (rt_distinct _ _ _ Hset) as Hnd.
  assert (j = i); [|lia].
  eapply (NoDup_lookup _ j i (columnName wc fe) Hnd).
  - by rewrite list_lookup_fmap, Hj; simpl; rewrite Heq.
  - by rewrite list_lookup_fmap, Hfe.
Qed.

(** Every column of the written header binds to its own field. *)
Lemma bindColumns_round_trip wc rc typ t :
  roundTripSetting typ wc rc ->
  length t = NumField typ ->
  survives wc rc typ t = true ->
  exists plan,
    bindColumns E rc typ (tagToFieldMap rc typ) (columnName wc <$> Fields typ) = Next plan
    /\ length plan = NumField typ
    /\ forall i fe, Fields typ !! i = Some fe ->
         exists unmarshal,
           GetUnmarshalFunc E (freshField fe) = Some unmarshal
           /\ plan !! i = Some (mkFieldInfo i (columnName wc fe) (Some unmarshal)).
Proof.
  intros Hset Hlen Hsurv.
  assert (forall i fe, Fields typ !! i = Some fe ->
            exists unmarshal,
              GetUnmarshalFunc E (freshField fe) = Some unmarshal
              /\ bindColumn E rc typ (tagToFieldMap rc typ) (zeroRecord typ) (Z.of_nat i)
                   (columnName wc fe)
                 = Next (mkFieldInfo i (columnName wc fe) (Some unmarshal))) as Hbind.
  { intros i fe Hfe.
    destruct (lookup_lt_is_Some_2 t i) as [d Hd].
    { rewrite Hlen. by eapply lookup_lt_Some. }
    pose proof (survives_lookup wc rc typ t i fe d Hsurv Hfe Hd) as Hcell.
    unfold survivesCell in Hcell.
    destruct (GetUnmarshalFunc E (freshField fe)) as [u|] eqn:Hu; [|done].
    exists u. split; [done|]. unfold bindColumn.
    rewrite (columnName_tag wc rc typ i fe Hset Hfe), (Field_zeroRecord typ i fe Hfe).
    simpl. fold (freshField fe). by rewrite Hu. }
  destruct (bindColumns_complete E rc typ (tagToFieldMap rc typ)
              (columnName wc <$> Fields typ)) as [plan Hplan].
  { intros j h Hj. rewrite list_lookup_fmap in Hj.
    destruct (Fields typ !! j) as [fe|] eqn:Hfe; [|done]. injection Hj as <-.
    destruct (Hbind j fe Hfe) as (u & _ & Hb). by eexists. }
  exists plan. split; [done|].
  destruct (bindColumns_plan E rc typ _ _ plan Hplan) as [Hlenp Hall].
  split; [by rewrite Hlenp, length_fmap|].
  intros i fe Hfe. destruct (Hbind i fe Hfe) as (u & Hu & Hb).
  exists u. split; [done|].
  destruct (Hall i (columnName wc fe)) as (fi & Hfi & Hb').
  { by rewrite list_lookup_fmap, Hfe. }
  rewrite Hfi. congruence.
Qed.

Lemma insert_take_drop {A} (t zero : list A) k d :
  t !! k = Some d ->
  length zero = length t ->
  <[k := d]> (take k t ++ drop k zero) = take (S k) t ++ drop (S k) zero.
Proof.
  intros Hd Hlen. pose proof (lookup_lt_Some _ _ _ Hd) as Hk.
  destruct (lookup_lt_is_Some_2 zero k) as [z Hz]; [lia|].
  rewrite (take_S_r _ _ _ Hd), (drop_S _ _ _ Hz).
  rewrite insert_app_r_alt by (rewrite length_take; lia).
  rewrite length_take, Nat.min_l, Nat.sub_diag by lia. simpl.
  by rewrite <- app_assoc.
Qed.

Section Row.

Context (wc : WriteConfig.t) (rc : ReadConfig.t) (typ : StructType) (f : xlsx.File).
Context (plan : list fieldInfo) (t : list reflect.data) (rowIndex : Z).

Let cfg : ExcelUnmarshalParameters :=
  mkExcelUnmarshalParameters (ReadConfig.TrimSpace rc) (xlsx.Date1904 f)
    (ReadConfig.FallbackDateFormats rc).

Let row : list xlsx.Cell := writeCell E wc <$> rowData wc typ t.

Hypothesis plan_bound :
  forall i fe, Fields typ !! i = Some fe ->
    exists unmarshal,
      GetUnmarshalFunc E (freshField fe) = Some unmarshal
      /\ plan !! i = Some (mkFieldInfo i (columnName wc fe) (Some unmarshal)).
Hypothesis plan_length : length plan = NumField typ.
Hypothesis record_length : length t = NumField typ.
Hypothesis record_survives : survives wc rc typ t = true.
Hypothesis epoch : xlsx.Date1904 f = false.

Lemma readCell_round_trip k fe d :
  Fields typ !! k = Some fe ->
  t !! k = Some d ->
  exists fi,
    plan !! k = Some fi
    /\ readCell E rc typ f cfg rowIndex row
         (take k t ++ drop k (zeroRecord typ), []) (Z.of_nat k, fi)
       = Next (take (S k) t ++ drop (S k) (zeroRecord typ), []).
Proof.
  intros Hfe Hd.
  destruct (plan_bound k fe Hfe) as (u & Hu & Hfi). eexists. split; [exact Hfi|].
  pose proof (lookup_lt_Some _ _ _ Hd) as Hk.
  assert (length (zeroRecord typ) = length t) as Hzlen.
  { unfold zeroRecord. rewrite length_fmap. by rewrite record_length. }
  assert ((take k t ++ drop k (zeroRecord typ)) !! k
          = Some (reflect.zeroOf (reflect.FieldType fe))) as Hval.
  { rewrite lookup_app_r by (rewrite length_take; lia).
    rewrite length_take, Nat.min_l, Nat.sub_diag, lookup_drop, Nat.add_0_r by lia.
    unfold zeroRecord. by rewrite list_lookup_fmap, Hfe. }
  assert (Field typ (take k t ++ drop k (zeroRecord typ)) k = ok (freshField fe)) as Hfield.
  { unfold Field. by rewrite Hfe, Hval. }
  assert (xlsx.GetCell row (Z.of_nat k) = encodeField wc fe d) as Hcell.
  { unfold xlsx.GetCell, row, rowData. rewrite Nat2Z.id, !list_lookup_fmap.
    by rewrite lookup_zip_with, Hfe; simpl; rewrite Hd. }
  pose proof (survives_lookup wc rc typ t k fe d record_survives Hfe Hd) as Hs.
  unfold survivesCell in Hs. rewrite Hu in Hs.
  rewrite (decodeCell_ext rc xlsx.NewFile f _
             (mkFieldInfo 0 (columnName wc fe) (Some u))
             (mkFieldInfo k (columnName wc fe) (Some u))) in Hs by done.
  assert (mkExcelUnmarshalParameters (ReadConfig.TrimSpace rc) false
            (ReadConfig.FallbackDateFormats rc) = cfg) as Hcfg.
  { unfold cfg. by rewrite epoch. }
  rewrite Hcfg, <- Hcell in Hs.
  destruct (decodeCell E rc f cfg _ u (freshField fe) _) as [o|] eqn:Hdec; [|done].
  rewrite (readCell_outcome E rc typ f cfg rowIndex row _ [] (Z.of_nat k)
             (mkFieldInfo k (columnName wc fe) (Some u)) u
             (freshField fe) o eq_refl Hfield Hdec).
  cbn [reflectFieldIndex].
  destruct o as [|d'|d' [e|]]; [| | done |].
  - apply bool_decide_eq_true_1 in Hs.
    rewrite <- (insert_take_drop t (zeroRecord typ) k d Hd Hzlen).
    rewrite list_insert_id; [done|]. by rewrite Hval, Hs.
  - apply bool_decide_eq_true_1 in Hs. subst d'.
    by rewrite (insert_take_drop t (zeroRecord typ) k d Hd Hzlen).
  - apply bool_decide_eq_true_1 in Hs. subst d'. unfold handleError.
    by rewrite (insert_take_drop t (zeroRecord typ) k d Hd Hzlen).
Qed.

Lemma readCells_round_trip (k : nat) :
  (k <= NumField typ)%nat ->
  forEach (readCell E rc typ f cfg rowIndex row) (indexed (take k plan))
    (zeroRecord typ, [])
  = Next (take k t ++ drop k (zeroRecord typ), []).
Proof.
  induction k as [|k IH]; intros Hk.
  - by rewrite !take_0, drop_0.
  - unfold NumField in *.
    destruct (lookup_lt_is_Some_2 (Fields typ) k) as [fe Hfe]; [lia|].
    destruct (lookup_lt_is_Some_2 t k) as [d Hd]; [rewrite record_length; lia|].
    destruct (readCell_round_trip k fe d Hfe Hd) as (fi & Hfi & Hstep).
    rewrite (take_S_r _ _ _ Hfi), indexed_snoc, forEach_app, IH by lia.
    rewrite length_take, Nat.min_l by (rewrite plan_length; unfold NumField; lia).
    by rewrite forEach_cons, Hstep.
Qed.

Lemma readRecord_round_trip :
  forEach (readCell E rc typ f cfg rowIndex row) (indexed plan) (zeroRecord typ, [])
  = Next (t, []).
Proof.
  pose proof (readCells_round_trip (NumField typ) (le_n _)) as Hrun.
  rewrite take_ge in Hrun by (by rewrite plan_length).
  rewrite take_ge, drop_ge, app_nil_r in Hrun; [done| |by rewrite record_length].
  unfold zeroRecord. by rewrite length_fmap.
Qed.

End Row.

Lemma readRows_round_trip wc rc typ f sheet plan hdr (ts : list (list reflect.data)) :
  (forall i fe, Fields typ !! i = Some fe ->
     exists unmarshal,
       GetUnmarshalFunc E (freshField fe) = Some unmarshal
       /\ plan !! i = Some (mkFieldInfo i (columnName wc fe) (Some unmarshal))) ->
  length plan = NumField typ ->
  xlsx.Date1904 f = false ->
  ReadConfig.DataStartRowIndex rc = 1 ->
  xlsx.Rows sheet = hdr :: ((fun t => writeCell E wc <$> rowData wc typ t) <$> ts) ->
  Forall (fun t => length t = NumField typ /\ survives wc rc typ t = true) ts ->
  forall done rest,
    ts = done ++ rest ->
    forEach (readRow E rc typ f sheet plan
               (mkExcelUnmarshalParameters (ReadConfig.TrimSpace rc) (xlsx.Date1904 f)
                  (ReadConfig.FallbackDateFormats rc)) [])
            (seqZ (1 + Z.of_nat (length done)) (Z.of_nat (length rest))) (done, [])
    = Next (done ++ rest, []).
Proof.
  intros Hplan Hlenp Hepoch Hstart Hrows Hall done rest. revert done.
  induction rest as [|t rest IH]; intros done Hts.
  - by rewrite app_nil_r.
  - rewrite seqZ_cons by (simpl; lia). rewrite forEach_cons.
    assert (readRow E rc typ f sheet plan
              (mkExcelUnmarshalParameters (ReadConfig.TrimSpace rc) (xlsx.Date1904 f)
                 (ReadConfig.FallbackDateFormats rc)) [] (done, [])
              (1 + Z.of_nat (length done))
            = Next (done ++ [t], [])) as ->.
    { unfold readRow. rewrite Hstart, bool_decide_eq_true_2 by lia.
      unfold xlsx.Row_. rewrite bool_decide_eq_false_2 by lia.
      replace (Z.to_nat (1 + Z.of_nat (length done))) with (S (length done)) by lia.
      assert (xlsx.Rows sheet !! S (length done)
              = Some (writeCell E wc <$> rowData wc typ t)) as ->.
      { rewrite Hrows, lookup_cons, list_lookup_fmap, Hts.
        by rewrite lookup_app_r, Nat.sub_diag by done. }
      rewrite Forall_forall in Hall. destruct (Hall t) as [Hlen Hsurv].
      { rewrite Hts. apply elem_of_app. right. by left. }
      by rewrite (readRecord_round_trip wc rc typ f plan t _ Hplan Hlenp Hlen Hsurv Hepoch). }
    replace (Z.succ (1 + Z.of_nat (length done)))
      with (1 + Z.of_nat (length (done ++ [t]))) by (rewrite length_app; simpl; lia).
    replace (Z.pred (Z.of_nat (length (t :: rest)))) with (Z.of_nat (length rest))
      by (simpl; lia).
    rewrite IH by (by rewrite Hts, <- app_assoc). by rewrite <- app_assoc.
Qed.

End RoundTrip.




(** Why the fields have to carry tags: a field without tag is written
    under its name and, that name being no tag, not read back. *)
Lemma roundTrip_untagged_field :
  roundTrip Sample.E Sample.Memo [[reflect.DString "Plan"; reflect.DString "draft"]]
  = ok (Some [[reflect.DString "Plan"; reflect.DString EmptyString]], None).
Proof. vm_compute. reflexivity. Qed.

(** ** Values that survive their cell whatever the conversion routines are *)

Section Survivors.

Context (E : Externals).

(** With localized booleans switched on, a plain boolean is written as one
    of the two tokens and read back by the token case. *)
Lemma survivesCell_localized_bool wc rc fe b unmarshal :
  WriteConfig.ChineseBool wc = true ->
  reflect.kindOf (reflect.FieldType fe) = reflect.Bool ->
  reflect.IsExported fe = true ->
  GetUnmarshalFunc E (freshField fe) = Some unmarshal ->
  survivesCell E wc rc fe (reflect.DBool b) = true.
Proof.
  intros Hcn Hkind Hexp Hu. unfold survivesCell. rewrite Hu.
  assert (encodeField E wc fe (reflect.DBool b)
          = xlsx.SetString (if b then "是" else "否")) as ->.
  { unfold encodeField, fieldValue, cellValue, reflect.Kind_. cbn [reflect.typ reflect.dat].
    rewrite Hkind. cbn [bool_decide decide_rel andb].
    destruct (reflect.FieldType fe) as [k|n k| |e]; try done;
      cbn [reflect.typ reflect.dat reflect.kindOf] in *; rewrite Hkind, Hcn;
      by destruct b. }
  destruct (decodeCell_bool_token E rc xlsx.NewFile
              (mkExcelUnmarshalParameters (ReadConfig.TrimSpace rc) false
                 (ReadConfig.FallbackDateFormats rc))
              (mkFieldInfo 0 (columnName wc fe) (Some unmarshal)) unmarshal (freshField fe)
              (xlsx.SetString (if b then "是" else "否")))
    as (Htrue & Hfalse & _).
  { done. }
  { unfold reflect.CanSet, freshField. simpl. by rewrite Hexp. }
  destruct b.
  - rewrite Htrue by done. by apply bool_decide_eq_true_2.
  - rewrite Hfalse by done. by apply bool_decide_eq_true_2.
Qed.

(** A string that is a key of its column's table, in a table that pairs
    this key with one display value and that display value with this key,
    is written as the display value and read back as the key. *)
Lemma survivesCell_drop_list_key wc rc fe k v dropList writeMap readMap unmarshal :
  reflect.kindOf (reflect.FieldType fe) = reflect.String ->
  reflect.IsExported fe = true ->
  WriteConfig.DropListMap wc = Some writeMap ->
  writeMap !! writeTag wc fe = Some dropList ->
  ReadConfig.DropListMap rc = Some readMap ->
  readMap !! columnName wc fe = Some dropList ->
  mkDropListItem k v ∈ dropList ->
  (forall it, it ∈ dropList -> Key it = k -> Value it = v) ->
  (forall it, it ∈ dropList -> Value it = v -> Key it = k) ->
  GetUnmarshalFunc E (freshField fe) = Some unmarshal ->
  survivesCell E wc rc fe (reflect.DString k) = true.
Proof.
  intros Hkind Hexp Hwmap Hwlist Hrmap Hrlist Hin Hkv Hvk Hu.
  unfold survivesCell. rewrite Hu.
  assert (encodeField E wc fe (reflect.DString k) = xlsx.SetString v) as ->.
  { unfold encodeField, fieldValue.
    rewrite (cellValue_drop_list wc _ (writeTag wc fe) k writeMap dropList); [|by left|done..].
    by rewrite (dropListValue_present dropList k v Hin Hkv). }
  rewrite (decodeCell_drop_list E rc _ _ _ unmarshal (freshField fe) (xlsx.SetString v)
             readMap dropList).
  - unfold boxed, reflect.Kind_. cbn [freshField reflect.typ].
    rewrite Hkind. cbn [bool_decide decide_rel xlsx.SetString xlsx.Value].
    rewrite (dropListKey_present dropList v k Hin Hvk). by apply bool_decide_eq_true_2.
  - unfold notSkipped, reflect.Kind_. cbn [freshField reflect.typ]. rewrite Hkind.
    cbn [bool_decide decide_rel]. by rewrite andb_false_r.
  - by left.
  - unfold reflect.CanSet, freshField. simpl. by rewrite Hexp.
  - done.
  - done.
Qed.

End Survivors.

(** * Further properties of the read path *)

(** ** The index guards *)

(** X1. [ReadBinary] returns the error of [xlsx.OpenBinary] as it is, with
    no rows, when the bytes cannot be opened. On an open document it checks
    the configured indices before it looks at any cell, in this order: a
    sheet index outside the document's sheets gives
    [ErrSheetIndexOutOfRange]; else a header row index outside the rows of
    that sheet gives [ErrHeaderRowIndexOutOfRange]; else a data start index
    outside them gives [ErrDataStartRowIndexOutOfRange]. So a document
    without sheets, and a sheet without rows, are rejected whatever the
    configuration is, and no rows come with these errors. *)
Theorem X1_index_guards (E : Externals) (typ : StructType) (f : xlsx.File)
    (filterFunc : list (option (list reflect.data -> bool))) :
  let rc := ReadConfigure typ defaultReadConfig in
  (forall bytes err, xlsx_OpenBinary E bytes = inr err ->
     ReadBinary E typ bytes filterFunc = ok (None, Some (plainError err)))
  /\ (forall bytes, xlsx_OpenBinary E bytes = inl f ->
        ReadBinary E typ bytes filterFunc = readDocument E typ f filterFunc)
  /\ (ReadConfig.SheetIndex rc < 0
      \/ Z.of_nat (length (xlsx.Sheets f)) <= ReadConfig.SheetIndex rc ->
      readDocument E typ f filterFunc
      = ok (None, Some (plainError ErrSheetIndexOutOfRange)))
  /\ (xlsx.Sheets f = [] ->
      readDocument E typ f filterFunc = ok (None, Some (plainError ErrSheetIndexOutOfRange)))
  /\ (forall sheet,
        0 <= ReadConfig.SheetIndex rc ->
        xlsx.Sheets f !! Z.to_nat (ReadConfig.SheetIndex rc) = Some sheet ->
        (ReadConfig.HeaderRowIndex rc < 0
         \/ xlsx.MaxRow sheet <= ReadConfig.HeaderRowIndex rc ->
         readDocument E typ f filterFunc
         = ok (None, Some (plainError ErrHeaderRowIndexOutOfRange)))
        /\ (xlsx.MaxRow sheet <= 0 ->
            readDocument E typ f filterFunc
            = ok (None, Some (plainError ErrHeaderRowIndexOutOfRange)))
        /\ (0 <= ReadConfig.HeaderRowIndex rc < xlsx.MaxRow sheet ->
            ReadConfig.DataStartRowIndex rc < 0
            \/ xlsx.MaxRow sheet <= ReadConfig.DataStartRowIndex rc ->
            readDocument E typ f filterFunc
            = ok (None, Some (plainError ErrDataStartRowIndexOutOfRange)))).
Proof.
  intros rc.
  assert (ReadConfig.SheetIndex rc < 0
          \/ Z.of_nat (length (xlsx.Sheets f)) <= ReadConfig.SheetIndex rc ->
          readDocument E typ f filterFunc
          = ok (None, Some (plainError ErrSheetIndexOutOfRange))) as Hsheet.
  { intros Hout. unfold readDocument. fold rc.
    destruct Hout as [Hneg|Hbig].
    - by rewrite (bool_decide_eq_true_2 (_ < 0)) by done.
    - rewrite (bool_decide_eq_true_2 (_ > _)) by lia. by rewrite orb_true_r. }
  assert (forall sheet,
            0 <= ReadConfig.SheetIndex rc ->
            xlsx.Sheets f !! Z.to_nat (ReadConfig.SheetIndex rc) = Some sheet ->
            ReadConfig.HeaderRowIndex rc < 0
            \/ xlsx.MaxRow sheet <= ReadConfig.HeaderRowIndex rc ->
            readDocument E typ f filterFunc
            = ok (None, Some (plainError ErrHeaderRowIndexOutOfRange))) as Hheader.
  { intros sheet Hpos Hs Hout. unfold readDocument. fold rc.
    pose proof (lookup_lt_Some _ _ _ Hs) as Hlt.
    rewrite (bool_decide_eq_false_2 (_ < 0)) by lia.
    rewrite (bool_decide_eq_false_2 (_ > _)) by lia.
    cbn [orb]. rewrite Hs.
    destruct Hout as [Hneg|Hbig].
    - by rewrite (bool_decide_eq_true_2 (_ < 0)) by done.
    - rewrite (bool_decide_eq_true_2 (_ > _)) by lia. by rewrite orb_true_r. }
  split; [intros bytes err Hopen; unfold ReadBinary; by rewrite Hopen|].
  split; [intros bytes Hopen; unfold ReadBinary; by rewrite Hopen|].
  split; [done|]. split.
  { intros Hnil. apply Hsheet. rewrite Hnil. simpl. lia. }
  intros sheet Hpos Hs. split; [by apply Hheader|]. split.
  { intros Hempty. apply (Hheader sheet Hpos Hs). lia. }
  intros Hin Hout. unfold readDocument. fold rc.
  pose proof (lookup_lt_Some _ _ _ Hs) as Hlt.
  rewrite (bool_decide_eq_false_2 (_ < 0)) by lia.
  rewrite (bool_decide_eq_false_2 (_ > _)) by lia.
  cbn [orb]. rewrite Hs.
  rewrite (bool_decide_eq_false_2 (_ < 0)) by lia.
  rewrite (bool_decide_eq_false_2 (_ > _)) by lia.
  cbn [orb].
  destruct Hout as [Hneg|Hbig].
  - by rewrite (bool_decide_eq_true_2 (_ < 0)) by done.
  - rewrite (bool_decide_eq_true_2 (_ > _)) by lia. by rewrite orb_true_r.
Qed.

(** ** The header loop as a whole *)

Section HeaderLoop.

Context (E : Externals).

(** What one iteration of the header loop can do, for a header looked up
    in the tag map of the type. *)
Lemma bindColumn_cases rc typ c h :
  (exists fi, bindColumn E rc typ (tagToFieldMap rc typ) (zeroRecord typ) c h = Next fi
              /\ header fi = h)
  \/ (bindColumn E rc typ (tagToFieldMap rc typ) (zeroRecord typ) c h
      = Return (Errorf_column ErrNoDestinationField h c)
      /\ ReadConfig.SkipUnknownColumns rc = false)
  \/ (bindColumn E rc typ (tagToFieldMap rc typ) (zeroRecord typ) c h
      = Return (Errorf_column ErrNoUnmarshaler h c)
      /\ ReadConfig.SkipUnknownTypes rc = false).
Proof.
  unfold bindColumn.
  destruct (tagToFieldMap rc typ !! h) as [i|] eqn:Hi.
  - destruct (proj1 (tagToFieldMap_spec rc typ h i) Hi) as (fe & Hfe & _).
    rewrite (Field_zeroRecord typ i fe Hfe). cbn [liftRes].
    destruct (GetUnmarshalFunc E _) as [u|]; [left; by eexists|].
    destruct (ReadConfig.SkipUnknownTypes rc); [left; by eexists|].
    right. by right.
  - destruct (ReadConfig.SkipUnknownColumns rc); [left; by eexists|].
    right. by left.
Qed.

Lemma bindColumns_cases rc typ hs :
  (exists plan, bindColumns E rc typ (tagToFieldMap rc typ) hs = Next plan)
  \/ (exists c h,
        hs !! c = Some h
        /\ ((bindColumns E rc typ (tagToFieldMap rc typ) hs
             = Return (Errorf_column ErrNoDestinationField h (Z.of_nat c))
             /\ ReadConfig.SkipUnknownColumns rc = false)
            \/ (bindColumns E rc typ (tagToFieldMap rc typ) hs
                = Return (Errorf_column ErrNoUnmarshaler h (Z.of_nat c))
                /\ ReadConfig.SkipUnknownTypes rc = false))).
Proof.
  induction hs as [|h0 hs IH] using rev_ind; [left; by exists []|].
  rewrite bindColumns_snoc.
  destruct IH as [[plan ->]|(c & h & Hc & Hfail)].
  - destruct (bindColumn_cases rc typ (Z.of_nat (length hs)) h0)
      as [(fi & -> & _)|[[-> Hskip]|[-> Hskip]]].
    + left. by eexists.
    + right. exists (length hs), h0.
      split; [by rewrite lookup_app_r, Nat.sub_diag|]. by left.
    + right. exists (length hs), h0.
      split; [by rewrite lookup_app_r, Nat.sub_diag|]. by right.
  - right. exists c, h. split; [by apply lookup_app_l_Some|].
    destruct Hfail as [[-> ?]|[-> ?]]; [by left|by right].
Qed.

End HeaderLoop.

(** X2. The header loop of [ReadBinary] cannot panic, whatever the headers
    are: a header either binds, or ends the call with one of the two
    wrapped errors, naming a header of the sheet and its column index, and
    then the corresponding skip flag is unset. With both skip flags set it
    binds every header, and the plan has one entry per header. *)
Theorem X2_header_loop_outcomes (E : Externals) (rc : ReadConfig.t) (typ : StructType)
    (headers : list string) :
  let run := bindColumns E rc typ (tagToFieldMap rc typ) headers in
  (forall msg, run <> Panics msg)
  /\ (forall e, run = Return e ->
        exists c h,
          headers !! c = Some h
          /\ ((e = Errorf_column ErrNoDestinationField h (Z.of_nat c)
               /\ ReadConfig.SkipUnknownColumns rc = false)
              \/ (e = Errorf_column ErrNoUnmarshaler h (Z.of_nat c)
                  /\ ReadConfig.SkipUnknownTypes rc = false)))
  /\ (ReadConfig.SkipUnknownColumns rc = true ->
      ReadConfig.SkipUnknownTypes rc = true ->
      exists plan, run = Next plan /\ length plan = length headers).
Proof.
  intros run. unfold run.
  destruct (bindColumns_cases E rc typ headers) as [[plan Hplan]|(c & h & Hc & Hfail)].
  - rewrite Hplan. split; [done|]. split; [done|]. intros _ _.
    exists plan. split; [done|].
    by apply (bindColumns_plan E rc typ _ headers plan Hplan).
  - split; [|split].
    + intros msg. by destruct Hfail as [[-> _]|[-> _]].
    + intros e He. exists c, h. split; [done|].
      destruct Hfail as [[Hrun ?]|[Hrun ?]]; rewrite Hrun in He; injection He as <-;
        [by left|by right].
    + intros Hcols Htypes. destruct Hfail as [[_ ?]|[_ ?]]; congruence.
Qed.

(** ** The tag map *)

Section TagMap.

Lemma tagToFieldMap_none rc (fields : list reflect.StructField) h :
  foldl (tagStep rc) ∅ (imap (fun i f => (i, f)) fields) !! h = None <->
  forall i fe, fields !! i = Some fe -> tagOf rc fe <> Some h.
Proof.
  induction fields as [|fe0 fields IH] using rev_ind.
  - simpl. rewrite lookup_empty. split; [|done]. intros _ i fe Hi.
    by rewrite lookup_nil in Hi.
  - rewrite imap_app, foldl_app. cbn [imap foldl]. rewrite Nat.add_0_r, tagStep_tagOf.
    assert ((forall i fe, (fields ++ [fe0]) !! i = Some fe -> tagOf rc fe <> Some h)
            <-> (forall i fe, fields !! i = Some fe -> tagOf rc fe <> Some h)
                /\ tagOf rc fe0 <> Some h) as ->.
    { split.
      - intros Hall. split.
        + intros i fe Hi. apply (Hall i). by apply lookup_app_l_Some.
        + apply (Hall (length fields)). by rewrite lookup_app_r, Nat.sub_diag.
      - intros [Hall H0] i fe Hi.
        destruct (decide (i < length fields)%nat) as [Hlt|Hge].
        + rewrite lookup_app_l in Hi by done. by eapply Hall.
        + rewrite lookup_app_r in Hi by lia.
          destruct (i - length fields)%nat; [|done]. by injection Hi as <-. }
    rewrite <- IH.
    destruct (tagOf rc fe0) as [h0|].
    + destruct (decide (h0 = h)) as [->|Hne].
      * rewrite lookup_insert_eq. split; [done|]. by intros [_ ?].
      * rewrite lookup_insert_ne by done. split; [|by intros [? _]].
        intros ?. split; [done|congruence].
    + split; [|by intros [? _]]. by intros ?.
Qed.

End TagMap.

(** X3. The tag map that [ReadBinary] builds sends a header to a field
    index exactly when that field's tag string has the configured key with
    that header as its value and no field declared later has: of several
    fields with the same tag the last one declared gets the column, and the
    earlier ones are never bound. A header is absent from the map exactly
    when no field has it as tag value. Whether a field is exported plays no
    part. *)
Theorem X3_tag_map_last_declared (rc : ReadConfig.t) (typ : StructType) (h : string) :
  (forall i,
     tagToFieldMap rc typ !! h = Some i <->
     exists fe,
       Fields typ !! i = Some fe
       /\ reflect.Lookup (reflect.Tag fe) (ReadConfig.TagName rc) = Some h
       /\ forall j fe', (i < j)%nat -> Fields typ !! j = Some fe' ->
            reflect.Lookup (reflect.Tag fe') (ReadConfig.TagName rc) <> Some h)
  /\ (tagToFieldMap rc typ !! h = None <->
      forall i fe, Fields typ !! i = Some fe ->
        reflect.Lookup (reflect.Tag fe) (ReadConfig.TagName rc) <> Some h).
Proof.
  split.
  - intros i. apply tagToFieldMap_spec.
  - apply tagToFieldMap_none.
Qed.

(** ** Two runs of the same loop *)

(** Two loops over the same elements whose iterations keep a relation
    between their states, and leave or panic together, end together. *)
Lemma forEach_sim {S0 S R B} (rel : S0 -> S -> Prop)
    (body0 : S0 -> B -> flow S0 R) (body : S -> B -> flow S R) l :
  (forall s0 s b, rel s0 s ->
     match body0 s0 b with
     | Next s0' => exists s', body s b = Next s' /\ rel s0' s'
     | Return r => body s b = Return r
     | Panics msg => body s b = Panics msg
     end) ->
  forall s0 s, rel s0 s ->
    match forEach body0 l s0 with
    | Next s0' => exists s', forEach body l s = Next s' /\ rel s0' s'
    | Return r => forEach body l s = Return r
    | Panics msg => forEach body l s = Panics msg
    end.
Proof.
  intros Hstep. induction l as [|b l IH]; intros s0 s Hrel.
  - simpl. by exists s.
  - rewrite !forEach_cons. specialize (Hstep s0 s b Hrel).
    destruct (body0 s0 b) as [s1|r|msg].
    + destruct Hstep as (s' & -> & Hrel'). by apply IH.
    + by rewrite Hstep.
    + by rewrite Hstep.
Qed.

(** ** Row filters *)

Section Filters.

Context (E : Externals).

(** A record is kept when every predicate that is not nil accepts it. *)
Definition accepts (filterFunc : list (option (list reflect.data -> bool)))
    (t : list reflect.data) : bool :=
  forallb (fun o => match o with Some fF => fF t | None => true end) filterFunc.

Lemma runFilters_accepts filterFunc nT :
  runFilters filterFunc nT true = accepts filterFunc nT.
Proof.
  induction filterFunc as [|[fF|] rest IH]; simpl; [done| |done].
  by destruct (fF nT).
Qed.

Lemma readRow_filters rc typ f sheet plan cfg filterFunc
    (s0 s : list (list reflect.data) * list FieldError) rowIndex :
  s.1 = List.filter (accepts filterFunc) s0.1 /\ s.2 = s0.2 ->
  match readRow E rc typ f sheet plan cfg [] s0 rowIndex with
  | Next s0' =>
      exists s', readRow E rc typ f sheet plan cfg filterFunc s rowIndex = Next s'
                 /\ s'.1 = List.filter (accepts filterFunc) s0'.1 /\ s'.2 = s0'.2
  | Return r => readRow E rc typ f sheet plan cfg filterFunc s rowIndex = Return r
  | Panics msg => readRow E rc typ f sheet plan cfg filterFunc s rowIndex = Panics msg
  end.
Proof.
  destruct s0 as [ts0 c0], s as [ts c]. simpl. intros [-> ->]. unfold readRow.
  case_bool_decide; [|by eexists].
  destruct (xlsx.Row_ sheet rowIndex) as [row|]; [|by eexists].
  destruct (forEach _ _ _) as [[nT c1]|r|msg]; [|done..].
  eexists. split; [done|]. simpl. split; [|done].
  rewrite List.filter_app, runFilters_accepts. simpl.
  destruct (accepts filterFunc nT); [done|by rewrite app_nil_r].
Qed.

Lemma readRows_filters rc typ f sheet plan filterFunc :
  match readRows E rc typ f sheet plan [] with
  | ok (Some ts, None) =>
      readRows E rc typ f sheet plan filterFunc
      = ok (Some (List.filter (accepts filterFunc) ts), None)
  | r => readRows E rc typ f sheet plan filterFunc = r
  end.
Proof.
  rewrite !readRows_rowLoop.
  pose proof (forEach_sim
                (fun s0 s : list (list reflect.data) * list FieldError =>
                   s.1 = List.filter (accepts filterFunc) s0.1 /\ s.2 = s0.2)
                _ _ (seqZ 0 (xlsx.MaxRow sheet))
                (readRow_filters rc typ f sheet plan
                   (mkExcelUnmarshalParameters (ReadConfig.TrimSpace rc) (xlsx.Date1904 f)
                      (ReadConfig.FallbackDateFormats rc)) filterFunc)
                ([], []) ([], []) (conj eq_refl eq_refl)) as Hsim.
  fold (rowLoop E rc typ f sheet plan []) in Hsim.
  fold (rowLoop E rc typ f sheet plan filterFunc) in Hsim.
  destruct (rowLoop E rc typ f sheet plan []) as [[ts0 c0]|r|msg] eqn:Hloop.
  - destruct Hsim as ([ts c] & -> & Hts & Hc). simpl in Hts, Hc. subst ts c.
    by case_bool_decide.
  - rewrite Hsim. apply rowLoop_return in Hloop as [Hrows _].
    destruct r as [[ts|] [err|]]; done.
  - by rewrite Hsim.
Qed.

End Filters.

(** X4. The row filters only select: with filter predicates, [ReadBinary]
    returns what it returns without any, except that of the rows of a
    successful call only those are left, in the same order, that every
    predicate which is not nil accepts. Errors and panics are the same with
    and without filters: a row that a filter would reject still has its
    cells converted and its errors handled. *)
Theorem X4_filters_select (E : Externals) (typ : StructType) (f : xlsx.File)
    (filterFunc : list (option (list reflect.data -> bool))) :
  (forall t, runFilters filterFunc t true
             = forallb (fun o => match o with Some fF => fF t | None => true end) filterFunc)
  /\ match readDocument E typ f [] with
     | ok (Some ts, None) =>
         readDocument E typ f filterFunc
         = ok (Some (List.filter (fun t => runFilters filterFunc t true) ts), None)
     | r => readDocument E typ f filterFunc = r
     end.
Proof.
  split; [intros t; apply runFilters_accepts|].
  assert (forall l, List.filter (fun t => runFilters filterFunc t true) l
                    = List.filter (accepts filterFunc) l) as Hkeep.
  { intros l. apply List.filter_ext. intros a. apply runFilters_accepts. }
  unfold readDocument.
  destruct (_ || _); [done|].
  destruct (xlsx.Sheets f !! _) as [sheet|]; [|done].
  destruct (_ || _); [done|].
  destruct (_ || _); [done|].
  destruct (xlsx.Row_ sheet _) as [headerRow|]; [|done].
  case_bool_decide; [done|].
  destruct (bindColumns E _ typ _ _) as [plan|e|msg]; [|done..].
  pose proof (readRows_filters E (ReadConfigure typ defaultReadConfig) typ f sheet plan
                filterFunc) as Hrows.
  destruct (readRows E _ typ f sheet plan []) as [[[ts|] [err|]]|msg]; try done.
  by rewrite Hkeep.
Qed.

(** ** The ignore and the abort policy against a pass that collects *)

(** The same configuration under the collect policy without cap: the pass
    that converts every cell and gathers every failure. *)
Definition collectAll (rc : ReadConfig.t) : ReadConfig.t :=
  ReadConfig.mk (ReadConfig.TagName rc) (ReadConfig.SheetIndex rc)
    (ReadConfig.HeaderRowIndex rc) (ReadConfig.DataStartRowIndex rc)
    (ReadConfig.TrimSpace rc) (ReadConfig.FallbackDateFormats rc)
    (ReadConfig.SkipUnknownColumns rc) (ReadConfig.SkipUnknownTypes rc)
    UnmarshalErrorCollect 0
    (ReadConfig.DropListMap rc) (ReadConfig.PointerCanNil rc).

(** The return of a pass stopped at its first failure, given everything a
    collecting pass would gather. *)
Definition firstFailure (collected : list FieldError) : ReadResult :=
  match collected with
  | fe :: _ => (None, Some (ofFieldError fe))
  | [] => (None, None)
  end.

Section StoppedLoop.

(** A loop whose iterations log errors, run to its end ([body0]) and
    stopped with [stop] once the log has [n] entries ([body]). *)
Context {S B : Type} (log : S -> list FieldError) (n : nat).
Context (stop : list FieldError -> ReadResult).
Context (body0 body : S -> B -> flow S ReadResult).

Hypothesis stop_stable :
  forall l suffix, (n <= length l)%nat -> stop (l ++ suffix) = stop l.

Hypothesis body0_extends :
  forall s b s', body0 s b = Next s' -> exists suffix, log s' = log s ++ suffix.

Hypothesis body_follows :
  forall s b s',
    (length (log s) < n)%nat -> body0 s b = Next s' ->
    if decide (length (log s') < n)%nat then body s b = Next s'
    else body s b = Return (stop (log s')).

Lemma forEach_stopped l s s' :
  (length (log s) < n)%nat ->
  forEach body0 l s = Next s' ->
  if decide (length (log s') < n)%nat then forEach body l s = Next s'
  else forEach body l s = Return (stop (log s')).
Proof.
  revert s. induction l as [|b l IH]; intros s Hlt Hrun.
  - injection Hrun as <-. by rewrite decide_True.
  - rewrite forEach_cons in Hrun. rewrite forEach_cons.
    destruct (body0 s b) as [s1|r|msg] eqn:Hb; [|done..].
    pose proof (body_follows s b s1 Hlt Hb) as Hstep.
    destruct (decide (length (log s1) < n)%nat) as [Hlt1|Hge1].
    + rewrite Hstep. by apply IH.
    + rewrite Hstep.
      destruct (forEach_extends log body0 body0_extends l s1 s' Hrun) as [suffix Hs'].
      rewrite decide_False by (rewrite Hs', length_app; lia).
      by rewrite Hs', stop_stable by lia.
Qed.

End StoppedLoop.

Section Abort.

Context (E : Externals).

Lemma firstFailure_stable l suffix :
  (1 <= length l)%nat -> firstFailure (l ++ suffix) = firstFailure l.
Proof. destruct l; simpl; [lia|done]. Qed.

Lemma readCell_aborts rc typ f cfg rowIndex row (s : list reflect.data * list FieldError)
    (b : Z * fieldInfo) (s' : list reflect.data * list FieldError) :
  ReadConfig.UnmarshalErrorHandling_ rc = UnmarshalErrorAbort ->
  (length s.2 < 1)%nat ->
  readCell E (collectAll rc) typ f cfg rowIndex row s b = Next s' ->
  if decide (length s'.2 < 1)%nat
  then readCell E rc typ f cfg rowIndex row s b = Next s'
  else readCell E rc typ f cfg rowIndex row s b = Return (firstFailure s'.2).
Proof.
  destruct s as [val collected], s' as [val' collected'], b as [c fi]. simpl.
  intros Habort Hlt. destruct collected; [|simpl in Hlt; lia]. unfold readCell.
  destruct (unmarshalFunc fi) as [u|]; [|intros [= <- <-]; by rewrite decide_True].
  destruct (Field typ val (reflectFieldIndex fi)) as [destField|]; [|done].
  simpl.
  change (decodeCell E (collectAll rc) f cfg fi u destField (xlsx.GetCell row c))
    with (decodeCell E rc f cfg fi u destField (xlsx.GetCell row c)).
  destruct (decodeCell E rc f cfg fi u destField _) as [[|d|d err]|]; simpl; [| | |done].
  - intros [= <- <-]. by rewrite decide_True.
  - intros [= <- <-]. by rewrite decide_True.
  - unfold handleError. rewrite Habort. simpl.
    destruct err as [e|]; intros [= <- <-]; [done|by rewrite decide_True].
Qed.

Lemma readRow_aborts rc typ f sheet plan cfg filterFunc
    (s : list (list reflect.data) * list FieldError) (rowIndex : Z)
    (s' : list (list reflect.data) * list FieldError) :
  ReadConfig.UnmarshalErrorHandling_ rc = UnmarshalErrorAbort ->
  (length s.2 < 1)%nat ->
  readRow E (collectAll rc) typ f sheet plan cfg filterFunc s rowIndex = Next s' ->
  if decide (length s'.2 < 1)%nat
  then readRow E rc typ f sheet plan cfg filterFunc s rowIndex = Next s'
  else readRow E rc typ f sheet plan cfg filterFunc s rowIndex = Return (firstFailure s'.2).
Proof.
  destruct s as [ts collected], s' as [ts' collected']. simpl.
  intros Habort Hlt. unfold readRow. simpl.
  case_bool_decide; [|intros [= <- <-]; by rewrite decide_True].
  destruct (xlsx.Row_ sheet rowIndex) as [row|];
    [|intros [= <- <-]; by rewrite decide_True].
  destruct (forEach (readCell E (collectAll rc) typ f cfg rowIndex row) _ _)
    as [[nT collected1]|r|msg] eqn:Hcols; [|done..].
  intros [= <- <-].
  pose proof (forEach_stopped snd 1 firstFailure
                (readCell E (collectAll rc) typ f cfg rowIndex row)
                (readCell E rc typ f cfg rowIndex row)
                firstFailure_stable
                (readCell_extends E (collectAll rc) typ f cfg rowIndex row)
                (fun s b s' => readCell_aborts rc typ f cfg rowIndex row s b s' Habort)
                (indexed plan) (zeroRecord typ, collected) (nT, collected1) Hlt Hcols)
    as Hstop.
  simpl in Hstop. destruct (decide _); by rewrite Hstop.
Qed.

Lemma rowLoop_aborts rc typ f sheet plan filterFunc ts errs :
  ReadConfig.UnmarshalErrorHandling_ rc = UnmarshalErrorAbort ->
  rowLoop E (collectAll rc) typ f sheet plan filterFunc = Next (ts, errs) ->
  match errs with
  | [] => rowLoop E rc typ f sheet plan filterFunc = Next (ts, [])
  | fe :: _ => rowLoop E rc typ f sheet plan filterFunc = Return (None, Some (ofFieldError fe))
  end.
Proof.
  intros Habort Hloop. unfold rowLoop in *. simpl in Hloop.
  pose proof (forEach_stopped snd 1 firstFailure _ _ firstFailure_stable
                (readRow_extends E (collectAll rc) typ f sheet plan _ filterFunc)
                (fun s b s' => readRow_aborts rc typ f sheet plan _ filterFunc s b s' Habort)
                _ ([], []) (ts, errs) ltac:(simpl; lia) Hloop) as Hstop.
  by destruct errs as [|fe errs].
Qed.

End Abort.

Section Ignore.

Context (E : Externals).

Lemma readCell_ignores rc typ f cfg rowIndex row (s0 s : list reflect.data * list FieldError)
    (b : Z * fieldInfo) :
  ReadConfig.UnmarshalErrorHandling_ rc = UnmarshalErrorIgnore ->
  s.1 = s0.1 /\ s.2 = [] ->
  match readCell E (collectAll rc) typ f cfg rowIndex row s0 b with
  | Next s0' =>
      exists s', readCell E rc typ f cfg rowIndex row s b = Next s'
                 /\ s'.1 = s0'.1 /\ s'.2 = []
  | Return r => readCell E rc typ f cfg rowIndex row s b = Return r
  | Panics msg => readCell E rc typ f cfg rowIndex row s b = Panics msg
  end.
Proof.
  destruct s0 as [val c0], s as [val1 c1], b as [c fi]. simpl.
  intros Hignore [-> ->]. unfold readCell.
  destruct (unmarshalFunc fi) as [u|]; [|by eexists].
  destruct (Field typ val (reflectFieldIndex fi)) as [destField|]; [|done].
  simpl.
  change (decodeCell E (collectAll rc) f cfg fi u destField (xlsx.GetCell row c))
    with (decodeCell E rc f cfg fi u destField (xlsx.GetCell row c)).
  destruct (decodeCell E rc f cfg fi u destField _) as [[|d|d err]|]; simpl; [| | |done].
  - by eexists.
  - by eexists.
  - unfold handleError. rewrite Hignore. simpl.
    destruct err as [e|]; by eexists.
Qed.

Lemma readRow_ignores rc typ f sheet plan cfg filterFunc
    (s0 s : list (list reflect.data) * list FieldError) (rowIndex : Z) :
  ReadConfig.UnmarshalErrorHandling_ rc = UnmarshalErrorIgnore ->
  s.1 = s0.1 /\ s.2 = [] ->
  match readRow E (collectAll rc) typ f sheet plan cfg filterFunc s0 rowIndex with
  | Next s0' =>
      exists s', readRow E rc typ f sheet plan cfg filterFunc s rowIndex = Next s'
                 /\ s'.1 = s0'.1 /\ s'.2 = []
  | Return r => readRow E rc typ f sheet plan cfg filterFunc s rowIndex = Return r
  | Panics msg => readRow E rc typ f sheet plan cfg filterFunc s rowIndex = Panics msg
  end.
Proof.
  destruct s0 as [ts c0], s as [ts1 c1]. simpl.
  intros Hignore [-> ->]. unfold readRow. simpl.
  case_bool_decide; [|by eexists].
  destruct (xlsx.Row_ sheet rowIndex) as [row|]; [|by eexists].
  pose proof (forEach_sim
                (fun s0 s : list reflect.data * list FieldError => s.1 = s0.1 /\ s.2 = [])
                _ _ (indexed plan)
                (fun s0 s b => readCell_ignores rc typ f cfg rowIndex row s0 s b Hignore)
                (zeroRecord typ, c0) (zeroRecord typ, []) (conj eq_refl eq_refl)) as Hsim.
  destruct (forEach (readCell E (collectAll rc) typ f cfg rowIndex row) _ _)
    as [[nT c2]|r|msg].
  - destruct Hsim as ([nT' c'] & -> & HnT & Hc). simpl in HnT, Hc. subst nT' c'.
    by eexists.
  - by rewrite Hsim.
  - by rewrite Hsim.
Qed.

Lemma rowLoop_ignores rc typ f sheet plan filterFunc :
  ReadConfig.UnmarshalErrorHandling_ rc = UnmarshalErrorIgnore ->
  match rowLoop E (collectAll rc) typ f sheet plan filterFunc with
  | Next (ts, _) => rowLoop E rc typ f sheet plan filterFunc = Next (ts, [])
  | Return r => False
  | Panics msg => rowLoop E rc typ f sheet plan filterFunc = Panics msg
  end.
Proof.
  intros Hignore.
  pose proof (forEach_sim
                (fun s0 s : list (list reflect.data) * list FieldError =>
                   s.1 = s0.1 /\ s.2 = [])
                _ _ (seqZ 0 (xlsx.MaxRow sheet))
                (fun s0 s b =>
                   readRow_ignores rc typ f sheet plan
                     (mkExcelUnmarshalParameters (ReadConfig.TrimSpace rc) (xlsx.Date1904 f)
                        (ReadConfig.FallbackDateFormats rc)) filterFunc s0 s b Hignore)
                ([], []) ([], []) (conj eq_refl eq_refl)) as Hsim.
  fold (rowLoop E rc typ f sheet plan filterFunc) in Hsim.
  change (forEach _ (seqZ 0 (xlsx.MaxRow sheet)) ([], []))
    with (rowLoop E (collectAll rc) typ f sheet plan filterFunc) in Hsim.
  destruct (rowLoop E (collectAll rc) typ f sheet plan filterFunc)
    as [[ts c0]|r|msg] eqn:Hloop.
  - destruct Hsim as ([ts' c'] & -> & Hts & Hc). simpl in Hts, Hc. by subst.
  - apply rowLoop_return in Hloop as [_ [(fe & _ & Habs)|(collected & _ & Habs & _)]];
      simpl in Habs; [done|lia].
  - done.
Qed.

End Ignore.

(** X5. Under the ignore policy no conversion failure surfaces: the only
    errors [ReadBinary] can then return are the plain errors of the index
    guards and of the header loop, never a [FieldError] or a
    [ContentError]. Once the header is bound, the call returns the very rows
    that a pass which collects every failure would have built, with a nil
    error, whatever failures that pass would have gathered. *)
Theorem X5_ignore_policy (E : Externals) (typ : StructType) (f : xlsx.File)
    (filterFunc : list (option (list reflect.data -> bool))) :
  let rc := ReadConfigure typ defaultReadConfig in
  ReadConfig.UnmarshalErrorHandling_ rc = UnmarshalErrorIgnore ->
  (forall ts err, readDocument E typ f filterFunc = ok (ts, Some err) ->
     exists e, err = plainError e)
  /\ (forall sheet headerRow plan ts errs,
        reachesBinding typ f sheet headerRow ->
        bindColumns E rc typ (tagToFieldMap rc typ)
          (readStrings (xlsx.MaxCol sheet) headerRow) = Next plan ->
        rowLoop E (collectAll rc) typ f sheet plan filterFunc = Next (ts, errs) ->
        readDocument E typ f filterFunc = ok (Some ts, None)).
Proof.
  intros rc Hignore. split.
  - intros ts err. unfold readDocument. fold rc.
    destruct (_ || _); [intros [= <- <-]; by eexists|].
    destruct (xlsx.Sheets f !! _) as [sheet|]; [|done].
    destruct (_ || _); [intros [= <- <-]; by eexists|].
    destruct (_ || _); [intros [= <- <-]; by eexists|].
    destruct (xlsx.Row_ sheet _) as [headerRow|]; [|done].
    case_bool_decide; [done|].
    destruct (bindColumns E _ typ _ _) as [plan|e|msg];
      [|intros [= <- <-]; by eexists|done].
    rewrite readRows_rowLoop.
    pose proof (rowLoop_ignores E rc typ f sheet plan filterFunc Hignore) as Hloop.
    destruct (rowLoop E (collectAll rc) typ f sheet plan filterFunc) as [[ts0 c0]|r|msg];
      [|done|by rewrite Hloop].
    by rewrite Hloop.
  - intros sheet headerRow plan ts errs Hreach Hbind Hall.
    rewrite (readDocument_binding E typ f sheet headerRow filterFunc Hreach). simpl.
    fold rc. rewrite Hbind, readRows_rowLoop.
    pose proof (rowLoop_ignores E rc typ f sheet plan filterFunc Hignore) as Hloop.
    rewrite Hall in Hloop. by rewrite Hloop.
Qed.

(** X6. Under the abort policy (the default) the call ends at the first
    cell whose conversion fails, in row-then-column order: when a pass that
    collects every failure would gather at least one, [ReadBinary] returns
    no rows and the first of them, a [FieldError] that comes before all the
    others; when that pass gathers none, [ReadBinary] returns its rows. *)
Theorem X6_abort_policy (E : Externals) (typ : StructType) (f : xlsx.File)
    (sheet : xlsx.Sheet) (headerRow : list xlsx.Cell) (plan : list fieldInfo)
    (filterFunc : list (option (list reflect.data -> bool)))
    (ts : list (list reflect.data)) (errs : list FieldError) :
  let rc := ReadConfigure typ defaultReadConfig in
  ReadConfig.UnmarshalErrorHandling_ rc = UnmarshalErrorAbort ->
  reachesBinding typ f sheet headerRow ->
  bindColumns E rc typ (tagToFieldMap rc typ)
    (readStrings (xlsx.MaxCol sheet) headerRow) = Next plan ->
  rowLoop E (collectAll rc) typ f sheet plan filterFunc = Next (ts, errs) ->
  match errs with
  | [] => readDocument E typ f filterFunc = ok (Some ts, None)
  | fe :: rest =>
      readDocument E typ f filterFunc = ok (None, Some (ofFieldError fe))
      /\ Forall (earlier fe) rest
  end.
Proof.
  intros rc Habort Hreach Hbind Hall.
  rewrite (readDocument_binding E typ f sheet headerRow filterFunc Hreach). simpl.
  fold rc. rewrite Hbind, readRows_rowLoop.
  pose proof (rowLoop_aborts E rc typ f sheet plan filterFunc ts errs Habort Hall) as Hloop.
  destruct errs as [|fe rest]; rewrite Hloop; [done|].
  split; [done|].
  apply rowLoop_order in Hall. by apply StronglySorted_inv in Hall as [_ ?].
Qed.

(** ** The rows of a successful call *)

Section Rows.

Context (E : Externals).

(** What one data row alone decodes to, in a pass that has met no failure
    before it: nothing for a row before the data start row or a row that is
    not stored. *)
Definition rowRecord (rc : ReadConfig.t) (typ : StructType) (f : xlsx.File)
    (sheet : xlsx.Sheet) (plan : list fieldInfo) (rowIndex : Z)
  : option (list reflect.data) :=
  if bool_decide (rowIndex >= ReadConfig.DataStartRowIndex rc) then
    match xlsx.Row_ sheet rowIndex with
    | Some row =>
        match forEach (readCell E rc typ f
                         (mkExcelUnmarshalParameters (ReadConfig.TrimSpace rc)
                            (xlsx.Date1904 f) (ReadConfig.FallbackDateFormats rc))
                         rowIndex row)
                      (indexed plan) (zeroRecord typ, []) with
        | Next (nT, _) => Some nT
        | _ => None
        end
    | None => None
    end
  else None.

(** The record that a row contributes to the result. *)
Definition keptRecord (rc : ReadConfig.t) (typ : StructType) (f : xlsx.File)
    (sheet : xlsx.Sheet) (plan : list fieldInfo)
    (filterFunc : list (option (list reflect.data -> bool))) (rowIndex : Z)
  : option (list reflect.data) :=
  match rowRecord rc typ f sheet plan rowIndex with
  | Some nT => if runFilters filterFunc nT true then Some nT else None
  | None => None
  end.

Lemma readRows_by_row rc typ f sheet plan filterFunc (n : nat) ts :
  forEach (readRow E rc typ f sheet plan
             (mkExcelUnmarshalParameters (ReadConfig.TrimSpace rc) (xlsx.Date1904 f)
                (ReadConfig.FallbackDateFormats rc)) filterFunc)
          (seqZ 0 (Z.of_nat n)) ([], []) = Next (ts, []) ->
  ts = omap (keptRecord rc typ f sheet plan filterFunc) (seqZ 0 (Z.of_nat n)).
Proof.
  revert ts. induction n as [|n IH]; intros ts.
  - by intros [= <-].
  - rewrite seqZ_S, forEach_app, omap_app.
    destruct (forEach _ (seqZ 0 (Z.of_nat n)) _) as [[ts1 c1]|r|msg]; [|done..].
    rewrite forEach_cons.
    destruct (readRow E rc typ f sheet plan _ filterFunc _ _)
      as [[ts2 c2]|r|msg] eqn:Hstep; [|done..].
    intros [= -> ->].
    destruct (readRow_extends E rc typ f sheet plan _ filterFunc _ _ _ Hstep)
      as [suffix Hsuffix]. simpl in Hsuffix.
    symmetry in Hsuffix. apply app_eq_nil in Hsuffix as [-> _].
    rewrite <- (IH ts1 eq_refl). clear IH.
    unfold readRow in Hstep. cbn [omap list_omap]. unfold keptRecord, rowRecord.
    case_bool_decide; [|injection Hstep as <-; by rewrite app_nil_r].
    destruct (xlsx.Row_ sheet _) as [row|]; [|injection Hstep as <-; by rewrite app_nil_r].
    destruct (forEach _ (indexed plan) _) as [[nT c3]|r|msg]; [|done..].
    injection Hstep as <- _.
    destruct (runFilters filterFunc nT true); [done|by rewrite app_nil_r].
Qed.

Lemma rowLoop_by_row rc typ f sheet plan filterFunc ts :
  rowLoop E rc typ f sheet plan filterFunc = Next (ts, []) ->
  ts = omap (keptRecord rc typ f sheet plan filterFunc) (seqZ 0 (xlsx.MaxRow sheet)).
Proof.
  unfold rowLoop. intros Hloop.
  destruct (decide (xlsx.MaxRow sheet <= 0)) as [Hle|Hgt].
  - rewrite seqZ_nil in Hloop by done. rewrite seqZ_nil by done. by injection Hloop as <-.
  - rewrite <- (Z2Nat.id (xlsx.MaxRow sheet)) in * by lia.
    by apply readRows_by_row.
Qed.

Lemma omap_length_le {A B} (g : A -> option B) (l : list A) :
  (length (omap g l) <= length l)%nat.
Proof.
  induction l as [|a l IH]; [done|]. cbn [omap list_omap].
  destruct (g a); simpl; lia.
Qed.

(** A call that returns rows got as far as the row loop, and that loop ran
    to its end without a failure. *)
Lemma readDocument_rows typ f filterFunc ts :
  readDocument E typ f filterFunc = ok (Some ts, None) ->
  exists sheet headerRow plan,
    reachesBinding typ f sheet headerRow
    /\ bindColumns E (ReadConfigure typ defaultReadConfig) typ
         (tagToFieldMap (ReadConfigure typ defaultReadConfig) typ)
         (readStrings (xlsx.MaxCol sheet) headerRow) = Next plan
    /\ rowLoop E (ReadConfigure typ defaultReadConfig) typ f sheet plan filterFunc
       = Next (ts, []).
Proof.
  unfold readDocument.
  destruct (_ || _) eqn:H1; [done|].
  apply orb_false_elim in H1 as [H1a H1b]. apply bool_decide_eq_false in H1a, H1b.
  destruct (xlsx.Sheets f !! _) as [sheet|] eqn:Hs; [|done].
  destruct (_ || _) eqn:H2; [done|].
  apply orb_false_elim in H2 as [H2a H2b]. apply bool_decide_eq_false in H2a, H2b.
  destruct (_ || _) eqn:H3; [done|].
  apply orb_false_elim in H3 as [H3a H3b]. apply bool_decide_eq_false in H3a, H3b.
  destruct (xlsx.Row_ sheet _) as [headerRow|] eqn:Hhr; [|done].
  case_bool_decide as Hmc; [done|].
  destruct (bindColumns E _ typ _ _) as [plan|e|msg] eqn:Hbind; [|done..].
  rewrite readRows_rowLoop.
  destruct (rowLoop E _ typ f sheet plan filterFunc) as [[ts0 c0]|r|msg] eqn:Hloop;
    [| |done].
  - case_bool_decide as Hc; [done|]. intros [= <-].
    exists sheet, headerRow, plan. split; [split; (lia || done)|]. split; [done|].
    destruct c0; [done|]. simpl in Hc. lia.
  - intros [= ->]. by apply rowLoop_return in Hloop as [? _].
Qed.

(** Columns bound to other fields leave a field alone. *)
Lemma readCell_other_columns rc typ f cfg rowIndex row j (cols : list (Z * fieldInfo)) :
  (forall c fi, (c, fi) ∈ cols -> unmarshalFunc fi <> None -> reflectFieldIndex fi <> j) ->
  forall val collected nT collected',
    forEach (readCell E rc typ f cfg rowIndex row) cols (val, collected)
      = Next (nT, collected') ->
    nT !! j = val !! j.
Proof.
  induction cols as [|[c fi] cols IH]; intros Hother val collected nT collected' Hrun.
  - by injection Hrun as <- <-.
  - rewrite forEach_cons in Hrun.
    destruct (readCell E rc typ f cfg rowIndex row (val, collected) (c, fi))
      as [[val1 collected1]|r|msg] eqn:Hstep; [|done..].
    rewrite (IH (fun c' fi' Hin => Hother c' fi' (list_elem_of_further _ _ _ Hin))
               val1 collected1 nT collected' Hrun).
    destruct (unmarshalFunc fi) as [u|] eqn:Hu.
    + eapply readCell_other_field; [exact Hstep|].
      apply (Hother c fi); [by left|by rewrite Hu].
    + unfold readCell in Hstep. rewrite Hu in Hstep. by injection Hstep as <- <-.
Qed.

(** The columns of a plan are bound to the fields their headers name. *)
Lemma bindColumns_fields rc typ hs plan c fi :
  bindColumns E rc typ (tagToFieldMap rc typ) hs = Next plan ->
  plan !! c = Some fi ->
  unmarshalFunc fi <> None ->
  exists h, hs !! c = Some h /\ tagToFieldMap rc typ !! h = Some (reflectFieldIndex fi).
Proof.
  intros Hbind Hc Hu.
  destruct (bindColumns_plan E rc typ _ hs plan Hbind) as [Hlen Hall].
  destruct (lookup_lt_is_Some_2 hs c) as [h Hh].
  { rewrite <- Hlen. by eapply lookup_lt_Some. }
  destruct (Hall c h Hh) as (fi' & Hfi' & Hb).
  assert (fi' = fi) as -> by congruence.
  exists h. split; [done|]. unfold bindColumn in Hb.
  destruct (tagToFieldMap rc typ !! h) as [i|]; [|].
  - destruct (Field typ (zeroRecord typ) i) as [field|]; [|done]. simpl in Hb.
    destruct (GetUnmarshalFunc E field).
    + by injection Hb as <-.
    + destruct (ReadConfig.SkipUnknownTypes rc); [|done]. by injection Hb as <-.
  - destruct (ReadConfig.SkipUnknownColumns rc); [|done].
    injection Hb as <-. by simpl in Hu.
Qed.

Lemma readRow_unbound rc typ f sheet plan cfg filterFunc j d
    (s : list (list reflect.data) * list FieldError) (rowIndex : Z)
    (s' : list (list reflect.data) * list FieldError) :
  (forall c fi, plan !! c = Some fi -> unmarshalFunc fi <> None ->
     reflectFieldIndex fi <> j) ->
  zeroRecord typ !! j = Some d ->
  Forall (fun t => t !! j = Some d) s.1 ->
  readRow E rc typ f sheet plan cfg filterFunc s rowIndex = Next s' ->
  Forall (fun t => t !! j = Some d) s'.1.
Proof.
  destruct s as [ts collected], s' as [ts' collected']. simpl.
  intros Hother Hzero Hts Hstep. unfold readRow in Hstep.
  case_bool_decide; [|by injection Hstep as <- <-].
  destruct (xlsx.Row_ sheet rowIndex) as [row|]; [|by injection Hstep as <- <-].
  destruct (forEach _ _ _) as [[nT collected1]|r|msg] eqn:Hcols; [|done..].
  injection Hstep as <- <-.
  destruct (runFilters filterFunc nT true); [|done].
  apply Forall_app. split; [done|]. constructor; [|constructor].
  rewrite <- Hzero.
  eapply readCell_other_columns; [|exact Hcols].
  intros c fi Hin. apply list_elem_of_lookup in Hin as [n Hn].
  rewrite indexed_lookup in Hn.
  destruct (plan !! n) as [fi'|] eqn:Hpn; [|done].
  injection Hn as <- <-. by eapply Hother.
Qed.

End Rows.

(** X7. The rows of a successful call are decoded one by one: when
    [ReadBinary] returns rows, they are, in sheet order, the records that
    each stored row from the data start row on decodes to by itself,
    starting from a zero record, without those a filter rejects. Rows
    before the data start row (the header row, by default) and rows that
    are not stored contribute nothing. *)
Theorem X7_rows_one_by_one (E : Externals) (typ : StructType) (f : xlsx.File)
    (filterFunc : list (option (list reflect.data -> bool)))
    (ts : list (list reflect.data)) :
  let rc := ReadConfigure typ defaultReadConfig in
  readDocument E typ f filterFunc = ok (Some ts, None) ->
  exists sheet headerRow plan,
    reachesBinding typ f sheet headerRow
    /\ bindColumns E rc typ (tagToFieldMap rc typ)
         (readStrings (xlsx.MaxCol sheet) headerRow) = Next plan
    /\ ts = omap (keptRecord E rc typ f sheet plan filterFunc) (seqZ 0 (xlsx.MaxRow sheet))
    /\ (forall rowIndex, rowIndex < ReadConfig.DataStartRowIndex rc ->
          keptRecord E rc typ f sheet plan filterFunc rowIndex = None)
    /\ (length ts <= Z.to_nat (xlsx.MaxRow sheet))%nat.
Proof.
  intros rc Hread.
  destruct (readDocument_rows E typ f filterFunc ts Hread)
    as (sheet & headerRow & plan & Hreach & Hbind & Hloop).
  exists sheet, headerRow, plan. split; [done|]. split; [done|].
  pose proof (rowLoop_by_row E rc typ f sheet plan filterFunc ts Hloop) as Hts.
  split; [done|]. split.
  - intros rowIndex Hlt. unfold keptRecord, rowRecord.
    by rewrite bool_decide_eq_false_2 by lia.
  - rewrite Hts. etrans; [apply omap_length_le|]. by rewrite length_seqZ.
Qed.

(** X8. A field that no header of the sheet is bound to keeps its zero
    value: when the tag map sends none of the header texts to field [j],
    every record that [ReadBinary] returns has the zero value of its type
    in field [j]. *)
Theorem X8_unbound_field_stays_zero (E : Externals) (typ : StructType) (f : xlsx.File)
    (sheet : xlsx.Sheet) (headerRow : list xlsx.Cell)
    (filterFunc : list (option (list reflect.data -> bool)))
    (ts : list (list reflect.data)) (j : nat) (fe : reflect.StructField) :
  let rc := ReadConfigure typ defaultReadConfig in
  reachesBinding typ f sheet headerRow ->
  Fields typ !! j = Some fe ->
  (forall h, h ∈ readStrings (xlsx.MaxCol sheet) headerRow ->
     tagToFieldMap rc typ !! h <> Some j) ->
  readDocument E typ f filterFunc = ok (Some ts, None) ->
  Forall (fun t => t !! j = Some (reflect.zeroOf (reflect.FieldType fe))) ts.
Proof.
  intros rc Hreach Hfe Hunbound Hread.
  rewrite (readDocument_binding E typ f sheet headerRow filterFunc Hreach) in Hread.
  simpl in Hread. fold rc in Hread.
  destruct (bindColumns E rc typ _ _) as [plan|e|msg] eqn:Hbind; [|done..].
  rewrite readRows_rowLoop in Hread.
  destruct (rowLoop E rc typ f sheet plan filterFunc) as [[ts0 c0]|r|msg] eqn:Hloop;
    [| |done].
  - case_bool_decide; [done|]. injection Hread as ->.
    apply (forEach_invariant
             (fun s : list (list reflect.data) * list FieldError =>
                Forall (fun t => t !! j = Some (reflect.zeroOf (reflect.FieldType fe))) s.1)
             _ _
             (fun s b s' Hs Hstep =>
                readRow_unbound E rc typ f sheet plan _ filterFunc j _ s b s'
                  ltac:(intros c fi Hc Hu Hj;
                        destruct (bindColumns_fields E rc typ _ plan c fi Hbind Hc Hu)
                          as (h & Hh & Hmap);
                        apply (Hunbound h); [by eapply list_elem_of_lookup_2|congruence])
                  ltac:(unfold zeroRecord; by rewrite list_lookup_fmap, Hfe)
                  Hs Hstep)
             ([], []) (ts, c0) (Forall_nil_2 _) Hloop).
  - injection Hread as ->. by apply rowLoop_return in Hloop as [? _].
Qed.

(** * Further properties of the write path *)

(** The configuration that [write0] works with: the default one, adjusted
    by the first record when there is one. *)
Definition writeConfigOf (typ : StructType) (ts : list (list reflect.data))
  : WriteConfig.t :=
  match ts with
  | t0 :: _ => WriteConfigure typ t0 defaultWriteConfig
  | [] => defaultWriteConfig
  end.

(** ** The shape of the sheet *)

Section Shape.

Context (E : Externals).

(** The values that the field loop of [write0] collects for a record: one
    per field that gets a column. *)
Definition recordRow (wc : WriteConfig.t) (typ : StructType) (t : list reflect.data)
  : list any :=
  (fun p => fieldValue wc p.1 p.2)
    <$> List.filter (fun p => hasColumn wc p.1) (zip (Fields typ) t).

Lemma writeField_any wc typ t i1 data sheet i fe d :
  Fields typ !! i = Some fe ->
  t !! i = Some d ->
  exists sheet',
    writeField wc typ t i1 (data, sheet) i
    = ok (data ++ (if hasColumn wc fe then [fieldValue wc fe d] else []), sheet')
    /\ grid sheet' = grid sheet.
Proof.
  intros Hfe Hd. unfold writeField, Field. rewrite Hfe, Hd. simpl.
  unfold reflect.CanInterface, hasColumn, fieldValue, writeTag. simpl.
  destruct (reflect.IsExported fe); simpl.
  - destruct (reflect.Lookup (reflect.Tag fe) (WriteConfig.TagName wc)) as [tg|]; simpl.
    + eexists. split; [done|]. apply addValidation_grid.
    + destruct (WriteConfig.SkipNoTag wc); simpl.
      * exists sheet. by rewrite app_nil_r.
      * eexists. split; [done|]. apply addValidation_grid.
  - exists sheet. by rewrite app_nil_r.
Qed.

Lemma writeFields_any wc typ t i1 sheet (k : nat) :
  length t = NumField typ ->
  (k <= NumField typ)%nat ->
  exists sheet',
    foldRes (writeField wc typ t i1) (seq 0 k) ([], sheet)
    = ok ((fun p => fieldValue wc p.1 p.2)
            <$> List.filter (fun p => hasColumn wc p.1) (take k (zip (Fields typ) t)),
          sheet')
    /\ grid sheet' = grid sheet.
Proof.
  intros Hlen. induction k as [|k IH]; intros Hk.
  - exists sheet. by rewrite take_0.
  - destruct IH as (sheet1 & Hrun & Hgrid); [lia|].
    unfold NumField in *.
    destruct (lookup_lt_is_Some_2 (Fields typ) k) as [fe Hfe]; [lia|].
    destruct (lookup_lt_is_Some_2 t k) as [d Hd]; [lia|].
    destruct (writeField_any wc typ t i1
                ((fun p => fieldValue wc p.1 p.2)
                   <$> List.filter (fun p => hasColumn wc p.1) (take k (zip (Fields typ) t)))
                sheet1 k fe d Hfe Hd) as (sheet2 & Hstep & Hgrid2).
    exists sheet2. split; [|congruence].
    rewrite seq_S, foldRes_snoc, Hrun, Nat.add_0_l, Hstep.
    rewrite (take_S_r _ _ (fe, d)).
    2:{ rewrite lookup_zip_with, Hfe. simpl. by rewrite Hd. }
    rewrite List.filter_app, fmap_app. cbn [List.filter fst].
    by destruct (hasColumn wc fe).
Qed.

Lemma filter_zip_length {A B} (P : A -> bool) (l : list A) (t : list B) :
  length t = length l ->
  length (List.filter (fun p => P p.1) (zip l t)) = length (List.filter P l).
Proof.
  revert t. induction l as [|a l IH]; intros [|b t] Hlen; simpl in *; try done.
  destruct (P a); simpl; rewrite IH; (done || lia).
Qed.

Lemma recordRow_length wc typ t :
  length t = NumField typ ->
  length (recordRow wc typ t) = length (List.filter (hasColumn wc) (Fields typ)).
Proof.
  intros Hlen. unfold recordRow. rewrite length_fmap. by apply filter_zip_length.
Qed.

Lemma writeRecord_any wc typ sheet i1 t :
  length t = NumField typ ->
  exists sheet',
    writeRecord E wc typ sheet (i1, t) = ok sheet'
    /\ grid sheet'
       = (xlsx.Name sheet, xlsx.Rows sheet ++ [writeCell E wc <$> recordRow wc typ t],
          xlsx.MaxRow sheet + 1,
          Z.max (xlsx.MaxCol sheet)
            (Z.of_nat (length (List.filter (hasColumn wc) (Fields typ))))).
Proof.
  intros Hlen. unfold writeRecord.
  destruct (writeFields_any wc typ t i1 sheet (NumField typ) Hlen)
    as (sheet1 & Hrun & Hgrid); [done|].
  rewrite Hrun. simpl. eexists. split; [done|].
  rewrite take_ge by (rewrite length_zip_with; unfold NumField in *; lia).
  fold (recordRow wc typ t).
  unfold grid, write, xlsx.AddRowOf in *. simpl.
  injection Hgrid as -> -> -> ->.
  by rewrite length_fmap, recordRow_length.
Qed.

Lemma writeRecords_any wc typ (l : list (Z * list reflect.data)) sheet :
  Forall (fun it => length it.2 = NumField typ) l ->
  xlsx.MaxCol sheet = Z.of_nat (length (List.filter (hasColumn wc) (Fields typ))) ->
  exists sheet',
    foldRes (writeRecord E wc typ) l sheet = ok sheet'
    /\ grid sheet'
       = (xlsx.Name sheet,
          xlsx.Rows sheet ++ ((fun it => writeCell E wc <$> recordRow wc typ it.2) <$> l),
          xlsx.MaxRow sheet + Z.of_nat (length l),
          Z.of_nat (length (List.filter (hasColumn wc) (Fields typ)))).
Proof.
  revert sheet. induction l as [|[i1 t] l IH]; intros sheet Hlens Hcol.
  - exists sheet. split; [done|]. unfold grid. simpl.
    rewrite app_nil_r, Z.add_0_r. by rewrite Hcol.
  - apply Forall_cons in Hlens as [Hlen Hlens]. simpl in Hlen.
    destruct (writeRecord_any wc typ sheet i1 t Hlen) as (sheet1 & Hstep & Hgrid1).
    unfold grid in Hgrid1. injection Hgrid1 as Hn Hr Hm Hc.
    destruct (IH sheet1 Hlens) as (sheet2 & Hrun & Hgrid2); [lia|].
    exists sheet2. rewrite foldRes_cons, Hstep. split; [done|].
    rewrite Hgrid2, Hn, Hr, Hm. rewrite <- app_assoc. simpl.
    do 2 f_equal. lia.
Qed.

(** The document that the write entry point makes of any slice. *)
Lemma NewFileFromSlice_shape typ ts :
  let wc := writeConfigOf typ ts in
  let columns := List.filter (hasColumn wc) (Fields typ) in
  xlsx.IsSaneSheetName (WriteConfig.SheetName wc) = true ->
  Forall (fun t => length t = NumField typ) ts ->
  exists sheet,
    NewFileFromSlice E typ ts = ok (xlsx.mkFile [sheet] false)
    /\ xlsx.Name sheet = WriteConfig.SheetName wc
    /\ xlsx.Rows sheet
       = (xlsx.SetString <$> (columnName wc <$> columns))
         :: ((fun t => writeCell E wc <$> recordRow wc typ t) <$> ts)
    /\ xlsx.MaxRow sheet = 1 + Z.of_nat (length ts)
    /\ xlsx.MaxCol sheet = Z.of_nat (length columns).
Proof.
  intros wc columns Hsane Hlens.
  unfold NewFileFromSlice, write0. fold (writeConfigOf typ ts). fold wc.
  rewrite (AddSheet_NewFile _ Hsane).
  rewrite headerRow_fields. fold columns.
  rewrite (list_fmap_compose (columnName wc) anyString), write_header.
  pose proof (indexed_fmap_snd (fun t => writeCell E wc <$> recordRow wc typ t) ts) as Hmap.
  pose proof (indexed_length ts) as Hlen.
  assert (Forall (fun it : Z * list reflect.data => length it.2 = NumField typ)
            (indexed ts)) as Hlens'.
  { rewrite Forall_forall. intros [i t] Hin.
    apply list_elem_of_lookup in Hin as [j Hj]. rewrite indexed_lookup in Hj.
    destruct (ts !! j) as [t'|] eqn:Ht; [|done]. injection Hj as <- <-. simpl.
    rewrite Forall_forall in Hlens. apply Hlens. by eapply list_elem_of_lookup_2. }
  assert ((if bool_decide (0 < length ts)%nat
           then foldRes (writeRecord E wc typ) (indexed ts)
                  (xlsx.mkSheet (WriteConfig.SheetName wc)
                     [xlsx.SetString <$> (columnName wc <$> columns)] 1
                     (Z.of_nat (length (columnName wc <$> columns))) [])
           else ok (xlsx.mkSheet (WriteConfig.SheetName wc)
                      [xlsx.SetString <$> (columnName wc <$> columns)] 1
                      (Z.of_nat (length (columnName wc <$> columns))) []))
          = foldRes (writeRecord E wc typ) (indexed ts)
              (xlsx.mkSheet (WriteConfig.SheetName wc)
                 [xlsx.SetString <$> (columnName wc <$> columns)] 1
                 (Z.of_nat (length (columnName wc <$> columns))) [])) as ->.
  { destruct ts; [done|]. by rewrite bool_decide_eq_true_2 by (simpl; lia). }
  generalize dependent (indexed ts). intros l Hmap Hlen Hlens'.
  destruct (writeRecords_any wc typ l
              (xlsx.mkSheet (WriteConfig.SheetName wc)
                 [xlsx.SetString <$> (columnName wc <$> columns)] 1
                 (Z.of_nat (length (columnName wc <$> columns))) []) Hlens')
    as (sheet & Hrun & Hgrid).
  { cbn [xlsx.MaxCol]. by rewrite length_fmap. }
  exists sheet. rewrite Hrun. split; [done|].
  unfold grid in Hgrid.
  cbn [xlsx.Name xlsx.Rows xlsx.MaxRow xlsx.MaxCol] in Hgrid.
  injection Hgrid as -> -> -> ->.
  by rewrite Hmap, Hlen.
Qed.

End Shape.

(** X9. A sheet name that the library refuses makes the write entry points
    write nothing, without any sign of it: when the configured sheet name
    is not a legal one (empty, longer than 31 runes, or with one of the
    characters : \ / ? * [ ]), [NewFileFromSlice], [WriteFile] and [WriteTo]
    build a document without any sheet, and no record is looked at. The
    same holds for [write0] on a document that has a sheet of that name:
    it is left as it is. *)
Theorem X9_sheet_name_refused (E : Externals) (typ : StructType) (f : xlsx.File)
    (ts : list (list reflect.data)) :
  let wc := writeConfigOf typ ts in
  xlsx.IsSaneSheetName (WriteConfig.SheetName wc) = false
  \/ (exists sheet, sheet ∈ xlsx.Sheets f /\ xlsx.Name sheet = WriteConfig.SheetName wc) ->
  write0 E typ f ts = ok f
  /\ (xlsx.IsSaneSheetName (WriteConfig.SheetName wc) = false ->
      NewFileFromSlice E typ ts = ok (xlsx.mkFile [] false)
      /\ WriteFile E typ ts = ok (xlsx.mkFile [] false)
      /\ WriteTo E typ ts = ok (xlsx.mkFile [] false)).
Proof.
  intros wc Hrefused.
  assert (forall f', xlsx.IsSaneSheetName (WriteConfig.SheetName wc) = false
                     \/ (exists sheet, sheet ∈ xlsx.Sheets f'
                                       /\ xlsx.Name sheet = WriteConfig.SheetName wc) ->
                     write0 E typ f' ts = ok f') as Hnone.
  { intros f' Hf'. unfold write0. fold (writeConfigOf typ ts). fold wc.
    unfold xlsx.AddSheet.
    destruct (existsb _ (xlsx.Sheets f')) eqn:Hex; [done|].
    destruct Hf' as [->|(sheet & Hin & Hname)]; [done|].
    exfalso. apply not_true_iff_false in Hex. apply Hex.
    apply existsb_exists. exists sheet. split; [by apply list_elem_of_In|].
    by apply String.eqb_eq. }
  split; [by apply Hnone|].
  intros Hbad. unfold NewFileFromSlice, WriteFile, WriteTo.
  rewrite (Hnone xlsx.NewFile (or_introl Hbad)). done.
Qed.

(** X10. The sheet that the write entry points build is a rectangle: for
    records of the record type and a legal sheet name, the document has one
    sheet, named as configured, with the header row followed by one row per
    record, in order; the columns are the exported fields that have the tag
    or, unless [SkipNoTag] is set, lack it; every data row has exactly as
    many cells as the header row, [MaxRow] is one more than the number of
    records and [MaxCol] is the number of columns. *)
Theorem X10_sheet_is_a_rectangle (E : Externals) (typ : StructType)
    (ts : list (list reflect.data)) :
  let wc := writeConfigOf typ ts in
  let columns :=
    List.filter
      (fun fe => reflect.IsExported fe
                 && (bool_decide (is_Some (reflect.Lookup (reflect.Tag fe)
                                             (WriteConfig.TagName wc)))
                     || negb (WriteConfig.SkipNoTag wc)))
      (Fields typ) in
  xlsx.IsSaneSheetName (WriteConfig.SheetName wc) = true ->
  Forall (fun t => length t = NumField typ) ts ->
  exists sheet headerCells rows,
    NewFileFromSlice E typ ts = ok (xlsx.mkFile [sheet] false)
    /\ xlsx.Name sheet = WriteConfig.SheetName wc
    /\ xlsx.Rows sheet = headerCells :: rows
    /\ xlsx.Value <$> headerCells
       = (fun fe => default (reflect.Name fe)
                      (reflect.Lookup (reflect.Tag fe) (WriteConfig.TagName wc)))
         <$> columns
    /\ length rows = length ts
    /\ Forall (fun row => length row = length headerCells) rows
    /\ xlsx.MaxRow sheet = 1 + Z.of_nat (length ts)
    /\ xlsx.MaxCol sheet = Z.of_nat (length headerCells).
Proof.
  intros wc columns Hsane Hlens.
  destruct (NewFileFromSlice_shape E typ ts Hsane Hlens)
    as (sheet & Hfile & Hname & Hrows & Hmax & Hcol).
  fold wc in Hname, Hrows, Hmax, Hcol.
  change (List.filter (hasColumn wc) (Fields typ)) with columns in Hrows, Hcol.
  exists sheet, (xlsx.SetString <$> (columnName wc <$> columns)),
    ((fun t => writeCell E wc <$> recordRow wc typ t) <$> ts).
  split; [done|]. split; [done|]. split; [done|]. split; [|split; [|split; [|split]]].
  - rewrite <- !list_fmap_compose. by apply list_fmap_ext.
  - by rewrite length_fmap.
  - rewrite Forall_fmap. eapply Forall_impl; [exact Hlens|].
    intros t Ht. simpl. rewrite !length_fmap. by apply recordRow_length.
  - done.
  - by rewrite !length_fmap.
Qed.

(** ** Cells that come back *)

Section CellsBack.

Context (E : Externals).

Lemma encodeField_localized_bool wc fe b :
  WriteConfig.ChineseBool wc = true ->
  reflect.kindOf (reflect.FieldType fe) = reflect.Bool ->
  encodeField E wc fe (reflect.DBool b) = xlsx.SetString (if b then "是" else "否").
Proof.
  intros Hcn Hkind.
  unfold encodeField, fieldValue, cellValue, reflect.Kind_. cbn [reflect.typ reflect.dat].
  rewrite Hkind. cbn [bool_decide decide_rel andb].
  destruct (reflect.FieldType fe) as [k|n k| |e]; try done;
    cbn [reflect.typ reflect.dat reflect.kindOf] in *; rewrite Hkind, Hcn;
    by destruct b.
Qed.

Lemma encodeField_nil wc fe e :
  WriteConfig.SkipNilPointer wc = true ->
  reflect.FieldType fe = reflect.PtrTo e ->
  encodeField E wc fe (reflect.DPtr None) = xlsx.SetString EmptyString.
Proof.
  intros Hskip Ht.
  unfold encodeField, fieldValue, cellValue, reflect.Kind_, reflect.IsNil.
  cbn [reflect.typ reflect.dat]. by rewrite Ht, Hskip.
Qed.

Lemma encodeField_date wc fe t :
  reflect.FieldType fe = reflect.TimeTime
  \/ reflect.FieldType fe = reflect.PtrTo reflect.TimeTime ->
  encodeField E wc fe
    (if bool_decide (reflect.FieldType fe = reflect.TimeTime)
     then reflect.DTime t else reflect.DPtr (Some (reflect.DTime t)))
  = xlsx_SetDateWithOptions E t (WriteConfig.WriteTimeFmt wc).
Proof.
  intros [Ht|Ht];
    unfold encodeField, fieldValue, cellValue, reflect.Kind_, reflect.IsNil, reflect.Elem;
    cbn [reflect.typ reflect.dat]; rewrite Ht; simpl; by rewrite ?andb_false_r.
Qed.

End CellsBack.

(** X11. A plain boolean written with [ChineseBool] set comes back: the
    field is written as the text 是 for true and 否 for false, and the
    column loop of the read side turns that cell into the same boolean for
    every read configuration, document and bound routine; the read side has
    no switch for the tokens, and the routine is not called. *)
Theorem X11_localized_bool_cell (E : Externals) (wc : WriteConfig.t)
    (fe : reflect.StructField) (b : bool) :
  WriteConfig.ChineseBool wc = true ->
  reflect.kindOf (reflect.FieldType fe) = reflect.Bool ->
  reflect.IsExported fe = true ->
  encodeField E wc fe (reflect.DBool b) = xlsx.SetString (if b then "是" else "否")
  /\ forall rc f cfg fi unmarshal,
       decodeCell E rc f cfg fi unmarshal (freshField fe)
         (encodeField E wc fe (reflect.DBool b))
       = ok (Stored (reflect.DBool b)).
Proof.
  intros Hcn Hkind Hexp.
  rewrite (encodeField_localized_bool E wc fe b Hcn Hkind). split; [done|].
  intros rc f cfg fi unmarshal.
  destruct (decodeCell_bool_token E rc f cfg fi unmarshal (freshField fe)
              (xlsx.SetString (if b then "是" else "否")))
    as (Htrue & Hfalse & _).
  { done. }
  { unfold reflect.CanSet, freshField. simpl. by rewrite Hexp. }
  destruct b; [by apply Htrue|by apply Hfalse].
Qed.

(** X12. A drop-list key comes back: for an exported string field whose
    column has the same table on both sides, a value that is a key of the
    table, in a table that pairs this key with one display value and that
    display value with this key only, is written as the display value, and
    the read side turns a cell with that text into the key, whatever the
    bound routine is. *)
Theorem X12_drop_list_key_cell (E : Externals) (wc : WriteConfig.t) (rc : ReadConfig.t)
    (fe : reflect.StructField) (k v : string) (dropList : list DropListItem)
    (writeMap readMap : gmap string (list DropListItem)) :
  reflect.kindOf (reflect.FieldType fe) = reflect.String ->
  reflect.IsExported fe = true ->
  WriteConfig.DropListMap wc = Some writeMap ->
  writeMap !! writeTag wc fe = Some dropList ->
  ReadConfig.DropListMap rc = Some readMap ->
  readMap !! columnName wc fe = Some dropList ->
  mkDropListItem k v ∈ dropList ->
  (forall it, it ∈ dropList -> Key it = k -> Value it = v) ->
  (forall it, it ∈ dropList -> Value it = v -> Key it = k) ->
  encodeField E wc fe (reflect.DString k) = xlsx.SetString v
  /\ forall f cfg fi unmarshal,
       header fi = columnName wc fe ->
       decodeCell E rc f cfg fi unmarshal (freshField fe)
         (encodeField E wc fe (reflect.DString k))
       = ok (Stored (reflect.DString k)).
Proof.
  intros Hkind Hexp Hwmap Hwlist Hrmap Hrlist Hin Hkv Hvk.
  assert (encodeField E wc fe (reflect.DString k) = xlsx.SetString v) as ->.
  { unfold encodeField, fieldValue.
    rewrite (cellValue_drop_list wc _ (writeTag wc fe) k writeMap dropList); [|by left|done..].
    by rewrite (dropListValue_present dropList k v Hin Hkv). }
  split; [done|]. intros f cfg fi unmarshal Hheader.
  rewrite (decodeCell_drop_list E rc f cfg fi unmarshal (freshField fe) (xlsx.SetString v)
             readMap dropList).
  - unfold boxed, reflect.Kind_. cbn [freshField reflect.typ].
    rewrite Hkind. cbn [bool_decide decide_rel xlsx.SetString xlsx.Value].
    by rewrite (dropListKey_present dropList v k Hin Hvk).
  - unfold notSkipped, reflect.Kind_. cbn [freshField reflect.typ]. rewrite Hkind.
    cbn [bool_decide decide_rel]. by rewrite andb_false_r.
  - by left.
  - unfold reflect.CanSet, freshField. simpl. by rewrite Hexp.
  - done.
  - by rewrite Hheader.
Qed.

(** X13. A nil pointer comes back when both sides are told so: with
    [SkipNilPointer] set, a nil pointer field is written as a cell with
    empty text, and with [PointerCanNil] set the read side skips such a
    cell of a pointer field and leaves the field nil, whatever the pointer
    type and the bound routine are. But the empty cell does not tell a nil
    pointer from a pointer to the empty string: a non-nil [*string] that
    points to the empty string, in a column without drop-list table, is
    written as the same cell, and so is read back as nil. *)
Theorem X13_nil_pointer_cell (E : Externals) (wc : WriteConfig.t) (rc : ReadConfig.t)
    (fe : reflect.StructField) (e : reflect.rtype) :
  WriteConfig.SkipNilPointer wc = true ->
  ReadConfig.PointerCanNil rc = true ->
  reflect.FieldType fe = reflect.PtrTo e ->
  encodeField E wc fe (reflect.DPtr None) = xlsx.SetString EmptyString
  /\ (forall f cfg fi unmarshal,
        decodeCell E rc f cfg fi unmarshal (freshField fe)
          (encodeField E wc fe (reflect.DPtr None))
        = ok Skipped)
  /\ (e = reflect.Basic reflect.String ->
      WriteConfig.DropListMap wc = None ->
      encodeField E wc fe (reflect.DPtr (Some (reflect.DString EmptyString)))
      = encodeField E wc fe (reflect.DPtr None)).
Proof.
  intros Hskip Hnil Ht.
  rewrite (encodeField_nil E wc fe e Hskip Ht). split; [done|]. split.
  - intros f cfg fi unmarshal. apply decodeCell_skip; [done| |done].
    unfold reflect.Kind_, freshField. simpl. by rewrite Ht.
  - intros -> Hnone.
    unfold encodeField, fieldValue, cellValue, reflect.Kind_, reflect.IsNil, reflect.Elem.
    cbn [reflect.typ reflect.dat]. rewrite Ht. simpl. rewrite andb_false_r. simpl.
    by rewrite Hnone.
Qed.

(** X14. Dates are written by [write] as date cells in the configured
    format, a [time.Time] field as well as a non-nil [*time.Time] field.
    For an exported [*time.Time] field the read side makes of that cell
    the date that the library's [TimeFromExcelTime] gives for the number
    that [ParseFloat] reads off the cell text, under the document's epoch:
    the date comes back exactly when these library functions undo
    [SetDateWithOptions]. The cell's number format and the bound routine
    play no part. *)
Theorem X14_date_cell (E : Externals) (wc : WriteConfig.t) (rc : ReadConfig.t)
    (fe : reflect.StructField) (t : time.Time) :
  let cell := xlsx_SetDateWithOptions E t (WriteConfig.WriteTimeFmt wc) in
  reflect.IsExported fe = true ->
  xlsx.Value cell <> EmptyString ->
  (reflect.FieldType fe = reflect.TimeTime ->
   encodeField E wc fe (reflect.DTime t) = cell)
  /\ (reflect.FieldType fe = reflect.PtrTo reflect.TimeTime ->
      encodeField E wc fe (reflect.DPtr (Some (reflect.DTime t))) = cell
      /\ forall f cfg fi unmarshal,
           decodeCell E rc f cfg fi unmarshal (freshField fe) cell
           = ok (Stored (reflect.DPtr (Some (reflect.DTime
                   (xlsx_TimeFromExcelTime E (strconv_ParseFloat E (xlsx.Value cell) 10).1
                      (xlsx.Date1904 f))))))).
Proof.
  intros cell Hexp Hfull. split.
  - intros Ht. pose proof (encodeField_date E wc fe t (or_introl Ht)) as Henc.
    by rewrite bool_decide_eq_true_2 in Henc by done.
  - intros Ht. split.
    + pose proof (encodeField_date E wc fe t (or_intror Ht)) as Henc.
      by rewrite bool_decide_eq_false_2 in Henc by (rewrite Ht; congruence).
    + intros f cfg fi unmarshal. apply decodeCell_time.
      * unfold notSkipped. apply String.eqb_neq in Hfull. rewrite Hfull.
        by rewrite andb_false_r.
      * done.
      * unfold reflect.CanSet, freshField. simpl. by rewrite Hexp.
Qed.

(** * The string grid entry points *)

(** [writeExcel0]: a sheet named "Sheet1" with one row of text cells per
    row of the data. The result of [AddSheet] is used without a check, so
    adding the first row panics when the sheet was refused. *)
Definition writeExcel0 (f : xlsx.File) (data : list (list string)) : res xlsx.File :=
  match xlsx.AddSheet f "Sheet1" with
  | Some sheet =>
      ok (xlsx.attach f
            (foldl (fun sheet (row : list string) =>
                      xlsx.AddRowOf sheet (xlsx.SetString <$> row))
                   sheet data))
  | None =>
      match data with
      | [] => ok f
      | _ :: _ => panic "runtime error: invalid memory address or nil pointer dereference"
      end
  end.

(** [WriteExcel] and [WriteExcelTo] hand the document they build to the
    library's [Save] and [Write]: the document they hand over. *)
Definition WriteExcel (data : list (list string)) : res xlsx.File :=
  writeExcel0 xlsx.NewFile data.

Definition WriteExcelTo (data : list (list string)) : res xlsx.File :=
  writeExcel0 xlsx.NewFile data.

Section ReadExcel.

(** The library's [xlsx.OpenFile], and the state that the walk function
    works on. *)
Context (xlsx_OpenFile : string -> xlsx.File + error_).
Context {S : Type}.

(** ReadExcel walk func from excel *)
Definition ReadExcel (file : string) (sheetIndex : Z)
    (walk : Z -> list xlsx.Cell -> S -> S) (s : S) : res (S * option error_) :=
  match xlsx_OpenFile file with
  | inr err => ok (s, Some err)
  | inl f =>
      match (if bool_decide (sheetIndex < 0) then None
             else xlsx.Sheets f !! Z.to_nat sheetIndex) with
      | None => panic "runtime error: index out of range"
      | Some sheet =>
          ok (foldl (fun s i =>
                       match xlsx.Row_ sheet i with
                       | Some row => walk i row s
                       | None => s
                       end)
                    s (seqZ 0 (xlsx.MaxRow sheet)),
              None)
      end
  end.

Lemma walk_rows (sheet : xlsx.Sheet) (walk : Z -> list xlsx.Cell -> S -> S) (s : S)
    (n : nat) :
  foldl (fun s i => match xlsx.Row_ sheet i with
                    | Some row => walk i row s
                    | None => s
                    end) s (seqZ 0 (Z.of_nat n))
  = foldl (fun s it => walk it.1 it.2 s) s (indexed (take n (xlsx.Rows sheet))).
Proof.
  induction n as [|n IH]; [done|].
  rewrite seqZ_S, foldl_app, IH. cbn [foldl]. unfold xlsx.Row_.
  rewrite bool_decide_eq_false_2 by lia.
  rewrite Z.add_0_l, Nat2Z.id.
  destruct (xlsx.Rows sheet !! n) as [row|] eqn:Hrow.
  - rewrite (take_S_r _ _ row Hrow), indexed_snoc, foldl_app. cbn [foldl fst snd].
    rewrite length_take_le; [done|]. apply lookup_lt_Some in Hrow. lia.
  - apply lookup_ge_None in Hrow. by rewrite !take_ge by lia.
Qed.

Lemma ReadExcel_rows file f sheetIndex sheet walk s :
  xlsx_OpenFile file = inl f ->
  0 <= sheetIndex ->
  xlsx.Sheets f !! Z.to_nat sheetIndex = Some sheet ->
  ReadExcel file sheetIndex walk s
  = ok (foldl (fun s it => walk it.1 it.2 s) s
          (indexed (take (Z.to_nat (xlsx.MaxRow sheet)) (xlsx.Rows sheet))),
        None).
Proof.
  intros Hopen Hpos Hsheet. unfold ReadExcel.
  rewrite Hopen, bool_decide_eq_false_2, Hsheet by lia. do 2 f_equal.
  destruct (decide (xlsx.MaxRow sheet <= 0)) as [Hle|Hgt].
  - rewrite seqZ_nil by done. by replace (Z.to_nat (xlsx.MaxRow sheet)) with 0%nat by lia.
  - rewrite <- (Z2Nat.id (xlsx.MaxRow sheet)) at 1 by lia. apply walk_rows.
Qed.

End ReadExcel.

Section Grid.

Lemma writeRows_sheet (data : list (list string)) sheet :
  foldl (fun sheet (row : list string) => xlsx.AddRowOf sheet (xlsx.SetString <$> row))
        sheet data
  = xlsx.mkSheet (xlsx.Name sheet)
      (xlsx.Rows sheet ++ ((fun row : list string => xlsx.SetString <$> row) <$> data))
      (xlsx.MaxRow sheet + Z.of_nat (length data))
      (foldl (fun m (row : list string) => Z.max m (Z.of_nat (length row)))
         (xlsx.MaxCol sheet) data)
      (xlsx.DataValidations sheet).
Proof.
  revert sheet. induction data as [|row data IH]; intros sheet.
  - destruct sheet. simpl. by rewrite app_nil_r, Z.add_0_r.
  - cbn [foldl]. rewrite IH. unfold xlsx.AddRowOf. simpl.
    rewrite <- app_assoc, length_fmap. simpl. f_equal. lia.
Qed.

Lemma collect_rows (data : list (list string)) :
  foldl (fun (acc : list (Z * list string)) (it : Z * list xlsx.Cell) =>
           acc ++ [(it.1, xlsx.Value <$> it.2)])
        [] (indexed ((fun row : list string => xlsx.SetString <$> row) <$> data))
  = indexed data.
Proof.
  induction data as [|row data IH] using rev_ind; [done|].
  rewrite fmap_app. cbn [fmap list_fmap]. rewrite !indexed_snoc, foldl_app, IH.
  cbn [foldl fst snd]. rewrite length_fmap. do 3 f_equal.
  rewrite <- list_fmap_compose. rewrite <- (list_fmap_id row) at 2.
  by apply list_fmap_ext.
Qed.

End Grid.

(** X15. [ReadExcel] walks the stored rows of the chosen sheet, each once,
    in increasing row order, handing the walk function the row index and
    the row, up to the sheet's [MaxRow]. When the file cannot be opened it
    returns that error and the walk function is not called. It has no guard
    on the sheet index: an index that is negative or not below the number
    of sheets panics, where [ReadBinary] returns
    [ErrSheetIndexOutOfRange]. *)
Theorem X15_ReadExcel_walk {S : Type} (xlsx_OpenFile : string -> xlsx.File + error_)
    (file : string) (sheetIndex : Z) (walk : Z -> list xlsx.Cell -> S -> S) (s : S) :
  (forall err, xlsx_OpenFile file = inr err ->
     ReadExcel xlsx_OpenFile file sheetIndex walk s = ok (s, Some err))
  /\ (forall f, xlsx_OpenFile file = inl f ->
        (sheetIndex < 0 \/ Z.of_nat (length (xlsx.Sheets f)) <= sheetIndex ->
         ReadExcel xlsx_OpenFile file sheetIndex walk s
         = panic "runtime error: index out of range")
        /\ (forall sheet,
              0 <= sheetIndex ->
              xlsx.Sheets f !! Z.to_nat sheetIndex = Some sheet ->
              ReadExcel xlsx_OpenFile file sheetIndex walk s
              = ok (foldl (fun s it => walk it.1 it.2 s) s
                      (indexed (take (Z.to_nat (xlsx.MaxRow sheet)) (xlsx.Rows sheet))),
                    None))).
Proof.
  split.
  - intros err Hopen. unfold ReadExcel. by rewrite Hopen.
  - intros f Hopen. split.
    + intros Hout. unfold ReadExcel. rewrite Hopen.
      case_bool_decide; [done|].
      rewrite lookup_ge_None_2; [done|]. lia.
    + intros sheet. by apply ReadExcel_rows.
Qed.

(** X16. What [WriteExcel] writes, [ReadExcel] walks: for every grid of
    strings, [WriteExcel] and [WriteExcelTo] build a document with the one
    sheet "Sheet1" that has one row of text cells per row of the grid and
    no cell constraints, and walking sheet 0 of that document visits the
    rows of the grid in order, each with its index and its strings, ragged
    rows and empty rows included. *)
Theorem X16_WriteExcel_ReadExcel (data : list (list string)) (file : string) :
  exists f sheet,
    WriteExcel data = ok f
    /\ WriteExcelTo data = ok f
    /\ xlsx.Sheets f = [sheet]
    /\ xlsx.Name sheet = "Sheet1"
    /\ xlsx.Rows sheet = (fun row : list string => xlsx.SetString <$> row) <$> data
    /\ xlsx.MaxRow sheet = Z.of_nat (length data)
    /\ xlsx.DataValidations sheet = []
    /\ ReadExcel (fun _ => inl f) file 0
         (fun i row (acc : list (Z * list string)) => acc ++ [(i, xlsx.Value <$> row)]) []
       = ok (indexed data, None).
Proof.
  unfold WriteExcel, WriteExcelTo, writeExcel0.
  rewrite AddSheet_NewFile by done. rewrite writeRows_sheet. simpl.
  eexists _, _. split; [done|]. split; [done|]. split; [done|].
  split; [done|]. split; [done|]. split; [done|]. split; [done|].
  erewrite ReadExcel_rows; [|done|done|done]. cbn [xlsx.MaxRow xlsx.Rows].
  rewrite Z.add_0_l, Nat2Z.id, take_ge by (by rewrite length_fmap).
  by rewrite collect_rows.
Qed.

(** * The cell constraints that [write0] attaches *)

(** A constraint on the one cell in row [r] and column [c]. *)
Definition onCell (r c : Z) (dd : xlsx.DataValidation) : Prop :=
  xlsx.startRow dd = r /\ xlsx.endRow dd = r
  /\ xlsx.startCol dd = c /\ xlsx.endCol dd = c.

(** A constraint on one cell of row [r], in one of the first [n] columns. *)
Definition inRow (r : Z) (n : nat) (dd : xlsx.DataValidation) : Prop :=
  exists c, onCell r c dd /\ 0 <= c < Z.of_nat n.

Section Constraints.

Context (E : Externals).

Lemma addValidation_cell wc v tag rowIndex colIndex sheet :
  exists added,
    xlsx.DataValidations (addValidation wc v tag rowIndex colIndex sheet)
    = xlsx.DataValidations sheet ++ added
    /\ Forall (fun dd => onCell rowIndex colIndex dd
                         /\ xlsx.allowBlank dd = bool_decide (reflect.Kind_ v = reflect.Ptr))
         added.
Proof.
  unfold addValidation.
  set (basicType := match reflect.Type_ v with
                    | reflect.PtrTo e => reflect.kindOf e
                    | t => reflect.kindOf t
                    end).
  destruct (decide (basicType = reflect.Bool)) as [Hb|Hb].
  - rewrite (bool_decide_eq_true_2 _ Hb).
    rewrite (bool_decide_eq_false_2 (basicType = reflect.String)) by congruence.
    destruct (WriteConfig.ChineseBool wc); eexists [_]; (split; [done|]);
      by repeat constructor.
  - rewrite (bool_decide_eq_false_2 _ Hb).
    case_bool_decide; [|exists []; by rewrite app_nil_r].
    destruct (WriteConfig.DropListMap wc) as [m|]; [|exists []; by rewrite app_nil_r].
    destruct (m !! tag) as [dropList|]; [|exists []; by rewrite app_nil_r].
    eexists [_]. split; [done|]. by repeat constructor.
Qed.

Lemma inRow_mono r n n' dd : (n <= n')%nat -> inRow r n dd -> inRow r n' dd.
Proof. intros Hle (c & Hc & Hlt). exists c. split; [done|lia]. Qed.

Lemma writeField_constraints wc typ t i1 data sheet i
    (st' : list any * xlsx.Sheet) :
  writeField wc typ t i1 (data, sheet) i = ok st' ->
  (length data <= length st'.1)%nat
  /\ exists added,
       xlsx.DataValidations st'.2 = xlsx.DataValidations sheet ++ added
       /\ Forall (inRow (i1 + 1) (length st'.1)) added.
Proof.
  unfold writeField.
  destruct (Field typ t i) as [v|]; [|done]. simpl.
  destruct (negb (reflect.CanInterface v)).
  { intros [= <-]. split; [done|]. exists []. by rewrite app_nil_r. }
  destruct (Fields typ !! i) as [fe|]; [|done].
  destruct (reflect.Lookup (reflect.Tag fe) (WriteConfig.TagName wc)) as [tg|]; simpl.
  - intros [= <-]. simpl. rewrite length_app. simpl. split; [lia|].
    destruct (addValidation_cell wc v tg (i1 + 1) (Z.of_nat (length data)) sheet)
      as (added & Hadded & Hcells).
    exists added. split; [done|].
    eapply Forall_impl; [exact Hcells|]. intros dd [Hdd _].
    exists (Z.of_nat (length data)). split; [done|lia].
  - destruct (WriteConfig.SkipNoTag wc).
    { intros [= <-]. split; [done|]. exists []. by rewrite app_nil_r. }
    intros [= <-]. simpl. rewrite length_app. simpl. split; [lia|].
    destruct (addValidation_cell wc v EmptyString (i1 + 1) (Z.of_nat (length data)) sheet)
      as (added & Hadded & Hcells).
    exists added. split; [done|].
    eapply Forall_impl; [exact Hcells|]. intros dd [Hdd _].
    exists (Z.of_nat (length data)). split; [done|lia].
Qed.

Lemma writeFields_constraints wc typ t i1 (l : list nat) (st st' : list any * xlsx.Sheet) :
  foldRes (writeField wc typ t i1) l st = ok st' ->
  (length st.1 <= length st'.1)%nat
  /\ exists added,
       xlsx.DataValidations st'.2 = xlsx.DataValidations st.2 ++ added
       /\ Forall (inRow (i1 + 1) (length st'.1)) added.
Proof.
  revert st. induction l as [|i l IH]; intros [data sheet].
  - intros [= <-]. split; [done|]. exists []. by rewrite app_nil_r.
  - rewrite foldRes_cons.
    destruct (writeField wc typ t i1 (data, sheet) i) as [st1|] eqn:Hstep; [|done].
    intros Hrun.
    destruct (writeField_constraints wc typ t i1 data sheet i st1 Hstep)
      as (Hlen1 & added1 & Hadded1 & Hcells1).
    destruct (IH st1 Hrun) as (Hlen2 & added2 & Hadded2 & Hcells2).
    simpl in *. split; [lia|].
    exists (added1 ++ added2). split; [by rewrite Hadded2, Hadded1, app_assoc|].
    apply Forall_app. split; [|done].
    eapply Forall_impl; [exact Hcells1|]. intros dd. by apply inRow_mono.
Qed.

Lemma writeRecord_constraints wc typ sheet i1 t sheet' :
  length t = NumField typ ->
  writeRecord E wc typ sheet (i1, t) = ok sheet' ->
  exists added,
    xlsx.DataValidations sheet' = xlsx.DataValidations sheet ++ added
    /\ Forall (inRow (i1 + 1) (length (List.filter (hasColumn wc) (Fields typ)))) added.
Proof.
  intros Hlen. unfold writeRecord.
  destruct (writeFields_any wc typ t i1 sheet (NumField typ) Hlen)
    as (sheet1 & Hrun & _); [done|].
  rewrite Hrun. simpl. intros [= <-].
  destruct (writeFields_constraints wc typ t i1 _ _ _ Hrun) as (_ & added & Hadded & Hcells).
  simpl in Hadded, Hcells. exists added. split; [done|].
  rewrite take_ge in Hcells by (rewrite length_zip_with; unfold NumField in *; lia).
  fold (recordRow wc typ t) in Hcells. by rewrite recordRow_length in Hcells.
Qed.

Lemma writeRecords_constraints wc typ (l : list (Z * list reflect.data)) sheet sheet' :
  Forall (fun it => length it.2 = NumField typ) l ->
  foldRes (writeRecord E wc typ) l sheet = ok sheet' ->
  exists added,
    xlsx.DataValidations sheet' = xlsx.DataValidations sheet ++ added
    /\ Forall (fun dd => exists it, it ∈ l
                 /\ inRow (it.1 + 1) (length (List.filter (hasColumn wc) (Fields typ))) dd)
         added.
Proof.
  revert sheet. induction l as [|[i1 t] l IH]; intros sheet Hlens.
  - intros [= <-]. exists []. by rewrite app_nil_r.
  - apply Forall_cons in Hlens as [Hlen Hlens]. simpl in Hlen.
    rewrite foldRes_cons.
    destruct (writeRecord E wc typ sheet (i1, t)) as [sheet1|] eqn:Hstep; [|done].
    intros Hrun.
    destruct (writeRecord_constraints wc typ sheet i1 t sheet1 Hlen Hstep)
      as (added1 & Hadded1 & Hcells1).
    destruct (IH sheet1 Hlens Hrun) as (added2 & Hadded2 & Hcells2).
    exists (added1 ++ added2). split; [by rewrite Hadded2, Hadded1, app_assoc|].
    apply Forall_app. split.
    + eapply Forall_impl; [exact Hcells1|]. intros dd Hdd.
      exists (i1, t). split; [by left|done].
    + eapply Forall_impl; [exact Hcells2|]. intros dd (it & Hin & Hdd).
      exists it. split; [by right|done].
Qed.

End Constraints.

(** X17. Every cell constraint that the write entry points attach sits on
    one single cell of a data row: its range starts and ends in the same
    row and column, the row is one of the rows written for the records
    (never the header row, row 0), and the column is one of the sheet's
    columns. A slice without records gets no constraint at all. *)
Theorem X17_constraints_on_data_cells (E : Externals) (typ : StructType)
    (ts : list (list reflect.data)) (f : xlsx.File) :
  let wc := writeConfigOf typ ts in
  Forall (fun t => length t = NumField typ) ts ->
  NewFileFromSlice E typ ts = ok f ->
  forall sheet dd,
    sheet ∈ xlsx.Sheets f ->
    dd ∈ xlsx.DataValidations sheet ->
    xlsx.startRow dd = xlsx.endRow dd
    /\ xlsx.startCol dd = xlsx.endCol dd
    /\ 1 <= xlsx.startRow dd <= Z.of_nat (length ts)
    /\ 0 <= xlsx.startCol dd < xlsx.MaxCol sheet.
Proof.
  intros wc Hlens Hfile sheet dd Hsheet Hdd.
  destruct (xlsx.IsSaneSheetName (WriteConfig.SheetName wc)) eqn:Hsane.
  2:{ unfold NewFileFromSlice, write0 in Hfile.
      fold (writeConfigOf typ ts) in Hfile. fold wc in Hfile.
      unfold xlsx.AddSheet in Hfile. rewrite Hsane in Hfile. simpl in Hfile.
      injection Hfile as <-. by apply elem_of_nil in Hsheet. }
  destruct (NewFileFromSlice_shape E typ ts Hsane Hlens)
    as (sheet0 & Hfile0 & _ & _ & _ & Hcol).
  rewrite Hfile in Hfile0. injection Hfile0 as ->.
  apply list_elem_of_singleton in Hsheet as ->. fold wc in Hcol.
  unfold NewFileFromSlice, write0 in Hfile.
  fold (writeConfigOf typ ts) in Hfile. fold wc in Hfile.
  rewrite (AddSheet_NewFile _ Hsane) in Hfile.
  assert (foldRes (writeRecord E wc typ) (indexed ts)
            (write E (xlsx.mkSheet (WriteConfig.SheetName wc) [] 0 0 []) (headerRow wc typ) wc)
          = ok sheet0) as Hrun.
  { cbv zeta in Hfile. destruct ts as [|t0 rest].
    - simpl in Hfile. by injection Hfile as <-.
    - rewrite bool_decide_eq_true_2 in Hfile by (simpl; lia).
      destruct (foldRes _ _ _) as [sheet1|]; [|done].
      simpl in Hfile. by injection Hfile as <-. }
  assert (Forall (fun it : Z * list reflect.data => length it.2 = NumField typ)
            (indexed ts)) as Hlens'.
  { rewrite Forall_forall. intros [i t] Hin.
    apply list_elem_of_lookup in Hin as [j Hj]. rewrite indexed_lookup in Hj.
    destruct (ts !! j) as [t'|] eqn:Ht; [|done]. injection Hj as <- <-. simpl.
    rewrite Forall_forall in Hlens. apply Hlens. by eapply list_elem_of_lookup_2. }
  destruct (writeRecords_constraints E wc typ (indexed ts) _ sheet0 Hlens' Hrun)
    as (added & Hadded & Hcells).
  simpl in Hadded. rewrite Hadded in Hdd.
  rewrite Forall_forall in Hcells.
  destruct (Hcells dd Hdd) as ([i t] & Hin & c & (Hsr & Her & Hsc & Hec) & Hc).
  apply list_elem_of_lookup in Hin as [j Hj]. rewrite indexed_lookup in Hj.
  destruct (ts !! j) as [t'|] eqn:Ht; [|done]. injection Hj as <- <-.
  apply lookup_lt_Some in Ht. simpl in *.
  rewrite Hsr, Her, Hsc, Hec, Hcol. lia.
Qed.

(** * Instances of the further properties *)

Module Cases.

(** The [Score] struct of above read under the ignore policy, and under
    the default configuration (the abort policy). *)
Definition ignoring (rc : ReadConfig.t) : ReadConfig.t :=
  ReadConfig.mk (ReadConfig.TagName rc) (ReadConfig.SheetIndex rc)
    (ReadConfig.HeaderRowIndex rc) (ReadConfig.DataStartRowIndex rc)
    (ReadConfig.TrimSpace rc) (ReadConfig.FallbackDateFormats rc)
    (ReadConfig.SkipUnknownColumns rc) (ReadConfig.SkipUnknownTypes rc)
    UnmarshalErrorIgnore (ReadConfig.MaxUnmarshalErrors rc)
    (ReadConfig.DropListMap rc) (ReadConfig.PointerCanNil rc).

Definition Lenient : StructType :=
  mkStructType (Fields (Sample.Score 0)) ignoring (fun _ wc => wc).

Definition Exact : StructType :=
  mkStructType (Fields (Sample.Score 0)) (fun rc => rc) (fun _ wc => wc).

(** What the score sheet decodes to when the three failures are ignored. *)
Definition lenientRows : list (list reflect.data) :=
  [[reflect.DString "Ann"; reflect.DInt 0]; [reflect.DString "Ben"; reflect.DInt 7];
   [reflect.DString "Cy"; reflect.DInt 0]; [reflect.DString "Di"; reflect.DInt 0]].

(** The one data row of the sheet with the unknown column, as a person. *)
Definition aliceOnly : list reflect.data :=
  [reflect.DString "Alice"; reflect.DBool false; reflect.DPtr None].

(** The [Person] struct written to a sheet whose name has a slash. *)
Definition slashed (wc : WriteConfig.t) : WriteConfig.t :=
  WriteConfig.mk "2024/25" (WriteConfig.TagName wc) (WriteConfig.SkipNoTag wc)
    (WriteConfig.SkipNilPointer wc) (WriteConfig.DropListMap wc)
    (WriteConfig.ChineseBool wc) (WriteConfig.WriteTimeFmt wc).

Definition Slashed : StructType :=
  mkStructType Sample.personFields (fun rc => rc) (fun _ => slashed).

(** Write configurations with localized booleans, and with nil pointers
    written as empty cells. *)
Definition localized : WriteConfig.t :=
  WriteConfig.mk "Sheet1" "excel" false false None true xlsx.DefaultDateFormat.

Definition nilAsEmpty : WriteConfig.t :=
  WriteConfig.mk "Sheet1" "excel" false true None false xlsx.DefaultDateFormat.

Definition activeField : reflect.StructField :=
  reflect.mkStructField "Active" EmptyString (reflect.Basic reflect.Bool) (Sample.tag "active").

Definition ageField : reflect.StructField :=
  reflect.mkStructField "Age" EmptyString (reflect.PtrTo (reflect.Basic reflect.Int))
    (Sample.tag "age").

Definition whenField : reflect.StructField :=
  reflect.mkStructField "When" EmptyString (reflect.PtrTo reflect.TimeTime) (Sample.tag "when").

(** The constraint that the second record of two persons gets on its
    boolean cell. *)
Definition bobActive : xlsx.DataValidation :=
  xlsx.mkDataValidation 2 1 2 1 false ["TRUE"; "FALSE"] EmptyString
    "should be TRUE or FALSE".

Definition twoPersons : xlsx.Sheet :=
  match NewFileFromSlice Sample.E Sample.Person [Sample.alice; Sample.bob] with
    | ok f => default (xlsx.mkSheet EmptyString [] 0 0 []) (head (xlsx.Sheets f))
    | panic _ => xlsx.mkSheet EmptyString [] 0 0 []
    end.

End Cases.

Lemma X5_ignore_policy_witness :
  readDocument Sample.E Cases.Lenient Sample.scoreFile [] = ok (Some Cases.lenientRows, None).
Proof.
  unshelve eapply (proj2 (X5_ignore_policy Sample.E Cases.Lenient Sample.scoreFile []
                            eq_refl)
                     Sample.scoreSheet Sample.scoreHeader _ Cases.lenientRows _ _ _ _);
    [shelve | shelve
    | split; cbn; (lia || reflexivity)
    | vm_compute; reflexivity
    | vm_compute; reflexivity].
Defined.

Lemma X6_abort_policy_witness :
  readDocument Sample.E Cases.Exact Sample.scoreFile []
  = ok (None, Some (ofFieldError (Sample.scoreError 1)))
  /\ Forall (earlier (Sample.scoreError 1)) [Sample.scoreError 3; Sample.scoreError 4].
Proof.
  unshelve eapply (X6_abort_policy Sample.E Cases.Exact Sample.scoreFile Sample.scoreSheet
                     Sample.scoreHeader _ [] Cases.lenientRows
                     [Sample.scoreError 1; Sample.scoreError 3; Sample.scoreError 4]
                     eq_refl _ _ _);
    [shelve
    | split; cbn; (lia || reflexivity)
    | vm_compute; reflexivity
    | vm_compute; reflexivity].
Defined.

Lemma X7_rows_one_by_one_witness :
  exists sheet headerRow plan,
    reachesBinding Sample.Person Sample.nickFile sheet headerRow
    /\ bindColumns Sample.E defaultReadConfig Sample.Person
         (tagToFieldMap defaultReadConfig Sample.Person)
         (readStrings (xlsx.MaxCol sheet) headerRow) = Next plan
    /\ [Cases.aliceOnly]
       = omap (keptRecord Sample.E defaultReadConfig Sample.Person Sample.nickFile sheet plan [])
           (seqZ 0 (xlsx.MaxRow sheet))
    /\ (forall rowIndex, rowIndex < 1 ->
          keptRecord Sample.E defaultReadConfig Sample.Person Sample.nickFile sheet plan []
            rowIndex = None)
    /\ (length [Cases.aliceOnly] <= Z.to_nat (xlsx.MaxRow sheet))%nat.
Proof.
  apply (X7_rows_one_by_one Sample.E Sample.Person Sample.nickFile [] [Cases.aliceOnly]).
  vm_compute. reflexivity.
Defined.

Lemma X8_unbound_field_stays_zero_witness :
  Forall (fun t => t !! 1%nat = Some (reflect.DBool false)) [Cases.aliceOnly].
Proof.
  apply (X8_unbound_field_stays_zero Sample.E Sample.Person Sample.nickFile Sample.nickSheet
           Sample.nickHeader [] [Cases.aliceOnly] 1 Cases.activeField).
  - split; cbn; (lia || reflexivity).
  - reflexivity.
  - intros h Hin.
    change (h ∈ ["name"; "nick"]) in Hin.
    apply elem_of_cons in Hin as [->|Hin]; [vm_compute; discriminate|].
    apply list_elem_of_singleton in Hin as ->. vm_compute. discriminate.
  - vm_compute. reflexivity.
Defined.

Lemma X9_sheet_name_refused_witness :
  NewFileFromSlice Sample.E Cases.Slashed [Sample.alice] = ok (xlsx.mkFile [] false).
Proof.
  apply (proj2 (X9_sheet_name_refused Sample.E Cases.Slashed xlsx.NewFile [Sample.alice]
                  (or_introl eq_refl)) eq_refl).
Defined.

Lemma X10_sheet_is_a_rectangle_witness :
  exists sheet headerCells rows,
    NewFileFromSlice Sample.E Sample.Person [Sample.alice; Sample.carol]
    = ok (xlsx.mkFile [sheet] false)
    /\ xlsx.Rows sheet = headerCells :: rows
    /\ xlsx.Value <$> headerCells = ["name"; "active"; "age"]
    /\ length rows = 2%nat
    /\ Forall (fun row => length row = length headerCells) rows
    /\ xlsx.MaxRow sheet = 3.
Proof.
  destruct (X10_sheet_is_a_rectangle Sample.E Sample.Person [Sample.alice; Sample.carol])
    as (sheet & headerCells & rows & Hfile & _ & Hrows & Hheader & Hlen & Hall & Hmax & _).
  - reflexivity.
  - repeat constructor.
  - by exists sheet, headerCells, rows.
Defined.

Lemma X11_localized_bool_cell_witness :
  encodeField Sample.E Cases.localized Cases.activeField (reflect.DBool true)
  = xlsx.SetString "是"
  /\ forall rc f cfg fi unmarshal,
       decodeCell Sample.E rc f cfg fi unmarshal (freshField Cases.activeField)
         (encodeField Sample.E Cases.localized Cases.activeField (reflect.DBool true))
       = ok (Stored (reflect.DBool true)).
Proof.
  apply (X11_localized_bool_cell Sample.E Cases.localized Cases.activeField true);
    reflexivity.
Defined.

Lemma X12_drop_list_key_cell_witness :
  encodeField Sample.E (Sample.writeColors defaultWriteConfig) Sample.colorField
    (reflect.DString "r")
  = xlsx.SetString "Red"
  /\ forall f cfg fi unmarshal,
       header fi = "color" ->
       decodeCell Sample.E (Sample.readColors defaultReadConfig) f cfg fi unmarshal
         (freshField Sample.colorField)
         (encodeField Sample.E (Sample.writeColors defaultWriteConfig) Sample.colorField
            (reflect.DString "r"))
       = ok (Stored (reflect.DString "r")).
Proof.
  apply (X12_drop_list_key_cell Sample.E (Sample.writeColors defaultWriteConfig)
           (Sample.readColors defaultReadConfig) Sample.colorField "r" "Red" Sample.colors
           Sample.colorMap Sample.colorMap).
  - reflexivity.
  - reflexivity.
  - reflexivity.
  - vm_compute. reflexivity.
  - reflexivity.
  - vm_compute. reflexivity.
  - by left.
  - intros it Hin Hkey. apply elem_of_cons in Hin as [->|Hin]; [done|].
    apply list_elem_of_singleton in Hin as ->. done.
  - intros it Hin Hvalue. apply elem_of_cons in Hin as [->|Hin]; [done|].
    apply list_elem_of_singleton in Hin as ->. done.
Defined.

Lemma X13_nil_pointer_cell_witness :
  encodeField Sample.E Cases.nilAsEmpty Cases.ageField (reflect.DPtr None)
  = xlsx.SetString EmptyString
  /\ forall f cfg fi unmarshal,
       decodeCell Sample.E (Sample.nilOnEmpty defaultReadConfig) f cfg fi unmarshal
         (freshField Cases.ageField)
         (encodeField Sample.E Cases.nilAsEmpty Cases.ageField (reflect.DPtr None))
       = ok Skipped.
Proof.
  destruct (X13_nil_pointer_cell Sample.E Cases.nilAsEmpty (Sample.nilOnEmpty defaultReadConfig)
              Cases.ageField (reflect.Basic reflect.Int) eq_refl eq_refl eq_refl)
    as (Hwrite & Hread & _).
  by split.
Defined.

Lemma X14_date_cell_witness :
  encodeField Sample.E defaultWriteConfig Cases.whenField
    (reflect.DPtr (Some (reflect.DTime (time.Instant 45000))))
  = xlsx.mkCell "45000" "m/d/yy"
  /\ decodeCell Sample.E defaultReadConfig Sample.nickFile Sample.params
       (mkFieldInfo 0 "when" (Some Sample.unsupported)) Sample.unsupported
       (freshField Cases.whenField) (xlsx.mkCell "45000" "m/d/yy")
     = ok (Stored (reflect.DPtr (Some (reflect.DTime (time.Instant 45000))))).
Proof.
  destruct (proj2 (X14_date_cell Sample.E defaultWriteConfig defaultReadConfig Cases.whenField
                     (time.Instant 45000) eq_refl ltac:(vm_compute; discriminate)) eq_refl)
    as [Hwrite Hread].
  split; [exact Hwrite|].
  exact (Hread Sample.nickFile Sample.params (mkFieldInfo 0 "when" (Some Sample.unsupported))
           Sample.unsupported).
Defined.

Lemma X17_constraints_on_data_cells_witness :
  xlsx.startRow Cases.bobActive = xlsx.endRow Cases.bobActive
  /\ xlsx.startCol Cases.bobActive = xlsx.endCol Cases.bobActive
  /\ 1 <= xlsx.startRow Cases.bobActive <= 2
  /\ 0 <= xlsx.startCol Cases.bobActive < xlsx.MaxCol Cases.twoPersons.
Proof.
  apply (X17_constraints_on_data_cells Sample.E Sample.Person [Sample.alice; Sample.bob]
           (xlsx.mkFile [Cases.twoPersons] false)).
  - repeat constructor.
  - vm_compute. reflexivity.
  - by left.
  - vm_compute. right. by left.
Defined.

(** * The errors that a read reports *)

(** [FieldError.Error] and [FieldError.Unwrap]. *)
Definition FieldError_Error (e : FieldError) : string :=
  ("error unmarshalling column " ++ dquote ++ ColumnHeader e ++ dquote ++ " in row "
   ++ pretty (RowIndex e + 1) ++ ": " ++ Error_ (Err e))%string.

Definition FieldError_Unwrap (e : FieldError) : error_ := Err e.

(** [ContentError.Error] and [ContentError.Unwrap]. *)
Definition ContentError_Error (e : ContentError) : string :=
  if LimitReached e then
    ("too many (" ++ pretty (Z.of_nat (length (FieldErrors e)))
     ++ ") errors reading data from Excel")%string
  else
    (pretty (Z.of_nat (length (FieldErrors e))) ++ " errors reading data from Excel")%string.

Definition ContentError_Unwrap (e : ContentError) : list error :=
  ofFieldError <$> FieldErrors e.

(** The field errors that a result carries, alone or in an aggregate. *)
Definition errorsOf (r : ReadResult) : list FieldError :=
  match r.2 with
  | Some (ofFieldError fe) => [fe]
  | Some (ofContentError ce) => FieldErrors ce
  | _ => []
  end.

(** A loop ends in a state, or with a return value, that its iterations
    lead to. *)
Lemma forEach_outcome {S R B} (I : S -> Prop) (P : R -> Prop)
    (body : S -> B -> flow S R) l :
  (forall s b, b ∈ l -> I s ->
     match body s b with
     | Next s' => I s'
     | Return r => P r
     | Panics _ => True
     end) ->
  forall s, I s ->
    match forEach body l s with
    | Next s' => I s'
    | Return r => P r
    | Panics _ => True
    end.
Proof.
  induction l as [|b l IH]; intros Hstep s Hs; [done|].
  rewrite forEach_cons.
  pose proof (Hstep s b ltac:(by left) Hs) as Hb.
  destruct (body s b) as [s1|r|msg]; [|done..].
  apply IH; [|done]. intros s' b' Hin. apply Hstep. by right.
Qed.

Section Reports.

Context (E : Externals).

Lemma handleError_reports (Q : FieldError -> Prop) rc rowIndex c fi val collected err :
  (forall e, Q (mkFieldError rowIndex c (header fi) e)) ->
  Forall Q collected ->
  match handleError rc rowIndex c fi val collected err with
  | Next s' => Forall Q s'.2
  | Return r => Forall Q (errorsOf r)
  | Panics _ => True
  end.
Proof.
  intros Hnew Hold. unfold handleError.
  destruct err as [e|]; [|done].
  destruct (negb _); [|done].
  destruct (N.eqb _ UnmarshalErrorAbort).
  { unfold errorsOf. simpl. by repeat constructor. }
  assert (Forall Q (collected ++ [mkFieldError rowIndex c (header fi) e])) as Hall.
  { apply Forall_app. split; [done|]. by repeat constructor. }
  by destruct (_ && _).
Qed.

Lemma readCell_reports (Q : FieldError -> Prop) rc typ f cfg rowIndex row
    (s : list reflect.data * list FieldError) c fi :
  (forall e, Q (mkFieldError rowIndex c (header fi) e)) ->
  Forall Q s.2 ->
  match readCell E rc typ f cfg rowIndex row s (c, fi) with
  | Next s' => Forall Q s'.2
  | Return r => Forall Q (errorsOf r)
  | Panics _ => True
  end.
Proof.
  destruct s as [val collected]. simpl. intros Hnew Hold. unfold readCell.
  destruct (unmarshalFunc fi) as [u|]; [|done].
  destruct (Field typ val (reflectFieldIndex fi)) as [destField|]; [|done].
  simpl.
  destruct (decodeCell E rc f cfg fi u destField _) as [[|d|d err]|]; simpl; try done.
  by apply handleError_reports.
Qed.

Lemma readRow_reports (Q : FieldError -> Prop) rc typ f sheet plan cfg filterFunc
    (s : list (list reflect.data) * list FieldError) rowIndex :
  (rowIndex >= ReadConfig.DataStartRowIndex rc ->
   forall n fi e, plan !! n = Some fi ->
     Q (mkFieldError rowIndex (Z.of_nat n) (header fi) e)) ->
  Forall Q s.2 ->
  match readRow E rc typ f sheet plan cfg filterFunc s rowIndex with
  | Next s' => Forall Q s'.2
  | Return r => Forall Q (errorsOf r)
  | Panics _ => True
  end.
Proof.
  destruct s as [ts collected]. simpl. intros Hnew Hold. unfold readRow.
  case_bool_decide as Hrow; [|done].
  destruct (xlsx.Row_ sheet rowIndex) as [row|]; [|done].
  pose proof (forEach_outcome
                (fun s : list reflect.data * list FieldError => Forall Q s.2)
                (fun r => Forall Q (errorsOf r))
                (readCell E rc typ f cfg rowIndex row) (indexed plan)) as Hloop.
  specialize (Hloop ltac:(intros s [c fi] Hin Hs;
                           apply list_elem_of_lookup in Hin as [n Hn];
                           rewrite indexed_lookup in Hn;
                           destruct (plan !! n) as [fi'|] eqn:Hpn; [|done];
                           injection Hn as <- <-;
                           apply readCell_reports; [|done];
                           intros e; by apply Hnew)
                     (zeroRecord typ, collected) Hold).
  by destruct (forEach _ _ _) as [[nT collected1]|r|msg].
Qed.

Lemma rowLoop_reports (Q : FieldError -> Prop) rc typ f sheet plan filterFunc :
  (forall rowIndex n fi e,
     ReadConfig.DataStartRowIndex rc <= rowIndex < xlsx.MaxRow sheet ->
     0 <= rowIndex ->
     plan !! n = Some fi ->
     Q (mkFieldError rowIndex (Z.of_nat n) (header fi) e)) ->
  match rowLoop E rc typ f sheet plan filterFunc with
  | Next s' => Forall Q s'.2
  | Return r => Forall Q (errorsOf r)
  | Panics _ => True
  end.
Proof.
  intros Hnew. unfold rowLoop.
  apply (forEach_outcome
           (fun s : list (list reflect.data) * list FieldError => Forall Q s.2)
           (fun r => Forall Q (errorsOf r))); [|by constructor].
  intros s rowIndex Hin Hs. apply elem_of_seqZ in Hin.
  apply readRow_reports; [|done].
  intros Hstart n fi e Hn. apply Hnew; [lia|lia|done].
Qed.

(** The return of the aggregate error out of the middle of the row loop
    happens under a policy that collects. *)
Lemma handleError_aggregate rc rowIndex c fi val collected err r ce :
  handleError rc rowIndex c fi val collected err = Return r ->
  r.2 = Some (ofContentError ce) ->
  collecting rc /\ LimitReached ce = true.
Proof.
  unfold handleError, collecting.
  destruct err as [e|]; [|done].
  destruct (N.eqb_spec (ReadConfig.UnmarshalErrorHandling_ rc) UnmarshalErrorIgnore)
    as [Hi|Hi]; simpl; [done|].
  destruct (N.eqb_spec (ReadConfig.UnmarshalErrorHandling_ rc) UnmarshalErrorAbort)
    as [Ha|Ha].
  { by intros [= <-]. }
  destruct (_ && _); [|done]. intros [= <-]. simpl. by intros [= <-].
Qed.

Lemma readCell_aggregate rc typ f cfg rowIndex row
    (s : list reflect.data * list FieldError) (b : Z * fieldInfo) r :
  readCell E rc typ f cfg rowIndex row s b = Return r ->
  forall ce, r.2 = Some (ofContentError ce) -> collecting rc /\ LimitReached ce = true.
Proof.
  destruct s as [val collected], b as [c fi]. unfold readCell.
  destruct (unmarshalFunc fi) as [u|]; [|done].
  destruct (Field typ val (reflectFieldIndex fi)) as [destField|]; [|done].
  simpl.
  destruct (decodeCell E rc f cfg fi u destField _) as [[|d|d err]|]; simpl; try done.
  intros Hh ce. by apply (handleError_aggregate _ _ _ _ _ _ _ _ _ Hh).
Qed.

Lemma readRow_aggregate rc typ f sheet plan cfg filterFunc
    (s : list (list reflect.data) * list FieldError) rowIndex r :
  readRow E rc typ f sheet plan cfg filterFunc s rowIndex = Return r ->
  forall ce, r.2 = Some (ofContentError ce) -> collecting rc /\ LimitReached ce = true.
Proof.
  destruct s as [ts collected]. unfold readRow.
  case_bool_decide; [|done].
  destruct (xlsx.Row_ sheet rowIndex) as [row|]; [|done].
  destruct (forEach _ _ _) as [[nT collected1]|r1|msg] eqn:Hcols; [done| |done].
  intros [= <-].
  apply (forEach_return (fun _ => True)
           (fun r => forall ce, r.2 = Some (ofContentError ce) ->
                       collecting rc /\ LimitReached ce = true) _ _
           (fun _ _ _ _ _ => I)
           (fun s b r _ => readCell_aggregate rc typ f cfg rowIndex row s b r)
           _ _ I Hcols).
Qed.

Lemma rowLoop_aggregate rc typ f sheet plan filterFunc r ce :
  rowLoop E rc typ f sheet plan filterFunc = Return r ->
  r.2 = Some (ofContentError ce) ->
  collecting rc /\ LimitReached ce = true.
Proof.
  intros Hloop.
  apply (forEach_return (fun _ => True)
           (fun r => forall ce, r.2 = Some (ofContentError ce) ->
                       collecting rc /\ LimitReached ce = true) _ _
           (fun _ _ _ _ _ => I)
           (fun s b r _ => readRow_aggregate rc typ f sheet plan _ filterFunc s b r)
           _ _ I Hloop).
Qed.

End Reports.

(** X18. Every field error that [ReadBinary] reports, alone under the
    abort policy or inside an aggregate, names a cell of the data region
    and the column's header: its row index is a row from the data start
    row on and below [MaxRow], its column index is a column of the sheet,
    and its header is the text of the header row in that column. Its
    message shows the row number counted from one, that is the row index
    plus one, and unwrapping it gives the conversion routine's error. *)
Theorem X18_field_errors_name_cells (E : Externals) (typ : StructType) (f : xlsx.File)
    (filterFunc : list (option (list reflect.data -> bool)))
    (r : ReadResult) (fe : FieldError) :
  let rc := ReadConfigure typ defaultReadConfig in
  readDocument E typ f filterFunc = ok r ->
  fe ∈ errorsOf r ->
  exists sheet headerRow,
    reachesBinding typ f sheet headerRow
    /\ ReadConfig.DataStartRowIndex rc <= RowIndex fe < xlsx.MaxRow sheet
    /\ 0 <= ColumnIndex fe < xlsx.MaxCol sheet
    /\ readStrings (xlsx.MaxCol sheet) headerRow !! Z.to_nat (ColumnIndex fe)
       = Some (ColumnHeader fe)
    /\ FieldError_Error fe
       = ("error unmarshalling column " ++ dquote ++ ColumnHeader fe ++ dquote
          ++ " in row " ++ pretty (RowIndex fe + 1) ++ ": " ++ Error_ (Err fe))%string
    /\ FieldError_Unwrap fe = Err fe.
Proof.
  intros rc. unfold readDocument. fold rc.
  destruct (_ || _) eqn:H1; [intros [= <-]; by intros ?%elem_of_nil|].
  apply orb_false_elim in H1 as [H1a H1b]. apply bool_decide_eq_false in H1a, H1b.
  destruct (xlsx.Sheets f !! _) as [sheet|] eqn:Hs; [|done].
  destruct (_ || _) eqn:H2; [intros [= <-]; by intros ?%elem_of_nil|].
  apply orb_false_elim in H2 as [H2a H2b]. apply bool_decide_eq_false in H2a, H2b.
  destruct (_ || _) eqn:H3; [intros [= <-]; by intros ?%elem_of_nil|].
  apply orb_false_elim in H3 as [H3a H3b]. apply bool_decide_eq_false in H3a, H3b.
  destruct (xlsx.Row_ sheet _) as [headerRow|] eqn:Hhr; [|done].
  case_bool_decide as Hmc; [done|].
  destruct (bindColumns E rc typ _ _) as [plan|e|msg] eqn:Hbind;
    [|intros [= <-]; by intros ?%elem_of_nil|done].
  intros Hread Hfe.
  exists sheet, headerRow. split; [split; unfold rc in *; (lia || done)|].
  destruct (bindColumns_plan E rc typ _ _ plan Hbind) as [Hlen Hall].
  assert (length (readStrings (xlsx.MaxCol sheet) headerRow)
          = Z.to_nat (xlsx.MaxCol sheet)) as Hheaders.
  { unfold readStrings. by rewrite length_fmap, length_seqZ. }
  pose proof (rowLoop_reports E
                (fun fe =>
                   (ReadConfig.DataStartRowIndex rc <= RowIndex fe < xlsx.MaxRow sheet)
                   /\ (0 <= ColumnIndex fe < xlsx.MaxCol sheet)
                   /\ readStrings (xlsx.MaxCol sheet) headerRow !! Z.to_nat (ColumnIndex fe)
                      = Some (ColumnHeader fe))
                rc typ f sheet plan filterFunc) as Hreports.
  specialize (Hreports ltac:(
    intros rowIndex n fi e0 Hrow _ Hn; simpl;
    pose proof (lookup_lt_Some _ _ _ Hn) as Hlt;
    split; [done|]; split; [lia|];
    rewrite Nat2Z.id;
    destruct (lookup_lt_is_Some_2 (readStrings (xlsx.MaxCol sheet) headerRow) n) as [h Hh];
      [lia|];
    destruct (Hall n h Hh) as (fi' & Hfi' & Hb);
    assert (fi' = fi) as -> by congruence;
    destruct (bindColumn_cases E rc typ (Z.of_nat n) h)
      as [(fi2 & Hb2 & Hheader)|[[Hb2 _]|[Hb2 _]]]; rewrite Hb2 in Hb; [|done..];
    injection Hb as ->; by rewrite Hheader)).
  rewrite readRows_rowLoop in Hread.
  assert (Forall (fun fe =>
                    (ReadConfig.DataStartRowIndex rc <= RowIndex fe < xlsx.MaxRow sheet)
                    /\ (0 <= ColumnIndex fe < xlsx.MaxCol sheet)
                    /\ readStrings (xlsx.MaxCol sheet) headerRow !! Z.to_nat (ColumnIndex fe)
                       = Some (ColumnHeader fe)) (errorsOf r)) as Hr.
  { destruct (rowLoop E rc typ f sheet plan filterFunc) as [[ts collected]|r0|msg];
      [|by injection Hread as <-|done].
    case_bool_decide; injection Hread as <-; [done|by constructor]. }
  rewrite Forall_forall in Hr. destruct (Hr fe Hfe) as (Hrow & Hcol & Hheader).
  split; [done|]. split; [done|]. split; [done|]. by split.
Qed.

(** X19. An aggregate error comes from a collecting policy only, and its
    count is bounded by the cap: when [ReadBinary] returns a
    [ContentError], the policy neither ignores nor aborts and the error
    holds at least one field error; with the limit flag set the cap is
    positive and the error holds exactly as many field errors as the cap,
    so its message is "too many (cap) errors reading data from Excel";
    with the flag unset the cap is zero or above the number of field
    errors, and the message gives that number. Unwrapping gives the field
    errors, one error each, in the same order. *)
Theorem X19_aggregate_error (E : Externals) (typ : StructType) (f : xlsx.File)
    (filterFunc : list (option (list reflect.data -> bool)))
    (ts : option (list (list reflect.data))) (ce : ContentError) :
  let rc := ReadConfigure typ defaultReadConfig in
  let cap := ReadConfig.MaxUnmarshalErrors rc in
  readDocument E typ f filterFunc = ok (ts, Some (ofContentError ce)) ->
  ReadConfig.UnmarshalErrorHandling_ rc <> UnmarshalErrorIgnore
  /\ ReadConfig.UnmarshalErrorHandling_ rc <> UnmarshalErrorAbort
  /\ FieldErrors ce <> []
  /\ (if LimitReached ce
      then (0 < cap)%N /\ N.of_nat (length (FieldErrors ce)) = cap
           /\ ContentError_Error ce
              = ("too many (" ++ pretty (Z.of_N cap)
                 ++ ") errors reading data from Excel")%string
      else (cap = 0%N \/ (N.of_nat (length (FieldErrors ce)) < cap)%N)
           /\ ContentError_Error ce
              = (pretty (Z.of_nat (length (FieldErrors ce)))
                 ++ " errors reading data from Excel")%string)
  /\ ContentError_Unwrap ce = ofFieldError <$> FieldErrors ce.
Proof.
  intros rc cap. unfold readDocument. fold rc.
  destruct (_ || _); [done|].
  destruct (xlsx.Sheets f !! _) as [sheet|]; [|done].
  destruct (_ || _); [done|].
  destruct (_ || _); [done|].
  destruct (xlsx.Row_ sheet _) as [headerRow|]; [|done].
  case_bool_decide; [done|].
  destruct (bindColumns E rc typ _ _) as [plan|e|msg]; [|done..].
  rewrite readRows_rowLoop.
  destruct (rowLoop E rc typ f sheet plan filterFunc) as [[ts0 collected]|r|msg] eqn:Hloop;
    [| |done].
  - case_bool_decide as Hsome; [|done]. intros [= <- <-]. simpl.
    destruct (rowLoop_collectedOk E rc typ f sheet plan filterFunc ts0 collected Hloop)
      as [->|[[Hi Ha] Hunder]]; [simpl in Hsome; lia|].
    split; [done|]. split; [done|]. split.
    { destruct collected; [simpl in Hsome; lia|done]. }
    by split.
  - intros [= ->].
    destruct (rowLoop_aggregate E rc typ f sheet plan filterFunc _ ce Hloop eq_refl)
      as [[Hi Ha] Hflag].
    apply rowLoop_return in Hloop as [_ [(fe & Hfe & _)|(collected & Hce & Hpos & Hcount)]];
      simpl in *; [done|].
    injection Hce as ->. simpl in *.
    split; [done|]. split; [done|]. split.
    { destruct collected; [|done]. simpl in Hcount. fold cap in Hpos. lia. }
    split; [|done]. split; [done|]. split; [done|].
    unfold ContentError_Error, cap. simpl. rewrite <- Hcount.
    by rewrite nat_N_Z.
Qed.

Lemma X18_field_errors_name_cells_witness :
  exists sheet headerRow,
    reachesBinding Cases.Exact Sample.scoreFile sheet headerRow
    /\ 1 <= RowIndex (Sample.scoreError 1) < xlsx.MaxRow sheet
    /\ 0 <= ColumnIndex (Sample.scoreError 1) < xlsx.MaxCol sheet
    /\ readStrings (xlsx.MaxCol sheet) headerRow
         !! Z.to_nat (ColumnIndex (Sample.scoreError 1))
       = Some (ColumnHeader (Sample.scoreError 1))
    /\ FieldError_Error (Sample.scoreError 1)
       = ("error unmarshalling column " ++ dquote ++ ColumnHeader (Sample.scoreError 1)
          ++ dquote ++ " in row " ++ pretty (RowIndex (Sample.scoreError 1) + 1) ++ ": "
          ++ Error_ (Err (Sample.scoreError 1)))%string
    /\ FieldError_Unwrap (Sample.scoreError 1) = Err (Sample.scoreError 1).
Proof.
  apply (X18_field_errors_name_cells Sample.E Cases.Exact Sample.scoreFile []
           (None, Some (ofFieldError (Sample.scoreError 1))) (Sample.scoreError 1)).
  - vm_compute. reflexivity.
  - by left.
Defined.

Lemma X19_aggregate_error_witness :
  ContentError_Error (mkContentError [Sample.scoreError 1; Sample.scoreError 3] true)
  = ("too many (" ++ pretty (Z.of_N 2) ++ ") errors reading data from Excel")%string.
Proof.
  pose proof (X19_aggregate_error Sample.E (Sample.Score 2) Sample.scoreFile [] None
                (mkContentError [Sample.scoreError 1; Sample.scoreError 3] true)
                ltac:(vm_compute; reflexivity)) as (_ & _ & _ & Hcount & _).
  cbn [LimitReached] in Hcount. destruct Hcount as (_ & _ & Hmsg). exact Hmsg.
Defined.

(** * Panics of the read path *)

(** A loop whose iterations keep an invariant and do not panic under it
    does not panic. *)
Lemma forEach_safe {S R B} (I : S -> Prop) (body : S -> B -> flow S R) l :
  (forall s b, b ∈ l -> I s ->
     match body s b with
     | Next s' => I s'
     | Return _ => True
     | Panics _ => False
     end) ->
  forall s, I s ->
    match forEach body l s with
    | Next s' => I s'
    | Return _ => True
    | Panics _ => False
    end.
Proof.
  induction l as [|b l IH]; intros Hstep s Hs; [done|].
  rewrite forEach_cons.
  pose proof (Hstep s b ltac:(by left) Hs) as Hb.
  destruct (body s b) as [s1|r|msg]; [|done..].
  apply IH; [|done]. intros s' b' Hin. apply Hstep. by right.
Qed.

Section Safe.

Context (E : Externals).

(** The cases of the column loop that come before the bound routine do
    not panic on a field that is not a settable [*bool]. *)
Lemma decodeCell_safe rc f cfg fi unmarshal destField cell :
  (reflect.CanSet destField = true ->
   reflect.Type_ destField <> reflect.PtrTo (reflect.Basic reflect.Bool)) ->
  (forall msg, unmarshal destField cell cfg <> panic msg) ->
  forall msg, decodeCell E rc f cfg fi unmarshal destField cell <> panic msg.
Proof.
  intros Hbool Hroutine msg.
  assert (exists r, unmarshal destField cell cfg = ok r) as [r Hr].
  { destruct (unmarshal destField cell cfg) as [r|msg0]; [by eexists|].
    by destruct (Hroutine msg0). }
  clear Hroutine. unfold decodeCell. rewrite Hr.
  destruct (_ && _ && _); [done|].
  destruct (reflect.CanSet destField) eqn:Hset.
  2:{ rewrite andb_false_r. unfold boolCase, stringCase. by rewrite Hset, !andb_false_r. }
  specialize (Hbool eq_refl). rewrite andb_true_r.
  case_bool_decide as Htime.
  { unfold reflect.Set_. rewrite Hset. simpl. unfold reflect.Type_ in Htime.
    by rewrite Htime, bool_decide_eq_true_2. }
  unfold boolCase. rewrite Hset, andb_true_r.
  rewrite (bool_decide_eq_false_2 (reflect.Type_ destField = _)) by done.
  rewrite orb_false_r.
  case_bool_decide as Hkb.
  { rewrite (bool_decide_eq_false_2 (reflect.Kind_ destField = reflect.Ptr)) by congruence.
    unfold reflect.SetBool. rewrite Hset, bool_decide_eq_true_2 by done. simpl.
    destruct (String.eqb _ "是"); [done|]. destruct (String.eqb _ "否"); [done|].
    unfold stringCase.
    rewrite (bool_decide_eq_false_2 (reflect.Kind_ destField = reflect.String)) by congruence.
    rewrite (bool_decide_eq_false_2 (reflect.Type_ destField = _)); [done|].
    intros Ht. unfold reflect.Kind_, reflect.Type_ in *. by rewrite Ht in Hkb. }
  unfold stringCase. rewrite Hset, andb_true_r.
  destruct (bool_decide (reflect.Kind_ destField = reflect.String)
            || bool_decide (reflect.Type_ destField
                            = reflect.PtrTo (reflect.Basic reflect.String))) eqn:Hstr;
    [|done].
  destruct (ReadConfig.DropListMap rc) as [m|]; [|done].
  destruct (m !! header fi) as [dropList|]; [|done].
  apply orb_true_iff in Hstr as [Hk|Ht].
  - apply bool_decide_eq_true in Hk.
    rewrite (bool_decide_eq_false_2 (reflect.Kind_ destField = reflect.Ptr)) by congruence.
    unfold reflect.SetString. by rewrite Hset, bool_decide_eq_true_2.
  - apply bool_decide_eq_true in Ht.
    rewrite (bool_decide_eq_true_2 (reflect.Kind_ destField = reflect.Ptr)).
    2:{ unfold reflect.Kind_, reflect.Type_ in *. by rewrite Ht. }
    unfold reflect.Set_. rewrite Hset. simpl. unfold reflect.Type_ in Ht.
    by rewrite Ht, bool_decide_eq_true_2.
Qed.

(** The columns of a plan that the row loop can run without panic: each
    bound column has a field of the record type that is not a settable
    [*bool], and a routine that does not panic. *)
Definition safeColumn (typ : StructType) (fi : fieldInfo) : Prop :=
  forall u, unmarshalFunc fi = Some u ->
    exists fe,
      Fields typ !! reflectFieldIndex fi = Some fe
      /\ (reflect.IsExported fe = true ->
          reflect.FieldType fe <> reflect.PtrTo (reflect.Basic reflect.Bool))
      /\ forall d cell cfg msg,
           u (reflect.mkValue (reflect.FieldType fe) d (negb (reflect.IsExported fe)))
             cell cfg <> panic msg.

Lemma readCell_safe rc typ f cfg rowIndex row (s : list reflect.data * list FieldError)
    c fi :
  safeColumn typ fi ->
  length s.1 = NumField typ ->
  match readCell E rc typ f cfg rowIndex row s (c, fi) with
  | Next s' => length s'.1 = NumField typ
  | Return _ => True
  | Panics _ => False
  end.
Proof.
  destruct s as [val collected]. simpl. intros Hsafe Hlen. unfold readCell.
  destruct (unmarshalFunc fi) as [u|] eqn:Hu; [|done].
  destruct (Hsafe u Hu) as (fe & Hfe & Hbool & Hroutine).
  destruct (lookup_lt_is_Some_2 val (reflectFieldIndex fi)) as [d Hd].
  { rewrite Hlen. unfold NumField. by eapply lookup_lt_Some. }
  unfold Field. rewrite Hfe, Hd. cbn [liftRes].
  pose proof (decodeCell_safe rc f cfg fi u
                (reflect.mkValue (reflect.FieldType fe) d (negb (reflect.IsExported fe)))
                (xlsx.GetCell row c)) as Hdecode.
  destruct (decodeCell E rc f cfg fi u _ _) as [[|d'|d' err]|msg]; cbn [liftRes].
  - done.
  - simpl. by rewrite length_insert.
  - unfold handleError.
    repeat case_match; simplify_eq/=; try done; by rewrite length_insert.
  - eapply Hdecode; [|apply Hroutine|done].
    unfold reflect.CanSet, reflect.Type_. simpl. rewrite negb_involutive. apply Hbool.
Qed.

Lemma readRow_safe rc typ f sheet plan cfg filterFunc
    (s : list (list reflect.data) * list FieldError) rowIndex :
  Forall (safeColumn typ) plan ->
  match readRow E rc typ f sheet plan cfg filterFunc s rowIndex with
  | Panics _ => False
  | _ => True
  end.
Proof.
  destruct s as [ts collected]. intros Hsafe. unfold readRow.
  case_bool_decide; [|done].
  destruct (xlsx.Row_ sheet rowIndex) as [row|]; [|done].
  pose proof (forEach_safe
                (fun s : list reflect.data * list FieldError => length s.1 = NumField typ)
                (readCell E rc typ f cfg rowIndex row) (indexed plan)) as Hloop.
  specialize (Hloop ltac:(intros s [c fi] Hin Hs;
                           apply list_elem_of_lookup in Hin as [n Hn];
                           rewrite indexed_lookup in Hn;
                           destruct (plan !! n) as [fi'|] eqn:Hpn; [|done];
                           injection Hn as <- <-;
                           apply readCell_safe; [|done];
                           rewrite Forall_forall in Hsafe; apply Hsafe;
                           by eapply list_elem_of_lookup_2)
                     (zeroRecord typ, collected)
                     ltac:(unfold zeroRecord, NumField; simpl; by rewrite length_fmap)).
  by destruct (forEach _ _ _) as [[nT collected1]|r|msg].
Qed.

Lemma rowLoop_safe rc typ f sheet plan filterFunc :
  Forall (safeColumn typ) plan ->
  forall msg, rowLoop E rc typ f sheet plan filterFunc <> Panics msg.
Proof.
  intros Hsafe msg Hloop.
  pose proof (forEach_safe (fun _ => True)
                (readRow E rc typ f sheet plan
                   (mkExcelUnmarshalParameters (ReadConfig.TrimSpace rc) (xlsx.Date1904 f)
                      (ReadConfig.FallbackDateFormats rc)) filterFunc)
                (seqZ 0 (xlsx.MaxRow sheet))) as Hrows.
  specialize (Hrows ltac:(intros s b _ _;
                           pose proof (readRow_safe rc typ f sheet plan
                                         (mkExcelUnmarshalParameters
                                            (ReadConfig.TrimSpace rc) (xlsx.Date1904 f)
                                            (ReadConfig.FallbackDateFormats rc))
                                         filterFunc s b Hsafe) as Hrow;
                           by destruct (readRow _ _ _ _ _ _ _ _ _ _))
                     ([], []) I).
  unfold rowLoop in Hloop. by rewrite Hloop in Hrows.
Qed.

End Safe.

(** X20. Once the header row is there, the read engine panics only through
    a conversion routine or a [*bool] field: when the indices are in range
    and the header row is stored, the conversion routine of no bound column
    panics on its field, and no bound column belongs to an exported field
    of type [*bool], [ReadBinary] returns, with rows or with an error; it
    does not panic, whatever the cells hold. *)
Theorem X20_read_does_not_panic (E : Externals) (typ : StructType) (f : xlsx.File)
    (sheet : xlsx.Sheet) (headerRow : list xlsx.Cell)
    (filterFunc : list (option (list reflect.data -> bool))) :
  let rc := ReadConfigure typ defaultReadConfig in
  let headers := readStrings (xlsx.MaxCol sheet) headerRow in
  reachesBinding typ f sheet headerRow ->
  (forall plan c fi u fe,
     bindColumns E rc typ (tagToFieldMap rc typ) headers = Next plan ->
     plan !! c = Some fi ->
     unmarshalFunc fi = Some u ->
     Fields typ !! reflectFieldIndex fi = Some fe ->
     (reflect.IsExported fe = true ->
      reflect.FieldType fe <> reflect.PtrTo (reflect.Basic reflect.Bool))
     /\ forall d cell cfg msg,
          u (reflect.mkValue (reflect.FieldType fe) d (negb (reflect.IsExported fe)))
            cell cfg <> panic msg) ->
  exists r, readDocument E typ f filterFunc = ok r.
Proof.
  intros rc headers Hreach Hcolumns.
  rewrite (readDocument_binding E typ f sheet headerRow filterFunc Hreach). simpl.
  fold rc headers.
  destruct (bindColumns E rc typ (tagToFieldMap rc typ) headers) as [plan|e|msg] eqn:Hbind.
  - assert (Forall (safeColumn typ) plan) as Hsafe.
    { rewrite Forall_forall. intros fi Hin u Hu.
      apply list_elem_of_lookup in Hin as [c Hc].
      destruct (bindColumns_fields E rc typ headers plan c fi Hbind Hc) as (h & _ & Hmap);
        [by rewrite Hu|].
      destruct (proj1 (tagToFieldMap_spec rc typ h _) Hmap) as (fe & Hfe & _).
      destruct (Hcolumns plan c fi u fe eq_refl Hc Hu Hfe) as [Hbool Hroutine].
      by exists fe. }
    rewrite readRows_rowLoop.
    pose proof (rowLoop_safe E rc typ f sheet plan filterFunc Hsafe) as Hloop.
    destruct (rowLoop E rc typ f sheet plan filterFunc) as [[ts collected]|r|msg].
    + case_bool_decide; by eexists.
    + by eexists.
    + by destruct (Hloop msg).
  - by eexists.
  - destruct (bindColumns_cases E rc typ headers) as [[plan Hplan]|(c & h & _ & Hfail)].
    + by rewrite Hplan in Hbind.
    + destruct Hfail as [[Hrun _]|[Hrun _]]; by rewrite Hrun in Hbind.
Qed.

Lemma X20_read_does_not_panic_witness :
  exists r,
    readDocument Sample.E Sample.Person (xlsx.mkFile [Cases.twoPersons] false) [] = ok r.
Proof.
  apply (X20_read_does_not_panic Sample.E Sample.Person
           (xlsx.mkFile [Cases.twoPersons] false) Cases.twoPersons
           [Sample.text "name"; Sample.text "active"; Sample.text "age"] []).
  - split; vm_compute; first [reflexivity | discriminate | split; discriminate].
  - intros plan c fi u fe Hbind Hc Hu Hfe.
    assert (Next (R:=error_)
              [mkFieldInfo 0 "name" (Some Sample.UnmarshalString);
               mkFieldInfo 1 "active" (Some Sample.UnmarshalBool);
               mkFieldInfo 2 "age"
                 (Some (fun destValue cell params =>
                          unmarshalPointer destValue cell params Sample.UnmarshalInt))]
            = Next plan) as Hplan.
    { rewrite <- Hbind. vm_compute. reflexivity. }
    injection Hplan as <-.
    destruct c as [|[|[|c]]]; simpl in Hc; [| | |done]; injection Hc as <-;
      simpl in Hu, Hfe; injection Hu as <-; injection Hfe as <-;
      (split; [intros _; discriminate|]); intros d cell cfg msg.
    + done.
    + unfold Sample.UnmarshalBool. by repeat case_match.
    + unfold unmarshalPointer, Sample.UnmarshalInt. simpl. by repeat case_match.
Defined.
